(** * OptiSharp benchmark harness (Python side): a shallow embedding

    The development follows the three Python modules the benchmark matrix
    is built from:

    - [objectives.py]      : the test functions and [get_intermediate_value];
    - [optuna_matrix.py]   : [run_benchmark], the trial driver;
    - [generate_report.py] : [load_results], [group_by_config],
                             [format_value] and the quality winner.

    Python floats are IEEE-754 binary64 values; they are modelled by the
    specification floats of the standard library ([spec_float] with
    precision 53 and maximal exponent 1024), so that [inf], [-inf] and
    [nan] are ordinary inhabitants and comparisons behave as in Python.
    Python exceptions are values of the type [exn]; code that may raise
    returns a [result]. *)

From Stdlib Require Import ZArith Lia List Bool.
From Stdlib Require Import Floats.SpecFloat.
From stdpp Require Import gmap strings list sorting pretty.

Open Scope Z_scope.

(** ** Exceptions and results *)

(** The error numbers under which [stat], [scandir] and [open] fail. *)
Inductive errno : Type :=
  | EPERM | ENOENT | EIO | EBADF | ENOMEM | EACCES | ENOTDIR | EISDIR
  | EINVAL | ENAMETOOLONG | ELOOP | EOVERFLOW.

#[global] Instance errno_eq_dec : EqDecision errno.
Proof. solve_decision. Defined.

(** An [OSError] carries its [errno] and, on Windows, its [winerror]. *)
Record oserror : Type := mkOSError {
  os_errno : errno;
  os_winerror : option Z
}.

Inductive exn : Type :=
  | ValueError (msg : string)
  | KeyError (key : string)
  | TypeError
  | OverflowError
  | ZeroDivisionError
  | OSError (err : oserror)
  | JSONDecodeError
  | TrialPruned
  | ProviderError (tag : string).

Inductive result (A : Type) : Type :=
  | Ok (a : A)
  | Raise (e : exn).
Arguments Ok {A} a.
Arguments Raise {A} e.

Definition is_ok {A} (r : result A) : bool :=
  match r with Ok _ => true | Raise _ => false end.

#[global] Instance result_ret : MRet result := λ A a, Ok a.
#[global] Instance result_bind : MBind result := λ A B k r,
  match r with Ok a => k a | Raise e => Raise e end.

(** ** Python floats *)

Module PyFloat.

Definition prec : Z := 53.
Definition emax : Z := 1024.

Abbreviation float := spec_float.

Definition inf : float := S754_infinity false.
Definition neg_inf : float := S754_infinity true.
Definition nan : float := S754_nan.

Definition mul : float -> float -> float := SFmul prec emax.
Definition add : float -> float -> float := SFadd prec emax.
Definition sub : float -> float -> float := SFsub prec emax.
Definition div : float -> float -> float := SFdiv prec emax.
Definition abs : float -> float := SFabs.
Definition eqb : float -> float -> bool := SFeqb.
Definition ltb : float -> float -> bool := SFltb.
Definition leb : float -> float -> bool := SFleb.
Definition neqb (x y : float) : bool := negb (eqb x y).
Definition gtb (x y : float) : bool := ltb y x.
Definition geb (x y : float) : bool := leb y x.

(** [float(n)] for an integer that fits; the nearest double, ties to
    even.  The literal helpers below are only used below [2^53]. *)
Definition of_Z (n : Z) : float := binary_normalize prec emax n 0 false.

(** [float(n)] as Python performs it in mixed arithmetic: integers beyond
    the double range raise [OverflowError]. *)
Definition of_int (n : Z) : result float :=
  match of_Z n with
  | S754_infinity _ => Raise OverflowError
  | f => Ok f
  end.

(** The double denoted by the decimal literal [n/d]: division is
    correctly rounded and both operands are exact. *)
Definition lit (n d : Z) : float := div (of_Z n) (of_Z d).

Definition is_nan (x : float) : bool :=
  match x with S754_nan => true | _ => false end.

Definition is_finite (x : float) : bool :=
  match x with
  | S754_zero _ | S754_finite _ _ _ => true
  | S754_infinity _ | S754_nan => false
  end.

(** [int(x)]: truncation towards zero. *)
Definition to_int (x : float) : result Z :=
  match x with
  | S754_zero _ => Ok 0
  | S754_finite s m e =>
      let a := if 0 <=? e then Z.pos m * 2 ^ e else Z.pos m / 2 ^ (- e) in
      Ok (if s then - a else a)
  | S754_infinity _ => Raise OverflowError
  | S754_nan => Raise (ValueError "cannot convert float NaN to integer")
  end.

(** *** Decimal formatting: the [f] and [e] presentation types

    CPython formats a double from its exact binary value, correctly
    rounded with ties to even. *)

Definition round_half_even (num den : Z) : Z :=
  let q := num / den in
  let r := num mod den in
  match 2 * r ?= den with
  | Lt => q
  | Gt => q + 1
  | Eq => if Z.even q then q else q + 1
  end.

(** The exact value of a finite double as a fraction. *)
Definition fraction (m : positive) (e : Z) : Z * Z :=
  if 0 <=? e then (Z.pos m * 2 ^ e, 1) else (Z.pos m, 2 ^ (- e)).

Definition sign_str (s : bool) : string := if s then "-" else "".

Fixpoint zeros (n : nat) : string :=
  match n with O => "" | S k => ("0" +:+ zeros k)%string end.

Definition zero_pad (width : nat) (s : string) : string :=
  (zeros (width - String.length s) +:+ s)%string.

Definition fixed_digits (p : nat) (n : Z) : string :=
  let s := zero_pad (S p) (pretty n) in
  let k := (String.length s - p)%nat in
  match p with
  | O => s
  | _ => (String.substring 0 k s +:+ "." +:+ String.substring k p s)%string
  end.

Definition format_f (p : nat) (x : float) : string :=
  match x with
  | S754_nan => "nan"
  | S754_infinity s => (sign_str s +:+ "inf")%string
  | S754_zero s => (sign_str s +:+ fixed_digits p 0)%string
  | S754_finite s m e =>
      let '(n, d) := fraction m e in
      (sign_str s +:+
       fixed_digits p (round_half_even (n * 10 ^ Z.of_nat p) d))%string
  end.

Definition pow10_le (E n d : Z) : bool :=
  if 0 <=? E then 10 ^ E * d <=? n else d <=? n * 10 ^ (- E).

(** The decimal exponent of [n/d]: the largest [E] at or below the start
    with [10^E <= n/d]. *)
Fixpoint decimal_exponent (fuel : nat) (E n d : Z) : Z :=
  match fuel with
  | O => E
  | S k => if pow10_le E n d then E else decimal_exponent k (E - 1) n d
  end.

Definition sci_digits (p : nat) (E n d : Z) : Z :=
  let k := E - Z.of_nat p in
  if 0 <=? k then round_half_even n (d * 10 ^ k)
  else round_half_even (n * 10 ^ (- k)) d.

Definition sci_string (p : nat) (s : string) (E : Z) : string :=
  let mant :=
    match p with
    | O => String.substring 0 1 s
    | _ => (String.substring 0 1 s +:+ "." +:+ String.substring 1 p s)%string
    end in
  (mant +:+ "e" +:+ (if Z.ltb E 0 then "-" else "+")
        +:+ zero_pad 2 (pretty (Z.abs E)))%string.

Definition format_e (p : nat) (x : float) : string :=
  match x with
  | S754_nan => "nan"
  | S754_infinity s => (sign_str s +:+ "inf")%string
  | S754_zero s => (sign_str s +:+ sci_string p (zeros (S p)) 0)%string
  | S754_finite s m e =>
      let '(n, d) := fraction m e in
      let E := decimal_exponent 700 309 n d in
      let ds := sci_digits p E n d in
      let '(ds, E) :=
        if 10 ^ Z.of_nat (S p) <=? ds then (ds / 10, E + 1) else (ds, E) in
      (sign_str s +:+ sci_string p (pretty ds) E)%string
  end.

End PyFloat.
Import PyFloat.

(** ** generate_report.py: the result record and its canonical key

    Both [BenchmarkResult] classes (the producer's in [optuna_matrix.py]
    and the reader's in [generate_report.py]) carry the same fourteen
    fields; the fields have the types the producer's [to_dict] writes. *)

Record BenchmarkResult : Type := mkBenchmarkResult {
  framework : string;
  sampler : string;
  objective : string;
  n_params : Z;
  n_trials : Z;
  pruner : string;
  tier : string;
  best_value : float;
  elapsed_ms : Z;
  trials_per_second : float;
  pruned_trials : Z;
  pruning_rate : float;
  convergence : list float;
  seed : Z
}.

Abbreviation Key := (string * string * Z * Z * string * string)%type.

(** [BenchmarkResult.key] *)
Definition key (r : BenchmarkResult) : Key :=
  (sampler r, objective r, n_params r, n_trials r, pruner r, tier r).

(** ** generate_report.py: [group_by_config]

    [grouped] is a [defaultdict(dict)]: looking up an absent key yields a
    fresh empty inner dictionary, which the assignment then fills. *)

Definition group_insert (grouped : gmap Key (gmap string BenchmarkResult))
    (result : BenchmarkResult) : gmap Key (gmap string BenchmarkResult) :=
  let k := key result in
  <[k := <[framework result := result]> (default ∅ (grouped !! k))]> grouped.

Definition group_by_config (results : list BenchmarkResult)
    : gmap Key (gmap string BenchmarkResult) :=
  foldl group_insert ∅ results.

(** [grouped[k][f]], when both levels are present. *)
Definition retained (grouped : gmap Key (gmap string BenchmarkResult))
    (k : Key) (f : string) : option BenchmarkResult :=
  grouped !! k ≫= λ frameworks, frameworks !! f.

(** The results of the input list produced by framework [f] for the
    configuration [k], in input order. *)
Definition candidates (k : Key) (f : string) (results : list BenchmarkResult)
    : list BenchmarkResult :=
  filter (λ r, key r = k ∧ framework r = f) results.

(** ** generate_report.py: [format_value] *)

Definition format_value (value : float) (is_time : bool) : string :=
  if eqb value inf then "N/A"
  else if is_time then
    if geb value (of_Z 60000)
    then (format_f 1 (div value (of_Z 1000)) +:+ "s")%string
    else (format_f 0 value +:+ "ms")%string
  else
    if ltb (abs value) (lit 1 1000) then format_e 2 value
    else if ltb (abs value) (of_Z 1) then format_f 4 value
    else format_f 2 value.

(** ** generate_report.py: the quality table of [generate_summary_tables] *)

(** The conditional expression that computes [winner] (line 108). *)
Definition quality_winner (cs py : BenchmarkResult) : string :=
  if neqb (best_value cs) inf && neqb (best_value py) inf
     && ltb (best_value cs) (best_value py)
  then "OptiSharp"
  else if neqb (best_value py) inf && neqb (best_value cs) inf
          && ltb (best_value py) (best_value cs)
  then "Optuna"
  else "Tie".

Definition newline : string := String (Ascii.ascii_of_nat 10) "".

(** One iteration of the loop over [grouped.items()]: the row appended for
    a key, if any.  A result object is always truthy, so [if cs and py]
    tests that both frameworks are present. *)
Definition quality_row (k : Key) (frameworks : gmap string BenchmarkResult)
    : option string :=
  let '(sampler, objective, n_params, n_trials, pruner, _) := k in
  match frameworks !! "optisharp", frameworks !! "optuna" with
  | Some cs, Some py =>
      let cs_val := format_value (best_value cs) false in
      let py_val := format_value (best_value py) false in
      let winner := quality_winner cs py in
      Some ("| " +:+ objective +:+ " | " +:+ sampler +:+ " | "
            +:+ pretty n_params +:+ " | " +:+ pretty n_trials +:+ " | "
            +:+ pruner +:+ " | " +:+ cs_val +:+ " | " +:+ py_val +:+ " | "
            +:+ winner +:+ " |" +:+ newline)%string
  | _, _ => None
  end.

(** ** generate_report.py: [load_results]

    The file system, as far as [load_results] observes it.  Asked about
    a path, [stat] finds nothing, or fails with an error, or finds a
    regular file or a directory; a directory lists its named entries, or
    fails to.  An entry is represented by what [open] and [json.load]
    make of it: an exception (a subdirectory, a broken link, text that
    is not JSON), a JSON value that is not an object, or the decoded
    object, field by field ([None] for an absent key).  Text is held in
    UTF-8. *)

Record Data : Type := mkData {
  d_framework : option string;
  d_sampler : option string;
  d_objective : option string;
  d_n_params : option Z;
  d_n_trials : option Z;
  d_pruner : option string;
  d_tier : option string;
  d_best_value : option float;
  d_elapsed_ms : option Z;
  d_trials_per_second : option float;
  d_pruned_trials : option Z;
  d_pruning_rate : option float;
  d_convergence : option (list float);
  d_seed : option Z
}.

Inductive entry : Type :=
  | Unreadable (e : exn)
  | JsonValue
  | JsonObject (data : Data).

Inductive node : Type :=
  | FileNode
  | DirNode (entries : gmap string entry)
  | UnlistableDir (err : oserror)
  | Unreachable (err : oserror).

(** [data[name]] *)
Definition getitem {A} (name : string) (field : option A) : result A :=
  match field with
  | Some v => Ok v
  | None => Raise (KeyError name)
  end.


(** [BenchmarkResult.__init__] of the reader *)
Definition BenchmarkResult_init (data : Data) : result BenchmarkResult :=
  framework ← getitem "framework" (d_framework data);
  sampler ← getitem "sampler" (d_sampler data);
  objective ← getitem "objective" (d_objective data);
  n_params ← getitem "n_params" (d_n_params data);
  n_trials ← getitem "n_trials" (d_n_trials data);
  pruner ← getitem "pruner" (d_pruner data);
  tier ← getitem "tier" (d_tier data);
  best_value ← getitem "best_value" (d_best_value data);
  elapsed_ms ← getitem "elapsed_ms" (d_elapsed_ms data);
  trials_per_second ← getitem "trials_per_second" (d_trials_per_second data);
  pruned_trials ← getitem "pruned_trials" (d_pruned_trials data);
  pruning_rate ← getitem "pruning_rate" (d_pruning_rate data);
  convergence ← getitem "convergence" (d_convergence data);
  seed ← getitem "seed" (d_seed data);
  Ok (mkBenchmarkResult framework sampler objective n_params n_trials pruner
        tier best_value elapsed_ms trials_per_second pruned_trials
        pruning_rate convergence seed).

(** [BenchmarkResult.to_dict] of the producer ([optuna_matrix.py]): the
    object that [save] writes. *)
Definition to_dict (r : BenchmarkResult) : Data :=
  mkData (Some (framework r)) (Some (sampler r)) (Some (objective r))
    (Some (n_params r)) (Some (n_trials r)) (Some (pruner r))
    (Some (tier r)) (Some (best_value r)) (Some (elapsed_ms r))
    (Some (trials_per_second r)) (Some (pruned_trials r))
    (Some (pruning_rate r)) (Some (convergence r)) (Some (seed r)).

(** The body of the [try] for one path: [open], [json.load], the
    constructor (subscripting a value that is not an object raises
    [TypeError]). *)
Definition load_file (e : entry) : result BenchmarkResult :=
  match e with
  | Unreadable ex => Raise ex
  | JsonValue => Raise TypeError
  | JsonObject data => BenchmarkResult_init data
  end.

(** *** pathlib: the two path flavours

    A flavour fixes how the names of a directory are compared
    ([casefold]) and how a pattern is matched ([compile_pattern], here
    for the one pattern ["*.json"]). *)

Record Flavour : Type := mkFlavour {
  casefold : string -> string;
  matches_json : string -> bool
}.

Definition ends_with (suffix name : string) : bool :=
  let n := String.length name in
  let k := String.length suffix in
  (k <=? n)%nat && String.eqb (String.substring (n - k) k name) suffix.

(** [_PosixFlavour]: names compare as they are, and the pattern is
    matched as it is. *)
Definition posix_flavour : Flavour :=
  mkFlavour (λ s, s) (ends_with ".json").

(** U+017F, the one character outside ASCII that the regular expression
    engine, ignoring case, takes for a letter of [json]. *)
Definition long_s : string :=
  String (Ascii.ascii_of_nat 197) (String (Ascii.ascii_of_nat 191) "").

Definition json_suffixes_ignoring_case : list string :=
  j ← ["j"; "J"]; s ← ["s"; "S"; long_s]; o ← ["o"; "O"]; n ← ["n"; "N"];
  [("." +:+ j +:+ s +:+ o +:+ n)%string].

(** [_WindowsFlavour]: names compare by [str.lower], and the pattern is
    matched ignoring case. *)
Definition windows_flavour (lower : string -> string) : Flavour :=
  mkFlavour lower
    (λ name, existsb (λ suffix, ends_with suffix name)
               json_suffixes_ignoring_case).

(** [sorted]: Python's sort is stable, so each element goes ahead of
    the first of the elements after it that it is not above. *)
Fixpoint insert_sorted {A} (R : relation A) `{∀ x y, Decision (R x y)}
    (x : A) (l : list A) : list A :=
  match l with
  | [] => [x]
  | y :: rest =>
      if decide (R x y) then x :: y :: rest
      else y :: insert_sorted R x rest
  end.

Definition sorted {A} (R : relation A) `{∀ x y, Decision (R x y)}
    (l : list A) : list A :=
  foldr (insert_sorted R) [] l.

(** Paths of one directory compare by their casefolded final component,
    code point by code point. *)
Definition path_le (fl : Flavour) (a b : string) : Prop :=
  String.leb (casefold fl a) (casefold fl b) = true.

#[global] Instance path_le_dec (fl : Flavour) (a b : string)
  : Decision (path_le fl a b).
Proof. unfold path_le. apply _. Defined.

(** [pathlib._ignore_error]: the failures of [stat] that [exists] and
    [is_dir] answer [False] to. *)
Definition ignore_error (err : oserror) : bool :=
  bool_decide (os_errno err ∈ [ENOENT; ENOTDIR; EBADF; ELOOP])
  || bool_decide (os_winerror err ∈ [Some 21; Some 123; Some 1921]).

(** The failures that are raised as [PermissionError]. *)
Definition is_permission_error (err : oserror) : bool :=
  bool_decide (os_errno err ∈ [EACCES; EPERM]).

(** [input_path.exists()] *)
Definition path_exists (fs : gmap string node) (path : string)
    : result bool :=
  match fs !! path with
  | None => Ok false
  | Some (Unreachable err) =>
      if ignore_error err then Ok false else Raise (OSError err)
  | Some _ => Ok true
  end.

(** The loop of [load_results] over the sorted paths: the results that
    loaded, and the warnings printed for those that did not. *)
Fixpoint load_loop (entries : gmap string entry) (paths : list string)
    : list BenchmarkResult * list (string * exn) :=
  match paths with
  | [] => ([], [])
  | json_file :: rest =>
      let '(results, warnings) := load_loop entries rest in
      match entries !! json_file with
      | None => (results, warnings)
      | Some e =>
          match load_file e with
          | Ok r => (r :: results, warnings)
          | Raise ex => (results, (json_file, ex) :: warnings)
          end
      end
  end.

Section LoadResults.

Variable fl : Flavour.

(** The order in which the operating system enumerates a directory is
    not specified; [scandir] stands for it. *)
Variable scandir : gmap string entry -> list string.

(** The names that [input_path.glob("*.json")] yields for a directory
    that lists its entries. *)
Definition glob_json (entries : gmap string entry) : list string :=
  List.filter (matches_json fl) (scandir entries).

(** [load_results], with the warnings it prints.  The test of
    [exists()] and the call of [sorted] on the generator of [glob] stand
    outside the [try]: what they raise leaves the function.  [glob]
    yields nothing for a path that is not a directory, and for a
    directory that may not be listed. *)
Definition load_results_log (fs : gmap string node) (input_dir : string)
    : result (list BenchmarkResult) * list (string * exn) :=
  match path_exists fs input_dir with
  | Raise e => (Raise e, [])
  | Ok false => (Ok [], [])
  | Ok true =>
      match fs !! input_dir with
      | Some (DirNode entries) =>
          let '(results, warnings) :=
            load_loop entries (sorted (path_le fl) (glob_json entries)) in
          (Ok results, warnings)
      | Some (UnlistableDir err) =>
          if is_permission_error err then (Ok [], [])
          else (Raise (OSError err), [])
      | _ => (Ok [], [])
      end
  end.

Definition load_results (fs : gmap string node) (input_dir : string)
    : result (list BenchmarkResult) :=
  fst (load_results_log fs input_dir).

End LoadResults.

(** One admissible enumeration, used to run examples. *)
Definition scandir_map_order (entries : gmap string entry) : list string :=
  (map_to_list entries).*1.

(** ** numpy's legacy generator: [np.random.RandomState]

    [RandomState(seed)] is a Mersenne Twister (MT19937) seeded by
    [mt19937_seed]; [uniform] draws one 53-bit double from two 32-bit
    outputs.  Generator objects are mutable: they live in a heap of
    generator states and are referred to by their index. *)

Module MT19937.

Definition RK_STATE_LEN : nat := 624.
Definition M : nat := 397.
Definition MATRIX_A : Z := 0x9908b0df.
Definition UPPER_MASK : Z := 0x80000000.
Definition LOWER_MASK : Z := 0x7fffffff.

Record state : Type := mkState { mt_key : list Z; mt_pos : nat }.

Fixpoint seed_loop (n : nat) (pos : Z) (seed : Z) : list Z :=
  match n with
  | O => []
  | S k =>
      seed :: seed_loop k (pos + 1)
        (Z.land (1812433253 * Z.lxor seed (Z.shiftr seed 30) + pos + 1)
                0xffffffff)
  end.

Definition mt19937_seed (seed : Z) : state :=
  mkState (seed_loop RK_STATE_LEN 0 (Z.land seed 0xffffffff)) RK_STATE_LEN.

(** One step of the in-place regeneration loop of [mt19937_gen]; the
    three loops of the C source are the same assignment with the
    indices taken modulo the state length. *)
Definition gen_step (key : list Z) (i : nat) : list Z :=
  let at_ j := default 0 (key !! (j mod RK_STATE_LEN)%nat) in
  let y := Z.lor (Z.land (at_ i) UPPER_MASK)
                 (Z.land (at_ (i + 1)%nat) LOWER_MASK) in
  <[i := Z.lxor (Z.lxor (at_ (i + M)%nat) (Z.shiftr y 1))
                (if Z.odd y then MATRIX_A else 0)]> key.

Definition mt19937_gen (st : state) : state :=
  mkState (foldl gen_step (mt_key st) (seq 0 RK_STATE_LEN)) 0.

Definition temper (y : Z) : Z :=
  let y := Z.lxor y (Z.shiftr y 11) in
  let y := Z.lxor y (Z.land (Z.shiftl y 7) 0x9d2c5680) in
  let y := Z.lxor y (Z.land (Z.shiftl y 15) 0xefc60000) in
  Z.lxor y (Z.shiftr y 18).

Definition mt19937_next (st : state) : Z * state :=
  let st := if (mt_pos st =? RK_STATE_LEN)%nat then mt19937_gen st else st in
  (temper (default 0 (mt_key st !! mt_pos st)),
   mkState (mt_key st) (S (mt_pos st))).

Definition mt19937_next_double (st : state) : float * state :=
  let '(x, st) := mt19937_next st in
  let '(y, st) := mt19937_next st in
  let a := Z.shiftr x 5 in
  let b := Z.shiftr y 6 in
  (div (add (mul (of_Z a) (of_Z 67108864)) (of_Z b))
       (of_Z 9007199254740992), st).

End MT19937.

Abbreviation heap := (list MT19937.state).

(** [np.random.RandomState(seed)]: a fresh generator object. *)
Definition RandomState (seed : Z) (h : heap) : result nat * heap :=
  if (2 ^ 32 - 1 <? seed) || (seed <? 0)
  then (Raise (ValueError "Seed must be between 0 and 2**32 - 1"), h)
  else (Ok (length h), h ++ [MT19937.mt19937_seed seed]).

(** [rng.uniform(low, high)]: draws from the object and advances it. *)
Definition uniform (rng : nat) (low high : float) (h : heap) : float * heap :=
  match h !! rng with
  | Some st =>
      let '(d, st) := MT19937.mt19937_next_double st in
      (add low (mul (sub high low) d), <[rng := st]> h)
  | None => (nan, h)
  end.

(** ** objectives.py *)

(** [get_intermediate_value] *)
Definition get_intermediate_value (true_value : float) (step : Z)
    (trial_number : Z) (seed : Z) (h : heap) : result float * heap :=
  if step =? 9 then (Ok true_value, h)
  else
    match RandomState (Z.lxor (Z.lxor seed trial_number) step) h with
    | (Raise e, h) => (Raise e, h)
    | (Ok rng, h) =>
        let '(noise, h) := uniform rng (of_Z 0) (of_Z 1) h in
        match of_int (9 - step) with
        | Raise e => (Raise e, h)
        | Ok k =>
            let factor := add (of_Z 1) (mul (mul k (lit 1 2)) noise) in
            (Ok (mul true_value factor), h)
        end
    end.

(** The C mathematics library, numpy's reductions and the Unicode case
    tables behind [str.lower] are not part of the repository; the
    objective functions and the lookups by name are stated over them. *)
Record Libm : Type := mkLibm {
  libm_pow : float -> float -> result float;
  libm_cos : float -> float;
  libm_exp : float -> result float;
  np_sum : list float -> float;
  str_lower : string -> string
}.

Definition math_pi : float := lit 3141592653589793 (10 ^ 15).
Definition math_e : float := lit 2718281828459045 (10 ^ 15).

Definition math_sqrt (x : float) : result float :=
  if ltb x (of_Z 0) then Raise (ValueError "math domain error")
  else Ok (SFsqrt prec emax x).

Section Objectives.

Variable libm : Libm.

Definition square (x : float) : result float := libm_pow libm x (of_Z 2).

Definition sphere (values : list float) : result float :=
  foldl (λ acc x, total ← acc; sq ← square x; Ok (add total sq))
        (Ok (of_Z 0)) values.

Fixpoint rosenbrock_loop (values : list float) (total : float)
    : result float :=
  match values with
  | xi :: ((xi1 :: _) as rest) =>
      sq ← square xi;
      inner ← square (sub xi1 sq);
      let term1 := mul (of_Z 100) inner in
      term2 ← square (sub (of_Z 1) xi);
      rosenbrock_loop rest (add total (add term1 term2))
  | _ => Ok total
  end.

Definition rosenbrock (values : list float) : result float :=
  rosenbrock_loop values (of_Z 0).

Definition rastrigin (values : list float) : result float :=
  let n := Z.of_nat (length values) in
  total ← foldl (λ acc xi,
             total ← acc;
             sq ← square xi;
             Ok (add total
                   (sub sq (mul (of_Z 10)
                      (libm_cos libm (mul (mul (of_Z 2) math_pi) xi))))))
           (Ok (of_Z 0)) values;
  Ok (add (of_Z (10 * n)) total).

Definition ackley (values : list float) : result float :=
  let n := of_Z (Z.of_nat (length values)) in
  let sum_sq := np_sum libm (map (λ x, mul x x) values) in
  let sum_cos :=
    np_sum libm
      (map (λ x, libm_cos libm (mul (mul (of_Z 2) math_pi) x)) values) in
  root ← math_sqrt (div sum_sq n);
  e1 ← libm_exp libm (mul (SFopp (lit 2 10)) root);
  let term1 := mul (of_Z (-20)) e1 in
  e2 ← libm_exp libm (div sum_cos n);
  let term2 := SFopp e2 in
  Ok (add (add (add term1 term2) (of_Z 20)) math_e).

(** [get_objective] *)
Definition get_objective (name : string)
    : result (list float -> result float) :=
  let name_lower := str_lower libm name in
  if String.eqb name_lower "sphere" then Ok sphere
  else if String.eqb name_lower "rosenbrock" then Ok rosenbrock
  else if String.eqb name_lower "rastrigin" then Ok rastrigin
  else if String.eqb name_lower "ackley" then Ok ackley
  else Raise (ValueError ("Unknown objective: " +:+ name)).

(** [get_range] *)
Definition get_range (objective_name : string) : result (float * float) :=
  let name_lower := str_lower libm objective_name in
  if String.eqb name_lower "sphere"
  then Ok (SFopp (of_Z 5), of_Z 5)
  else if String.eqb name_lower "rosenbrock"
  then Ok (SFopp (of_Z 2), of_Z 2)
  else if String.eqb name_lower "rastrigin"
  then Ok (SFopp (lit 512 100), lit 512 100)
  else if String.eqb name_lower "ackley"
  then Ok (SFopp (lit 32768 1000), lit 32768 1000)
  else Raise (ValueError ("Unknown objective: " +:+ objective_name)).

End Objectives.

(** ** optuna_matrix.py: the trial driver

    The optimization provider is external.  Its study bookkeeping (the
    list of finished trials, [best_value], the sequential [optimize]
    loop) is spelled out; the sampling and pruning algorithms are
    arbitrary functions over a private provider state. *)

Inductive TrialState : Type := RUNNING | COMPLETE | PRUNED | FAIL.

Record FrozenTrial : Type := mkFrozenTrial {
  number : Z;
  state : TrialState;
  value : option float;
  intermediate_values : list (Z * float)
}.

(** The best value of a minimizing study, maintained as the storage
    does when a trial is recorded: only completed trials count, and a
    later value replaces the best one only if it is strictly smaller. *)
Definition best_step (best : option float) (t : FrozenTrial) : option float :=
  match state t, value t with
  | COMPLETE, Some v =>
      match best with
      | None => Some v
      | Some b => if gtb b v then Some v else Some b
      end
  | _, _ => best
  end.

(** [study.best_value]: the provider raises [ValueError] while no trial
    of the study has completed. *)
Definition study_best_value (trials : list FrozenTrial) : result float :=
  match foldl best_step None trials with
  | Some v => Ok v
  | None => Raise (ValueError "No trials are completed yet.")
  end.

Definition checkpoints : list float :=
  [lit 2 10; lit 4 10; lit 6 10; lit 8 10; lit 10 10].

Record Provider : Type := mkProvider {
  provider_state : Type;
  (** the study of [optuna.create_study], for a sampler and a pruner *)
  create_study : string -> string -> provider_state;
  (** [trial.suggest_float(name, low, high)] for the running trial *)
  suggest_float : list FrozenTrial -> Z -> string -> float -> float ->
                  provider_state -> result float * provider_state;
  (** [trial.should_prune()]: the pruner sees the finished trials and
      the running one *)
  should_prune : list FrozenTrial -> FrozenTrial ->
                 provider_state -> result bool * provider_state
}.

Section Driver.

Variable libm : Libm.
Variable provider : Provider.
(** the difference of the two [time.time()] readings *)
Variable elapsed_time : float.

(** The mutable state of one [run_benchmark] call: the study, the
    generator objects, and the variables the closure [objective]
    shares with its enclosing function. *)
Record driver : Type := mkDriver {
  trials : list FrozenTrial;
  sigma : provider_state provider;
  rng_heap : heap;
  reports : list (Z * float);
  conv : list float;
  checkpoint_idx : nat;
  pruned_count : Z
}.

Definition M (A : Type) : Type := driver -> result A * driver.

#[local] Instance M_ret : MRet M := λ A a d, (Ok a, d).
#[local] Instance M_bind : MBind M := λ A B k m d,
  match m d with
  | (Ok a, d') => k a d'
  | (Raise e, d') => (Raise e, d')
  end.

Definition raise {A} (e : exn) : M A := λ d, (Raise e, d).
Definition lift {A} (r : result A) : M A := λ d, (r, d).
Definition get : M driver := λ d, (Ok d, d).

Definition set_trials (ts : list FrozenTrial) (d : driver) : driver :=
  mkDriver ts (sigma d) (rng_heap d) (reports d) (conv d)
           (checkpoint_idx d) (pruned_count d).
Definition set_reports (rs : list (Z * float)) (d : driver) : driver :=
  mkDriver (trials d) (sigma d) (rng_heap d) rs (conv d)
           (checkpoint_idx d) (pruned_count d).

Definition call_suggest (trial_number : Z) (name : string)
    (low high : float) : M float := λ d,
  let '(r, s) := suggest_float provider (trials d) trial_number name
                   low high (sigma d) in
  (r, mkDriver (trials d) s (rng_heap d) (reports d) (conv d)
        (checkpoint_idx d) (pruned_count d)).

Definition call_should_prune (trial_number : Z) : M bool := λ d,
  let running := mkFrozenTrial trial_number RUNNING None (reports d) in
  let '(r, s) := should_prune provider (trials d) running (sigma d) in
  (r, mkDriver (trials d) s (rng_heap d) (reports d) (conv d)
        (checkpoint_idx d) (pruned_count d)).

Definition call_intermediate_value (true_value : float) (step : Z)
    (trial_number : Z) (seed : Z) : M float := λ d,
  let '(r, h) := get_intermediate_value true_value step trial_number seed
                   (rng_heap d) in
  (r, mkDriver (trials d) (sigma d) h (reports d) (conv d)
        (checkpoint_idx d) (pruned_count d)).

(** [trial.report(value, step)] *)
Definition report (v : float) (step : Z) : M unit := λ d,
  (Ok tt, set_reports (reports d ++ [(step, v)]) d).

Definition count_pruned : M unit := λ d,
  (Ok tt, mkDriver (trials d) (sigma d) (rng_heap d) (reports d) (conv d)
            (checkpoint_idx d) (pruned_count d + 1)).

(** [convergence.append(v); checkpoint_idx += 1] *)
Definition record_checkpoint (v : float) : M unit := λ d,
  (Ok tt, mkDriver (trials d) (sigma d) (rng_heap d) (reports d)
            (conv d ++ [v]) (S (checkpoint_idx d)) (pruned_count d)).

Definition best_value_now : M float := λ d, (study_best_value (trials d), d).

Section Objective.

Variable objective_fn : list float -> result float.
Variables low high : float.
Variable n_params : Z.
Variable n_trials : Z.
Variable pruner_name : string.

(** The dictionary comprehension: one suggestion per dimension, in
    the order [x0], [x1], ... *)
Fixpoint suggest_params (trial_number : Z) (indices : list nat)
    : M (list float) :=
  match indices with
  | [] => mret []
  | i :: rest =>
      x ← call_suggest trial_number ("x" +:+ pretty i) low high;
      xs ← suggest_params trial_number rest;
      mret (x :: xs)
  end.

(** The loop [for step in range(10)] *)
Fixpoint report_steps (true_value : float) (trial_number : Z)
    (steps : list Z) : M unit :=
  match steps with
  | [] => mret tt
  | step :: rest =>
      intermediate_value ←
        call_intermediate_value true_value step trial_number 42;
      report intermediate_value step;;
      prune ← call_should_prune trial_number;
      if prune : bool
      then count_pruned;; raise TrialPruned
      else report_steps true_value trial_number rest
  end.

(** The block under [# Record convergence at checkpoints] *)
Definition record_convergence (trial_number : Z) : M unit :=
  d ← get;
  match checkpoints !! checkpoint_idx d with
  | None => mret tt
  | Some fraction =>
      n ← lift (of_int n_trials);
      checkpoint_trial ← lift (to_int (mul n fraction));
      if checkpoint_trial - 1 <=? trial_number
      then v ← best_value_now; record_checkpoint v
      else mret tt
  end.

(** The closure [objective(trial)] *)
Definition objective_closure (trial_number : Z) : M float :=
  params ← suggest_params trial_number (seq 0 (Z.to_nat n_params));
  true_value ← lift (objective_fn params);
  (if negb (String.eqb pruner_name "none")
   then report_steps true_value trial_number
          (map Z.of_nat (seq 0 10))
   else mret tt);;
  record_convergence trial_number;;
  mret true_value.

Definition finish_trial (trial_number : Z) (st : TrialState)
    (v : option float) (d : driver) : driver :=
  set_trials (trials d ++ [mkFrozenTrial trial_number st v (reports d)]) d.

(** The value kept for a pruned trial: its last report, unless that
    is [nan]. *)
Definition pruned_value (rs : list (Z * float)) : option float :=
  match last rs with
  | Some (_, v) => if is_nan v then None else Some v
  | None => None
  end.

(** One iteration of the provider's sequential loop: ask for a trial,
    call the objective, record the outcome; an exception other than
    [TrialPruned] is re-raised once the trial is recorded as failed
    ([catch] is left empty by the call in [run_benchmark]). *)
Definition run_trial : M unit := λ d,
  let trial_number := Z.of_nat (length (trials d)) in
  match objective_closure trial_number (set_reports [] d) with
  | (Ok v, d') =>
      if is_nan v
      then (Ok tt, finish_trial trial_number FAIL None d')
      else (Ok tt, finish_trial trial_number COMPLETE (Some v) d')
  | (Raise TrialPruned, d') =>
      (Ok tt, finish_trial trial_number PRUNED
                (pruned_value (reports d')) d')
  | (Raise e, d') => (Raise e, finish_trial trial_number FAIL None d')
  end.

(** [study.optimize(objective, n_trials=...)] *)
Fixpoint optimize (remaining : nat) : M unit :=
  match remaining with
  | O => mret tt
  | S k => run_trial;; optimize k
  end.

End Objective.

(** [try: ... except Exception: pass] *)
Definition suppress (m : M unit) : M unit := λ d,
  match m d with
  | (Ok _, d') => (Ok tt, d')
  | (Raise _, d') => (Ok tt, d')
  end.

(** [while len(convergence) < 5: convergence.append(study.best_value)] *)
Fixpoint pad_convergence (fuel : nat) : M unit :=
  match fuel with
  | O => mret tt
  | S k =>
      d ← get;
      if (length (conv d) <? 5)%nat
      then v ← best_value_now;
           (λ d, (Ok tt, mkDriver (trials d) (sigma d) (rng_heap d)
                           (reports d) (conv d ++ [v]) (checkpoint_idx d)
                           (pruned_count d)));;
           pad_convergence k
      else mret tt
  end.

Definition known_sampler (sampler_name : string) : result unit :=
  if String.eqb sampler_name "tpe" then Ok tt
  else if String.eqb sampler_name "random" then Ok tt
  else if String.eqb sampler_name "cmaes" then Ok tt
  else Raise (ValueError ("Unknown sampler: " +:+ sampler_name)).

Definition known_pruner (pruner_name : string) : result unit :=
  if String.eqb pruner_name "none" then Ok tt
  else if String.eqb pruner_name "median" then Ok tt
  else if String.eqb pruner_name "sha" then Ok tt
  else Raise (ValueError ("Unknown pruner: " +:+ pruner_name)).

(** The state in which the body of [run_benchmark] starts: no study
    yet, and the heap of generator objects of the process. *)
Definition init_driver (sampler_name pruner_name : string) (h : heap)
    : driver :=
  mkDriver [] (create_study provider sampler_name pruner_name) h [] [] 0 0.

(** The body of [run_benchmark] after the study is created. *)
Definition run_study (objective_fn : list float -> result float)
    (low high : float) (sampler_name : string) (n_params n_trials : Z)
    (objective_name pruner_name tier : string) : M BenchmarkResult :=
  suppress (optimize objective_fn low high n_params n_trials pruner_name
              (Z.to_nat n_trials));;
  elapsed_ms ← lift (to_int (mul elapsed_time (of_Z 1000)));
  pad_convergence 5;;
  d ← get;
  let convergence := take 5 (conv d) in
  best ← best_value_now;
  tps ← (if gtb elapsed_time (of_Z 0)
         then n ← lift (of_int n_trials); mret (div n elapsed_time)
         else mret (of_Z 0));
  let rate := if 0 <? n_trials
              then div (of_Z (pruned_count d)) (of_Z n_trials)
              else of_Z 0 in
  mret (mkBenchmarkResult "optuna" sampler_name objective_name n_params
          n_trials pruner_name tier best elapsed_ms tps (pruned_count d)
          rate convergence 42).

(** [run_benchmark]: the result or the exception that leaves the
    function, and the final state of the study. *)
Definition run_benchmark (sampler_name : string) (n_params n_trials : Z)
    (objective_name pruner_name tier : string) (h : heap)
    : result BenchmarkResult * driver :=
  let d0 := init_driver sampler_name pruner_name h in
  match get_objective libm objective_name with
  | Raise e => (Raise e, d0)
  | Ok objective_fn =>
  match get_range libm objective_name with
  | Raise e => (Raise e, d0)
  | Ok (low, high) =>
  match known_sampler sampler_name with
  | Raise e => (Raise e, d0)
  | Ok _ =>
  match known_pruner pruner_name with
  | Raise e => (Raise e, d0)
  | Ok _ =>
      run_study objective_fn low high sampler_name n_params n_trials
        objective_name pruner_name tier d0
  end end end end.

End Driver.

(** ** Concrete collaborators, to run the driver on examples *)

(** [str.lower] on ASCII text, the only text the examples use: the
    letters [A] to [Z] are mapped to [a] to [z]. *)
Definition ascii_lower_char (c : Ascii.ascii) : Ascii.ascii :=
  let n := Ascii.nat_of_ascii c in
  if (65 <=? n)%nat && (n <=? 90)%nat then Ascii.ascii_of_nat (n + 32) else c.

Fixpoint ascii_lower (s : string) : string :=
  match s with
  | EmptyString => EmptyString
  | String c rest => String (ascii_lower_char c) (ascii_lower rest)
  end.

(** A mathematics library whose squares are correctly rounded; the
    remaining numeric functions are not exercised by the examples, and
    the names the examples pass are ASCII. *)
Definition exact_squares : Libm :=
  mkLibm (λ x y, if eqb y (of_Z 2) then Ok (mul x x)
                 else Raise (ProviderError "pow"))
         (λ _, nan)
         (λ _, Raise (ProviderError "exp"))
         (foldl add (of_Z 0))
         ascii_lower.

(** A provider that always suggests the lower bound and never prunes. *)
Definition lower_bound_provider : Provider :=
  mkProvider unit (λ _ _, tt)
    (λ _ _ _ low _ s, (Ok low, s))
    (λ _ _ s, (Ok false, s)).

(** The same provider, except that its sampler raises in trial [k]. *)
Definition failing_provider (k : Z) : Provider :=
  mkProvider unit (λ _ _, tt)
    (λ _ trial_number _ low _ s,
       if trial_number =? k then (Raise (ProviderError "sampler"), s)
       else (Ok low, s))
    (λ _ _ s, (Ok false, s)).

(** A provider that prunes every trial at its first report. *)
Definition pruning_provider : Provider :=
  mkProvider unit (λ _ _, tt)
    (λ _ _ _ low _ s, (Ok low, s))
    (λ _ _ s, (Ok true, s)).

Definition half_second : float := lit 5 10.

(** Two results of one configuration, to run the report on examples. *)
Definition sample_result (fw : string) (best : float) : BenchmarkResult :=
  mkBenchmarkResult fw "tpe" "sphere" 2 10 "none" "fast" best 12
    (lit 8333 10) 0 (of_Z 0) [best; best; best; best; best] 42.

(** The same configuration in the other tier. *)
Definition extended_result (fw : string) (best : float) : BenchmarkResult :=
  mkBenchmarkResult fw "tpe" "sphere" 2 10 "none" "extended" best 12
    (lit 8333 10) 0 (of_Z 0) [best; best; best; best; best] 42.

Definition sample_data (fw : string) (best : float) : Data :=
  mkData (Some fw) (Some "tpe") (Some "sphere") (Some 2) (Some 10)
    (Some "none") (Some "fast") (Some best) (Some 12) (Some (lit 8333 10))
    (Some 0) (Some (of_Z 0)) (Some [best; best; best; best; best]) (Some 42).

(** ** Auxiliary notions used in the statements *)

(** What the loop makes of one path: the result, when the file loads. *)
Definition loaded (entries : gmap string entry) (name : string)
    : option BenchmarkResult :=
  entries !! name ≫= λ e,
    match load_file e with Ok r => Some r | Raise _ => None end.

(** The six-field canonical tuple of the specification: sampler,
    objective, n_params, n_trials, pruner, tier. *)
Definition canonical_tuple (r : BenchmarkResult) : Key :=
  (sampler r, objective r, n_params r, n_trials r, pruner r, tier r).

(** A file of the directory, under a name that the pattern matches,
    that holds the record of a result [r] of the configuration [k] and
    the framework [f], as [to_dict] writes it. *)
Definition source (fl : Flavour) (entries : gmap string entry) (k : Key)
    (f : string) (name : string) (r : BenchmarkResult) : Prop :=
  matches_json fl name = true /\
  entries !! name = Some (JsonObject (to_dict r)) /\
  canonical_tuple r = k /\ framework r = f.

(** No two entries of the directory that the pattern matches bear names
    that the flavour takes for equal. *)
Definition distinct_names (fl : Flavour) (entries : gmap string entry)
    : Prop :=
  forall a b,
    matches_json fl a = true -> is_Some (entries !! a) ->
    matches_json fl b = true -> is_Some (entries !! b) ->
    casefold fl a = casefold fl b -> a = b.

(** A name of 300 characters, beyond the 255 that file systems allow,
    and the failure of [stat] on it. *)
Definition long_name : string :=
  String.concat "" (replicate 300 "x").

Definition name_too_long : oserror := mkOSError ENAMETOOLONG None.

(** A directory with two records under names that differ in case
    only. *)
Definition tie_entries : gmap string entry :=
  <["A.json" := JsonObject (sample_data "optuna" (lit 8 100))]>
  (<["a.json" := JsonObject (sample_data "optuna" (lit 12 100))]> ∅).

(** A results directory with a stale duplicate: two files of the first
    framework for one configuration, one of the second, a file that is
    not JSON, a JSON list, a subdirectory, and a file the pattern does
    not match. *)
Definition sample_entries : gmap string entry :=
  <["c_optisharp.json" := JsonObject (sample_data "optisharp" (lit 10 100))]>
  (<["a_optuna.json" := JsonObject (sample_data "optuna" (lit 8 100))]>
  (<["b_optisharp.json" := JsonObject (sample_data "optisharp" (lit 12 100))]>
  (<["broken.json" := Unreadable JSONDecodeError]>
  (<["list.json" := JsonValue]>
  (<["old.json" := Unreadable (OSError (mkOSError EISDIR None))]>
  (<["notes.txt" := JsonObject (sample_data "optisharp" (of_Z 0))]> ∅)))))).

Definition sample_fs : gmap string node :=
  <[".temp/runs" := DirNode sample_entries]> (<["report.md" := FileNode]> ∅).

(** The first draw of a fresh generator. *)
Definition first_uniform (seed : Z) : result float :=
  match RandomState seed [] with
  | (Ok rng, h) => Ok (uniform rng (of_Z 0) (of_Z 1) h).1
  | (Raise e, _) => Raise e
  end.

(** The value computed below step 9 for a seed in range, without the
    heap. *)
Definition noisy_value (true_value : float) (step : Z) (mixed_seed : Z)
    : result float :=
  let noise :=
    add (of_Z 0)
        (mul (sub (of_Z 1) (of_Z 0))
           (MT19937.mt19937_next_double (MT19937.mt19937_seed mixed_seed)).1) in
  k ← of_int (9 - step);
  Ok (mul true_value (add (of_Z 1) (mul (mul k (lit 1 2)) noise))).

Arguments trials {provider} d.
Arguments sigma {provider} d.
Arguments rng_heap {provider} d.
Arguments reports {provider} d.
Arguments conv {provider} d.
Arguments checkpoint_idx {provider} d.
Arguments pruned_count {provider} d.

(** No trial of the study has completed. *)
Definition no_complete (ts : list FrozenTrial) : Prop :=
  Forall (λ t, state t ≠ COMPLETE) ts.

(** What a step of the driver leaves alone: the study's trials and the
    convergence bookkeeping. *)
Definition frame {provider : Provider} (d d' : driver provider) : Prop :=
  trials d' = trials d /\ conv d' = conv d /\
  checkpoint_idx d' = checkpoint_idx d.

(** A computation of the driver monad that respects [frame], whatever
    its outcome. *)
Definition framed {provider : Provider} {A : Type} (m : M provider A)
    : Prop :=
  forall d, frame d (m d).2.

(** The state of a study in which nothing has completed and no
    checkpoint has been recorded. *)
Definition barren {provider : Provider} (d : driver provider) : Prop :=
  no_complete (trials d) /\ checkpoint_idx d = 0%nat /\ conv d = [].

(** A computation of the driver monad that leaves the list of trials
    alone, whatever its outcome. *)
Definition keeps_trials {provider : Provider} {A : Type}
    (m : M provider A) : Prop :=
  forall d, trials (m d).2 = trials d.

(** Every completed trial of the study carries a value, and that value
    is a number. *)
Definition completed_values_ok (ts : list FrozenTrial) : Prop :=
  Forall (λ t, state t = COMPLETE ->
               exists v, value t = Some v /\ is_nan v = false) ts.

(** A list of floats in which no entry exceeds an earlier one. *)
Definition non_increasing (l : list float) : Prop :=
  StronglySorted (λ x y, leb y x = true) l.

(** The recorded checkpoints are consistent with the study: they never
    increase, and the current best value is at or below each of them. *)
Definition checkpoints_sound {provider : Provider} (d : driver provider)
    : Prop :=
  completed_values_ok (trials d) /\ non_increasing (conv d) /\
  forall c, c ∈ conv d ->
    exists b, study_best_value (trials d) = Ok b /\ leb b c = true.

(** A computation of the driver monad that maintains a property of the
    state, whatever its outcome. *)
Definition respects {provider : Provider} {A : Type}
    (P : driver provider -> Prop) (m : M provider A) : Prop :=
  forall d, P d -> P (m d).2.

#[global] Instance TrialState_eq_dec : EqDecision TrialState.
Proof. solve_decision. Defined.

(** A computation of the driver monad that leaves the pruning counter
    alone, whatever its outcome. *)
Definition keeps_count {provider : Provider} {A : Type}
    (m : M provider A) : Prop :=
  forall d, pruned_count (m d).2 = pruned_count d.

(** A computation that touches the pruning counter only to count the
    trial it then abandons with [TrialPruned]. *)
Definition counts_own_pruning {provider : Provider} {A : Type}
    (m : M provider A) : Prop :=
  forall d,
    pruned_count (m d).2 = pruned_count d \/
    (pruned_count (m d).2 = pruned_count d + 1 /\
     (m d).1 = Raise TrialPruned).

(** The trials of the study recorded as pruned. *)
Definition pruned_in (ts : list FrozenTrial) : list FrozenTrial :=
  filter (λ t, state t = PRUNED) ts.

(** Trial [i] of the study carries the number [i]. *)
Definition numbered (ts : list FrozenTrial) : Prop :=
  forall i t, ts !! i = Some t -> number t = Z.of_nat i.

(** Between trials, the counter is non-negative and every counted
    pruning is a trial recorded as pruned. *)
Definition count_bounded {provider : Provider} (d : driver provider) : Prop :=
  0 <= pruned_count d <= Z.of_nat (length (pruned_in (trials d))).

(** A provider that lets the first two trials complete and prunes every
    later trial at its first report. *)
Definition late_pruning_provider : Provider :=
  mkProvider unit (λ _ _, tt)
    (λ _ _ _ low _ s, (Ok low, s))
    (λ _ running s, (Ok (2 <=? number running), s)).

Definition objective_names : list string :=
  ["sphere"; "rosenbrock"; "rastrigin"; "ackley"].
Definition sampler_names : list string := ["tpe"; "random"; "cmaes"].
Definition pruner_names : list string := ["none"; "median"; "sha"].

Definition absent {A} (name : string) (field : option A) : list string :=
  match field with Some _ => [] | None => [name] end.

(** The keys a decoded object lacks, in the order in which the reader's
    constructor looks them up. *)
Definition missing_fields (data : Data) : list string :=
  absent "framework" (d_framework data) ++
  absent "sampler" (d_sampler data) ++
  absent "objective" (d_objective data) ++
  absent "n_params" (d_n_params data) ++
  absent "n_trials" (d_n_trials data) ++
  absent "pruner" (d_pruner data) ++
  absent "tier" (d_tier data) ++
  absent "best_value" (d_best_value data) ++
  absent "elapsed_ms" (d_elapsed_ms data) ++
  absent "trials_per_second" (d_trials_per_second data) ++
  absent "pruned_trials" (d_pruned_trials data) ++
  absent "pruning_rate" (d_pruning_rate data) ++
  absent "convergence" (d_convergence data) ++
  absent "seed" (d_seed data).

(** ** generate_report.py: the throughput and pruning tables, the
    progress line *)

(** The conditional expression that computes the throughput [winner]
    (line 126). *)
Definition throughput_winner (cs py : BenchmarkResult) : string :=
  if gtb (trials_per_second cs) (trials_per_second py) then "OptiSharp"
  else if gtb (trials_per_second py) (trials_per_second cs) then "Optuna"
  else "Tie".

(** One iteration of the throughput loop of [generate_summary_tables]. *)
Definition throughput_row (k : Key) (frameworks : gmap string BenchmarkResult)
    : option string :=
  let '(sampler, objective, n_params, n_trials, pruner, _) := k in
  if String.eqb pruner "none" then
    match frameworks !! "optisharp", frameworks !! "optuna" with
    | Some cs, Some py =>
        let cs_tps := format_value (trials_per_second cs) false in
        let py_tps := format_value (trials_per_second py) false in
        let winner := throughput_winner cs py in
        Some ("| " +:+ objective +:+ " | " +:+ sampler +:+ " | "
              +:+ pretty n_params +:+ " | " +:+ pretty n_trials +:+ " | "
              +:+ cs_tps +:+ " | " +:+ py_tps +:+ " | "
              +:+ winner +:+ " |" +:+ newline)%string
    | _, _ => None
    end
  else None.

(** One iteration of the loop of [generate_pruning_section], over the
    keys that the filter [k[4] != "none"] keeps. *)
Definition pruning_row (k : Key) (frameworks : gmap string BenchmarkResult)
    : option string :=
  let '(sampler, objective, _, _, pruner, _) := k in
  if negb (String.eqb pruner "none") then
    match frameworks !! "optisharp", frameworks !! "optuna" with
    | Some cs, Some py =>
        let cs_rate :=
          (format_f 1 (mul (pruning_rate cs) (of_Z 100)) +:+ "%")%string in
        let py_rate :=
          (format_f 1 (mul (pruning_rate py) (of_Z 100)) +:+ "%")%string in
        let cs_tps := format_value (trials_per_second cs) false in
        let py_tps := format_value (trials_per_second py) false in
        Some ("| " +:+ pruner +:+ " | " +:+ sampler +:+ " | "
              +:+ objective +:+ " | " +:+ cs_rate +:+ " | " +:+ py_rate
              +:+ " | " +:+ cs_tps +:+ " | " +:+ py_tps +:+ " |"
              +:+ newline)%string
    | _, _ => None
    end
  else None.

(** [generate_report]: the two counts of the progress line. *)
Definition completed_pairs (grouped : gmap Key (gmap string BenchmarkResult))
    : nat :=
  length (filter (λ kv, size kv.2 = 2%nat) (map_to_list grouped)).

Definition total_expected (grouped : gmap Key (gmap string BenchmarkResult))
    : nat :=
  size grouped.

Definition progress_line (grouped : gmap Key (gmap string BenchmarkResult))
    : string :=
  ("**Progress:** " +:+ pretty (completed_pairs grouped) +:+ "/"
   +:+ pretty (total_expected grouped)
   +:+ " configuration pairs completed" +:+ newline +:+ newline)%string.

(** [generate_report], as far as the progress line: the text of that
    line, or the exception that [load_results] lets through. *)
Definition report_progress (fl : Flavour)
    (scandir : gmap string entry -> list string)
    (fs : gmap string node) (input_dir : string) : result string :=
  results ← load_results fl scandir fs input_dir;
  Ok (progress_line (group_by_config results)).

(** A result with another [n_params] recorded. *)
Definition with_n_params (n : Z) (r : BenchmarkResult) : BenchmarkResult :=
  mkBenchmarkResult (framework r) (sampler r) (objective r) n (n_trials r)
    (pruner r) (tier r) (best_value r) (elapsed_ms r) (trials_per_second r)
    (pruned_trials r) (pruning_rate r) (convergence r) (seed r).

#[global] Instance result_fmap : FMap result := λ A B f r,
  match r with Ok a => Ok (f a) | Raise e => Raise e end.

(** The pruner field of a key. *)
Definition key_pruner (k : Key) : string :=
  let '(_, _, _, _, pruner, _) := k in pruner.

(** What the loop makes of one path that fails to load: the warning. *)
Definition failed (entries : gmap string entry) (name : string)
    : option (string * exn) :=
  entries !! name ≫= λ e,
    match load_file e with Ok _ => None | Raise ex => Some (name, ex) end.

(** The configuration and framework that identify a result within a
    results directory. *)
Definition identity (r : BenchmarkResult) : Key * string :=
  (key r, framework r).

(** * Properties *)

(** ** Comparison of floats *)

Lemma SFcompare_swap (x y : float) :
  SFcompare y x = CompOpp <$> SFcompare x y.
Proof.
  destruct x as [sx|sx| |sx mx ex], y as [sy|sy| |sy my ey];
    try destruct sx; try destruct sy; try reflexivity;
    cbn; rewrite (Z.compare_antisym ex ey);
    destruct (ex ?= ey) eqn:E; cbn; try reflexivity;
    rewrite !Pos.compare_cont_spec; cbn;
    rewrite (Pos.compare_antisym mx my);
    destruct (mx ?= my)%positive; reflexivity.
Qed.

Lemma ltb_asym (x y : float) : ltb x y = true -> ltb y x = false.
Proof.
  unfold ltb, SFltb. rewrite (SFcompare_swap x y).
  destruct (SFcompare x y) as [[]|]; cbn; congruence.
Qed.

Lemma eqb_not_ltb (x y : float) :
  eqb x y = true -> ltb x y = false /\ ltb y x = false.
Proof.
  unfold eqb, ltb, SFeqb, SFltb. rewrite (SFcompare_swap x y).
  destruct (SFcompare x y) as [[]|]; cbn; auto; congruence.
Qed.

Lemma ltb_nan_l (y : float) : ltb nan y = false.
Proof. reflexivity. Qed.

Lemma ltb_nan_r (x : float) : ltb x nan = false.
Proof. destruct x; reflexivity. Qed.

Lemma neqb_inf_finite (x : float) : is_finite x = true -> neqb x inf = true.
Proof. destruct x as [s|s| |s m e]; try discriminate; destruct s; reflexivity. Qed.

(** ** [format_value] on non-finite inputs *)

(** C5, as stated, fails: negative infinity is a non-finite input, and
    [format_value] renders it as the raw token [-inf], not as [N/A]. *)
Lemma format_value_neg_inf_is_raw :
  is_finite neg_inf = false /\
  format_value neg_inf false = "-inf" /\
  format_value neg_inf false <> "N/A".
Proof. repeat split. vm_compute. discriminate. Qed.

Lemma format_value_nan_is_raw :
  format_value nan false = "nan" /\ format_value nan true = "nanms".
Proof. split; reflexivity. Qed.

(** C5 (amended): of the non-finite inputs, positive infinity (the
    "unset" value the guard tests for) is rendered as the marker [N/A],
    in both modes; negative infinity and NaN fall through to the float
    formatting and come out as [-inf] and [nan] ([-infms] and [nanms] in
    time mode).  The function is total: no input makes it fail. *)
Theorem format_value_non_finite (v : float) (is_time : bool) :
  is_finite v = false ->
  format_value v is_time =
    match v with
    | S754_infinity false => "N/A"
    | S754_infinity true => if is_time then "-infms" else "-inf"
    | _ => if is_time then "nanms" else "nan"
    end.
Proof.
  destruct v as [s|s| |s m e]; try discriminate; intros _;
    try destruct s; destruct is_time; reflexivity.
Qed.

Lemma format_value_non_finite_witness :
  is_finite inf = false /\ format_value inf false = "N/A".
Proof.
  split; [reflexivity |].
  apply (format_value_non_finite inf false). reflexivity.
Defined.

(** The guard is the only source of the marker among the specials, and
    finite values are formatted as numbers. *)
Example format_value_examples :
  format_value (lit 12 100) false = "0.1200" /\
  format_value (lit 8 100) false = "0.0800" /\
  format_value (lit 5 10000) false = "5.00e-04" /\
  format_value (lit 12345678 10000) false = "1234.57" /\
  format_value (of_Z 61500) true = "61.5s" /\
  format_value (of_Z 250) true = "250ms".
Proof. vm_compute. repeat split. Qed.

(** ** The quality winner *)

(** C3, as stated, fails: with a best value of negative infinity (a
    non-finite value) against a finite one, a winner is declared. *)
Lemma quality_winner_neg_inf_wins :
  is_finite (best_value (sample_result "optisharp" neg_inf)) = false /\
  quality_winner (sample_result "optisharp" neg_inf)
                 (sample_result "optuna" (of_Z 0)) = "OptiSharp" /\
  quality_winner (sample_result "optisharp" neg_inf)
                 (sample_result "optuna" (of_Z 0)) <> "Tie".
Proof. repeat split. vm_compute. discriminate. Qed.

Lemma neqb_inf (x : float) : neqb x inf = true <-> x <> inf.
Proof.
  destruct x as [[] | [] | | [] m e]; cbn; split; try done;
    intros H; by destruct H.
Qed.

Lemma ltb_inf_l (y : float) : ltb inf y = false.
Proof. by destruct y as [[] | [] | | [] m e]. Qed.

Lemma ltb_neg_inf_finite (y : float) :
  is_finite y = true -> ltb neg_inf y = true.
Proof. by destruct y as [[] | [] | | [] m e]. Qed.

Lemma quality_winner_first (cs py : BenchmarkResult) :
  quality_winner cs py = "OptiSharp" <->
  ltb (best_value cs) (best_value py) = true /\ best_value py <> inf.
Proof.
  unfold quality_winner. rewrite <- neqb_inf.
  destruct (ltb (best_value cs) (best_value py)) eqn:Elt.
  - assert (neqb (best_value cs) inf = true) as ->.
    { apply neqb_inf. intros E. by rewrite E, ltb_inf_l in Elt. }
    rewrite (ltb_asym _ _ Elt), andb_true_r, andb_false_r. cbn.
    destruct (neqb (best_value py) inf); split; (done || intros [_ [=]]).
  - rewrite andb_false_r.
    destruct (_ && ltb (best_value py) (best_value cs));
      split; (done || intros [[=] _]).
Qed.

Lemma quality_winner_second (cs py : BenchmarkResult) :
  quality_winner cs py = "Optuna" <->
  ltb (best_value py) (best_value cs) = true /\ best_value cs <> inf.
Proof.
  unfold quality_winner. rewrite <- neqb_inf.
  destruct (ltb (best_value py) (best_value cs)) eqn:Elt.
  - assert (neqb (best_value py) inf = true) as ->.
    { apply neqb_inf. intros E. by rewrite E, ltb_inf_l in Elt. }
    rewrite (ltb_asym _ _ Elt), andb_true_r, andb_false_r. cbn.
    destruct (neqb (best_value cs) inf); split; (done || intros [_ [=]]).
  - rewrite andb_false_r.
    destruct (_ && ltb (best_value cs) (best_value py));
      split; (done || intros [[=] _]).
Qed.

Lemma quality_winner_labels (cs py : BenchmarkResult) :
  quality_winner cs py = "OptiSharp" \/ quality_winner cs py = "Optuna" \/
  quality_winner cs py = "Tie".
Proof. unfold quality_winner. repeat case_match; auto. Qed.

Lemma string_app_assoc (a b c : string) :
  ((a +:+ b) +:+ c = a +:+ (b +:+ c))%string.
Proof.
  induction a as [| x a IH]; [done |].
  change (String x ((a +:+ b) +:+ c) = String x (a +:+ (b +:+ c)))%string.
  by rewrite IH.
Qed.

(** ** [group_by_config] *)

Lemma retained_group_insert (grouped : gmap Key (gmap string BenchmarkResult))
    (r : BenchmarkResult) (k : Key) (f : string) :
  retained (group_insert grouped r) k f =
    if decide (key r = k ∧ framework r = f) then Some r
    else retained grouped k f.
Proof.
  unfold retained, group_insert.
  destruct (decide (key r = k)) as [<- | Hk].
  - rewrite lookup_insert_eq. cbn.
    destruct (decide (framework r = f)) as [<- | Hf].
    + rewrite lookup_insert_eq. by rewrite decide_True.
    + rewrite lookup_insert_ne by done.
      rewrite decide_False by tauto.
      destruct (grouped !! key r); [done | apply lookup_empty].
  - rewrite lookup_insert_ne by done. by rewrite decide_False by tauto.
Qed.

(** Last write wins: what [grouped[k][f]] holds is the last result of
    the input with that key and framework. *)
Lemma retained_group_by_config (results : list BenchmarkResult)
    (k : Key) (f : string) :
  retained (group_by_config results) k f = last (candidates k f results).
Proof.
  unfold group_by_config, candidates.
  induction results as [| r results IH] using rev_ind; [done |].
  rewrite foldl_snoc, retained_group_insert, filter_app, IH.
  rewrite filter_cons, filter_nil.
  destruct (decide (key r = k ∧ framework r = f)).
  - by rewrite last_snoc.
  - by rewrite app_nil_r.
Qed.

Lemma retained_Some (grouped : gmap Key (gmap string BenchmarkResult))
    (k : Key) (f : string) (r : BenchmarkResult) :
  retained grouped k f = Some r <->
  exists frameworks, grouped !! k = Some frameworks /\ frameworks !! f = Some r.
Proof.
  unfold retained. destruct (grouped !! k) as [g |]; cbn.
  - split; [eauto | by intros (? & [= <-] & ?)].
  - split; [done | by intros (? & ? & ?)].
Qed.

Lemma candidates_elem (k : Key) (f : string) (results : list BenchmarkResult)
    (r : BenchmarkResult) :
  r ∈ candidates k f results <-> r ∈ results /\ key r = k /\ framework r = f.
Proof. unfold candidates. rewrite list_elem_of_filter. tauto. Qed.

(** Every entry of every group comes from the input and sits under its
    own key and framework. *)
Lemma group_entry (results : list BenchmarkResult) (k : Key)
    (frameworks : gmap string BenchmarkResult) (f : string)
    (r : BenchmarkResult) :
  group_by_config results !! k = Some frameworks ->
  frameworks !! f = Some r ->
  r ∈ results /\ key r = k /\ framework r = f.
Proof.
  intros Hg Hgf.
  assert (retained (group_by_config results) k f = Some r) as E
    by (apply retained_Some; eauto).
  rewrite retained_group_by_config in E.
  apply last_Some_elem_of in E. by apply candidates_elem in E.
Qed.

(** Every result of the input finds an entry for its framework in the
    group of its key. *)
Lemma group_of_result (results : list BenchmarkResult) (r : BenchmarkResult) :
  r ∈ results ->
  exists frameworks r',
    group_by_config results !! key r = Some frameworks /\
    frameworks !! framework r = Some r' /\
    key r' = key r /\ framework r' = framework r.
Proof.
  intros Hr.
  destruct (last (candidates (key r) (framework r) results)) as [r' |] eqn:E.
  - pose proof (last_Some_elem_of _ _ E) as Hr'.
    apply candidates_elem in Hr' as (_ & Hk & Hf).
    rewrite <- retained_group_by_config in E.
    apply retained_Some in E as (g & Hg & Hgf). by exists g, r'.
  - apply last_None in E.
    assert (r ∈ candidates (key r) (framework r) results) as Hc
      by by apply candidates_elem.
    rewrite E in Hc. by apply elem_of_nil in Hc.
Qed.

(** C3 (amended): for a key of the grouped results that holds a result
    [cs] of the framework [optisharp] and a result [py] of the framework
    [optuna], the row of the quality table ends with the winner, and the
    winner is decided as follows.  [OptiSharp] wins exactly when [cs]'s
    best value is strictly smaller than [py]'s and [py]'s is not
    positive infinity; [Optuna] wins exactly in the mirrored case;
    otherwise it is a tie.  Hence: if both best values are finite and
    one is strictly smaller, its framework wins; equal values are a tie;
    if either best value is positive infinity (the unset value) or NaN,
    it is a tie; negative infinity is compared like a number, so it wins
    against every finite value; and the decision is antisymmetric: [cs]
    wins against [py] exactly when, with the roles exchanged, the
    second framework wins. *)
Theorem quality_winner_spec (results : list BenchmarkResult) (k : Key)
    (frameworks : gmap string BenchmarkResult) (cs py : BenchmarkResult) :
  group_by_config results !! k = Some frameworks ->
  frameworks !! "optisharp" = Some cs ->
  frameworks !! "optuna" = Some py ->
  (framework cs = "optisharp" /\ framework py = "optuna" /\
   canonical_tuple cs = k /\ canonical_tuple py = k) /\
  (exists cells,
     quality_row k frameworks
       = Some (cells +:+ quality_winner cs py +:+ " |" +:+ newline)%string) /\
  (quality_winner cs py = "OptiSharp" <->
   ltb (best_value cs) (best_value py) = true /\ best_value py <> inf) /\
  (quality_winner cs py = "Optuna" <->
   ltb (best_value py) (best_value cs) = true /\ best_value cs <> inf) /\
  (quality_winner cs py = "Tie" <->
   ~ (ltb (best_value cs) (best_value py) = true /\ best_value py <> inf) /\
   ~ (ltb (best_value py) (best_value cs) = true /\ best_value cs <> inf)) /\
  (is_finite (best_value cs) = true -> is_finite (best_value py) = true ->
   ltb (best_value cs) (best_value py) = true ->
   quality_winner cs py = "OptiSharp") /\
  (is_finite (best_value cs) = true -> is_finite (best_value py) = true ->
   ltb (best_value py) (best_value cs) = true ->
   quality_winner cs py = "Optuna") /\
  (eqb (best_value cs) (best_value py) = true ->
   quality_winner cs py = "Tie") /\
  (best_value cs = inf \/ best_value py = inf \/
   best_value cs = nan \/ best_value py = nan ->
   quality_winner cs py = "Tie") /\
  (best_value cs = neg_inf -> is_finite (best_value py) = true ->
   quality_winner cs py = "OptiSharp") /\
  (best_value py = neg_inf -> is_finite (best_value cs) = true ->
   quality_winner cs py = "Optuna") /\
  (quality_winner cs py = "OptiSharp" <-> quality_winner py cs = "Optuna").
Proof.
  intros Hg Hcs Hpy.
  pose proof (quality_winner_first cs py) as H1.
  pose proof (quality_winner_second cs py) as H2.
  assert (Hfin : forall x : float, is_finite x = true -> x <> inf)
    by (intros x Hx ->; done).
  assert (Htie : quality_winner cs py = "Tie" <->
            ~ (ltb (best_value cs) (best_value py) = true /\
               best_value py <> inf) /\
            ~ (ltb (best_value py) (best_value cs) = true /\
               best_value cs <> inf)).
  { rewrite <- H1, <- H2.
    destruct (quality_winner_labels cs py) as [E | [E | E]]; rewrite E;
      split; try done; intros [F1 F2]; by (destruct F1 || destruct F2). }
  split.
  { destruct (group_entry _ _ _ _ _ Hg Hcs) as (_ & Hk & Hf).
    destruct (group_entry _ _ _ _ _ Hg Hpy) as (_ & Hk' & Hf'). done. }
  split.
  { unfold quality_row. destruct k as [[[[[s o] np] nt] pr] ti].
    rewrite Hcs, Hpy. eexists. f_equal.
    rewrite <- !string_app_assoc. reflexivity. }
  split; [done |]. split; [done |]. split; [done |].
  split; [intros Hc Hp Hlt; apply H1; auto |].
  split; [intros Hc Hp Hlt; apply H2; auto |].
  split.
  { intros Heq. destruct (eqb_not_ltb _ _ Heq) as [E1 E2].
    apply Htie. rewrite E1, E2. split; intros [[=] _]. }
  split.
  { intros H. apply Htie.
    destruct H as [E | [E | [E | E]]]; rewrite E;
      rewrite ?ltb_inf_l, ?ltb_nan_l, ?ltb_nan_r;
      split; intros [F1 F2]; done. }
  split.
  { intros E Hp. apply H1. rewrite E. auto using ltb_neg_inf_finite. }
  split.
  { intros E Hc. apply H2. rewrite E. auto using ltb_neg_inf_finite. }
  rewrite H1. by rewrite (quality_winner_second py cs).
Qed.

Lemma quality_winner_spec_witness :
  quality_winner (sample_result "optisharp" neg_inf)
                 (sample_result "optuna" (of_Z 0)) = "OptiSharp" /\
  quality_winner (sample_result "optisharp" (lit 12 100))
                 (sample_result "optuna" (lit 8 100)) = "Optuna" /\
  quality_winner (sample_result "optisharp" inf)
                 (sample_result "optuna" (lit 8 100)) = "Tie".
Proof.
  split; [| split].
  - destruct (quality_winner_spec
                [sample_result "optisharp" neg_inf;
                 sample_result "optuna" (of_Z 0)]
                ("tpe", "sphere", 2, 10, "none", "fast")
                (<["optuna" := sample_result "optuna" (of_Z 0)]>
                 (<["optisharp" := sample_result "optisharp" neg_inf]> ∅))
                (sample_result "optisharp" neg_inf)
                (sample_result "optuna" (of_Z 0)))
      as (_ & _ & _ & _ & _ & _ & _ & _ & _ & H & _);
      [vm_compute; reflexivity | reflexivity | reflexivity |].
    apply H; reflexivity.
  - destruct (quality_winner_spec
                [sample_result "optisharp" (lit 12 100);
                 sample_result "optuna" (lit 8 100)]
                ("tpe", "sphere", 2, 10, "none", "fast")
                (<["optuna" := sample_result "optuna" (lit 8 100)]>
                 (<["optisharp" := sample_result "optisharp" (lit 12 100)]> ∅))
                (sample_result "optisharp" (lit 12 100))
                (sample_result "optuna" (lit 8 100)))
      as (_ & _ & _ & _ & _ & _ & H & _);
      [vm_compute; reflexivity | reflexivity | reflexivity |].
    apply H; reflexivity.
  - destruct (quality_winner_spec
                [sample_result "optisharp" inf;
                 sample_result "optuna" (lit 8 100)]
                ("tpe", "sphere", 2, 10, "none", "fast")
                (<["optuna" := sample_result "optuna" (lit 8 100)]>
                 (<["optisharp" := sample_result "optisharp" inf]> ∅))
                (sample_result "optisharp" inf)
                (sample_result "optuna" (lit 8 100)))
      as (_ & _ & _ & _ & _ & _ & _ & _ & H & _);
      [vm_compute; reflexivity | reflexivity | reflexivity |].
    apply H. by left.
Defined.

(** The row of the quality table exists exactly when both frameworks
    have a result for the key, and it ends with the winner. *)
Example quality_row_example :
  quality_row ("tpe", "sphere", 2, 10, "none", "fast")
    (<["optisharp" := sample_result "optisharp" (lit 12 100)]>
     (<["optuna" := sample_result "optuna" (lit 8 100)]> ∅)) =
  Some ("| sphere | tpe | 2 | 10 | none | 0.1200 | 0.0800 | Optuna |"
        +:+ newline)%string.
Proof. vm_compute. reflexivity. Qed.

(** C6: grouping partitions its input by the six-field tuple.  (1) What
    is retained for a tuple and a framework is the last result of the
    input carrying both, so at most one per framework and tuple, the
    later one winning.  (2) Every result of the input finds, in the
    group keyed by its own tuple (sampler, objective, n_params,
    n_trials, pruner, tier), an entry for its framework, holding a
    result of that tuple and framework.  (3) Every entry of every group
    is a result of the input whose tuple is the group's key and whose
    framework is the entry's name, so no result sits in a group of
    another key.  (4) Two results of the input land in the same group
    exactly when they agree on all six fields, whatever their
    frameworks. *)
Theorem group_by_config_partition (results : list BenchmarkResult) :
  (forall k f,
     retained (group_by_config results) k f =
       last (filter (λ r, canonical_tuple r = k ∧ framework r = f) results)) /\
  (forall r, r ∈ results ->
     exists frameworks r',
       group_by_config results
         !! (sampler r, objective r, n_params r, n_trials r, pruner r, tier r)
         = Some frameworks /\
       frameworks !! framework r = Some r' /\
       canonical_tuple r' = canonical_tuple r /\
       framework r' = framework r) /\
  (forall k frameworks f r,
     group_by_config results !! k = Some frameworks ->
     frameworks !! f = Some r ->
     r ∈ results /\
     k = (sampler r, objective r, n_params r, n_trials r, pruner r, tier r) /\
     framework r = f) /\
  (forall r1 r2, r1 ∈ results -> r2 ∈ results ->
     (sampler r1 = sampler r2 /\ objective r1 = objective r2 /\
      n_params r1 = n_params r2 /\ n_trials r1 = n_trials r2 /\
      pruner r1 = pruner r2 /\ tier r1 = tier r2) <->
     exists k frameworks,
       group_by_config results !! k = Some frameworks /\
       (exists r1', frameworks !! framework r1 = Some r1' /\
                    canonical_tuple r1' = canonical_tuple r1) /\
       (exists r2', frameworks !! framework r2 = Some r2' /\
                    canonical_tuple r2' = canonical_tuple r2)).
Proof.
  split; [exact (retained_group_by_config results) |].
  split; [exact (group_of_result results) |].
  split.
  - intros k g f r Hg Hgf.
    destruct (group_entry _ _ _ _ _ Hg Hgf) as (Hin & Hk & Hf). by subst.
  - intros r1 r2 H1 H2. split.
    + intros (E1 & E2 & E3 & E4 & E5 & E6).
      assert (key r1 = key r2) as Hk by (unfold key; congruence).
      destruct (group_of_result results r1 H1) as (g & r1' & Hg & Hg1 & K1 & _).
      destruct (group_of_result results r2 H2) as (g' & r2' & Hg' & Hg2 & K2 & _).
      rewrite <- Hk, Hg in Hg'. injection Hg' as <-.
      exists (key r1), g. split; [done |]. split; [by exists r1' |].
      exists r2'. split; [done |]. exact K2.
    + intros (k & g & Hg & (r1' & Hg1 & K1) & (r2' & Hg2 & K2)).
      destruct (group_entry _ _ _ _ _ Hg Hg1) as (_ & Hk1 & _).
      destruct (group_entry _ _ _ _ _ Hg Hg2) as (_ & Hk2 & _).
      assert (canonical_tuple r1 = canonical_tuple r2) as E
        by (rewrite <- K1, <- K2; unfold canonical_tuple, key in *; congruence).
      by injection E.
Qed.

(** Three results of one configuration — a stale and a fresh one of the
    first framework around one of the second — and a fourth that differs
    from them in the tier alone. *)
Lemma group_by_config_partition_witness :
  let stale := sample_result "optisharp" (lit 12 100) in
  let other := sample_result "optuna" (lit 8 100) in
  let fresh := sample_result "optisharp" (lit 10 100) in
  let apart := extended_result "optuna" (lit 8 100) in
  let grouped := group_by_config [stale; other; fresh; apart] in
  retained grouped ("tpe", "sphere", 2, 10, "none", "fast") "optisharp"
    = Some fresh /\
  (exists k frameworks,
     grouped !! k = Some frameworks /\
     (exists r, frameworks !! "optisharp" = Some r /\
                canonical_tuple r = canonical_tuple stale) /\
     (exists r, frameworks !! "optuna" = Some r /\
                canonical_tuple r = canonical_tuple other)) /\
  ~ (exists k frameworks,
       grouped !! k = Some frameworks /\
       (exists r, frameworks !! "optuna" = Some r /\
                  canonical_tuple r = canonical_tuple other) /\
       (exists r, frameworks !! "optuna" = Some r /\
                  canonical_tuple r = canonical_tuple apart)).
Proof.
  intros stale other fresh apart grouped.
  destruct (group_by_config_partition [stale; other; fresh; apart])
    as (H1 & _ & _ & H4).
  assert (Hstale : stale ∈ [stale; other; fresh; apart])
    by apply list_elem_of_here.
  assert (Hother : other ∈ [stale; other; fresh; apart])
    by apply list_elem_of_further, list_elem_of_here.
  assert (Hapart : apart ∈ [stale; other; fresh; apart])
    by (do 3 apply list_elem_of_further; apply list_elem_of_here).
  split; [| split].
  - unfold grouped. rewrite H1. reflexivity.
  - apply (H4 stale other Hstale Hother). by repeat split.
  - intros H. apply (H4 other apart Hother Hapart) in H.
    destruct H as (_ & _ & _ & _ & _ & [=]).
Defined.

(** ** Sorting *)

Section Sorting.

Context {A} (R : relation A) `{∀ x y, Decision (R x y)}.

Lemma insert_sorted_Permutation (x : A) (l : list A) :
  insert_sorted R x l ≡ₚ x :: l.
Proof.
  induction l as [| y l IH]; [done |].
  cbn. destruct (decide (R x y)); [done |].
  rewrite IH. apply Permutation_swap.
Qed.

Lemma sorted_Permutation (l : list A) : sorted R l ≡ₚ l.
Proof.
  induction l as [| x l IH]; [done |].
  cbn. by rewrite insert_sorted_Permutation, IH.
Qed.

Lemma insert_sorted_split (x : A) (l : list A) :
  exists l1 l2,
    l = l1 ++ l2 /\ insert_sorted R x l = l1 ++ x :: l2 /\
    Forall (λ y, ~ R x y) l1.
Proof.
  induction l as [| y l IH].
  - by exists [], [].
  - cbn. destruct (decide (R x y)) as [Hxy | Hxy].
    + by exists [], (y :: l).
    + destruct IH as (l1 & l2 & -> & -> & Hall).
      exists (y :: l1), l2. repeat split. by constructor.
Qed.

Context `{!Total R, !Transitive R}.

Lemma StronglySorted_insert_sorted (x : A) (l : list A) :
  StronglySorted R l -> StronglySorted R (insert_sorted R x l).
Proof.
  induction 1 as [| y l Hl IH Hy]; cbn.
  - repeat constructor.
  - destruct (decide (R x y)) as [Hxy | Hxy].
    + constructor; [by constructor |]. constructor; [done |].
      eapply Forall_impl; [exact Hy |]. intros z Hz. by trans y.
    + constructor; [done |].
      rewrite insert_sorted_Permutation. constructor; [| done].
      by destruct (total R x y).
Qed.

Lemma Sorted_sorted (l : list A) : Sorted R (sorted R l).
Proof.
  apply StronglySorted_Sorted.
  induction l as [| x l IH]; cbn; [constructor |].
  by apply StronglySorted_insert_sorted.
Qed.

(** The sort is stable: the elements that compare equal to a given one
    stay in the order of the input. *)
Lemma sorted_stable (a : A) (l : list A) :
  filter (λ y, R a y ∧ R y a) (sorted R l) = filter (λ y, R a y ∧ R y a) l.
Proof.
  induction l as [| x l IH]; [done |].
  cbn [sorted foldr]. fold (sorted R l).
  destruct (insert_sorted_split x (sorted R l)) as (l1 & l2 & E & -> & Hall).
  rewrite filter_cons, <- IH, E, !filter_app, filter_cons.
  destruct (decide (R a x ∧ R x a)) as [[Hax Hxa] |]; [| done].
  assert (filter (λ y, R a y ∧ R y a) l1 = []) as ->; [| done].
  clear E IH. induction Hall as [| y l1 Hy _ IH]; [done |].
  rewrite filter_cons, IH. destruct (decide _) as [[Hay Hya] |]; [| done].
  destruct Hy. by trans a.
Qed.

End Sorting.

(** ** The order of paths *)

Lemma ascii_compare_trans_lt (x y z : Ascii.ascii) :
  Ascii.compare x y = Lt -> Ascii.compare y z = Lt -> Ascii.compare x z = Lt.
Proof.
  unfold Ascii.compare. rewrite !N.compare_lt_iff. lia.
Qed.

Lemma string_leb_trans (a b c : string) :
  String.leb a b = true -> String.leb b c = true -> String.leb a c = true.
Proof.
  unfold String.leb. revert b c.
  induction a as [| x a IH]; intros [| y b] [| z c]; cbn; try done.
  destruct (Ascii.compare x y) eqn:E1; [| | done].
  - apply Ascii.compare_eq_iff in E1 as ->.
    destruct (Ascii.compare y z) eqn:E2; [apply IH | done | done].
  - destruct (Ascii.compare y z) eqn:E2; [| | done].
    + apply Ascii.compare_eq_iff in E2 as ->. by rewrite E1.
    + by rewrite (ascii_compare_trans_lt _ _ _ E1 E2).
Qed.

#[global] Instance path_le_total (fl : Flavour) : Total (path_le fl).
Proof. intros a b. apply String.leb_total. Qed.

#[global] Instance path_le_trans (fl : Flavour) : Transitive (path_le fl).
Proof. intros a b c. apply string_leb_trans. Qed.

#[global] Instance path_le_refl (fl : Flavour) : Reflexive (path_le fl).
Proof. intros a. by destruct (total (path_le fl) a a). Qed.

(** Two names that are below each other are equal as far as the
    flavour can tell. *)
Lemma path_le_antisym (fl : Flavour) (a b : string) :
  path_le fl a b -> path_le fl b a -> casefold fl a = casefold fl b.
Proof. apply String.leb_antisym. Qed.

(** ** [load_results] *)

Lemma BenchmarkResult_init_Ok (data : Data) (r : BenchmarkResult) :
  BenchmarkResult_init data = Ok r <-> data = to_dict r.
Proof.
  split; [| intros ->; by destruct r].
  destruct data as [f1 f2 f3 f4 f5 f6 f7 f8 f9 f10 f11 f12 f13 f14]. cbn.
  destruct f1; [| done]. destruct f2; [| done]. destruct f3; [| done].
  destruct f4; [| done]. destruct f5; [| done]. destruct f6; [| done].
  destruct f7; [| done]. destruct f8; [| done]. destruct f9; [| done].
  destruct f10; [| done]. destruct f11; [| done]. destruct f12; [| done].
  destruct f13; [| done]. destruct f14; [| done].
  cbn. by intros [= <-].
Qed.

(** A path yields a result exactly when it holds a complete record. *)
Lemma loaded_Some (entries : gmap string entry) (name : string)
    (r : BenchmarkResult) :
  loaded entries name = Some r <->
  entries !! name = Some (JsonObject (to_dict r)).
Proof.
  unfold loaded. destruct (entries !! name) as [[ex | | data] |]; cbn;
    try (split; done).
  pose proof (BenchmarkResult_init_Ok data r) as H.
  destruct (BenchmarkResult_init data) as [r' | ex].
  - split.
    + intros [= ->]. f_equal. f_equal. by apply H.
    + intros [= E]. f_equal. apply H in E. by injection E.
  - split; [done |]. intros [= E]. by apply H in E.
Qed.

Lemma load_loop_results (entries : gmap string entry) (paths : list string) :
  (load_loop entries paths).1 = omap (loaded entries) paths.
Proof.
  induction paths as [| p paths IH]; [done |].
  change (omap (loaded entries) (p :: paths)) with
    (match loaded entries p with
     | Some r => r :: omap (loaded entries) paths
     | None => omap (loaded entries) paths
     end).
  rewrite <- IH. cbn [load_loop].
  destruct (load_loop entries paths) as [results warnings].
  unfold loaded. destruct (entries !! p) as [e |]; cbn; [| done].
  by destruct (load_file e).
Qed.

(** What [load_results] returns for a directory that lists its
    entries. *)
Lemma load_results_directory (fl : Flavour)
    (scandir : gmap string entry -> list string)
    (fs : gmap string node) (input_dir : string)
    (entries : gmap string entry) :
  fs !! input_dir = Some (DirNode entries) ->
  load_results fl scandir fs input_dir
    = Ok (omap (loaded entries)
            (sorted (path_le fl) (glob_json fl scandir entries))).
Proof.
  intros Hdir. unfold load_results, load_results_log, path_exists.
  rewrite Hdir, <- load_loop_results.
  by destruct (load_loop _ _).
Qed.




Lemma loaded_is_Some (entries : gmap string entry) (name : string)
    (r : BenchmarkResult) :
  loaded entries name = Some r -> is_Some (entries !! name).
Proof. unfold loaded. destruct (entries !! name); [eauto | done]. Qed.

Lemma elem_of_directory_names (entries : gmap string entry) (name : string) :
  name ∈ (map_to_list entries).*1 <-> is_Some (entries !! name).
Proof.
  rewrite list_elem_of_fmap. split.
  - intros ([n e] & -> & H). apply elem_of_map_to_list in H. eauto.
  - intros [e H]. exists (name, e). split; [done |].
    by apply elem_of_map_to_list.
Qed.

(** Among the files read in ascending order, the last candidate comes
    from a greatest name. *)
Lemma last_candidate_greatest (fl : Flavour) (entries : gmap string entry)
    (k : Key) (f : string) (names : list string) :
  StronglySorted (path_le fl) names ->
  forall r, last (candidates k f (omap (loaded entries) names)) = Some r ->
  exists name, name ∈ names /\ loaded entries name = Some r /\
    key r = k /\ framework r = f /\
    forall name' r', name' ∈ names -> loaded entries name' = Some r' ->
      key r' = k -> framework r' = f -> path_le fl name' name.
Proof.
  induction 1 as [| n names Hsorted IH Hle]; intros r Hlast; [done |].
  change (omap (loaded entries) (n :: names)) with
    (match loaded entries n with
     | Some r => r :: omap (loaded entries) names
     | None => omap (loaded entries) names
     end) in Hlast.
  destruct (last (candidates k f (omap (loaded entries) names)))
    as [r0 |] eqn:Erest.
  - assert (r0 = r) as ->.
    { destruct (loaded entries n) as [rn |]; [| congruence].
      unfold candidates in *. rewrite filter_cons in Hlast.
      destruct (decide _); [| congruence].
      rewrite last_cons, Erest in Hlast. congruence. }
    destruct (IH r eq_refl) as (name & Hin & Hload & Hk & Hf & Hmax).
    exists name. repeat split; auto using list_elem_of_further.
    intros name' r' [-> | Hin']%elem_of_cons Hload' Hk' Hf'.
    + rewrite Forall_forall in Hle. by apply Hle.
    + eauto.
  - apply last_None in Erest.
    destruct (loaded entries n) as [rn |] eqn:En;
      [| rewrite Erest in Hlast; done].
    unfold candidates in *. rewrite filter_cons in Hlast.
    rewrite Erest in Hlast.
    destruct (decide _) as [[Hk Hf] |]; [| done].
    injection Hlast as ->.
    exists n. repeat split; auto using list_elem_of_here.
    intros name' r' [-> | Hin']%elem_of_cons Hload' Hk' Hf'; [done |].
    exfalso.
    assert (r' ∈ filter (λ r0, key r0 = k ∧ framework r0 = f)
                   (omap (loaded entries) names)) as Hc.
    { apply list_elem_of_filter. split; [done |].
      apply list_elem_of_omap. eauto. }
    rewrite Erest in Hc. by apply elem_of_nil in Hc.
Qed.

(** The sorted list of matching names holds each matching entry of the
    directory once. *)
Lemma sorted_names_spec (fl : Flavour)
    (scandir : gmap string entry -> list string)
    (entries : gmap string entry) :
  scandir entries ≡ₚ (map_to_list entries).*1 ->
  Sorted (path_le fl) (sorted (path_le fl) (glob_json fl scandir entries)) /\
  NoDup (sorted (path_le fl) (glob_json fl scandir entries)) /\
  forall name,
    name ∈ sorted (path_le fl) (glob_json fl scandir entries) <->
    matches_json fl name = true /\ is_Some (entries !! name).
Proof.
  intros Hscan.
  pose proof (sorted_Permutation (path_le fl)
                (glob_json fl scandir entries)) as Hperm.
  split; [apply Sorted_sorted; apply _ |]. split.
  - rewrite Hperm. unfold glob_json.
    apply NoDup_ListNoDup, List.NoDup_filter, NoDup_ListNoDup.
    rewrite Hscan. apply NoDup_fst_map_to_list.
  - intros name. rewrite Hperm. unfold glob_json.
    rewrite list_elem_of_In, filter_In, <- list_elem_of_In, Hscan.
    rewrite elem_of_directory_names. tauto.
Qed.

(** When the flavour tells the matching names of the directory apart,
    their sorted list does not depend on the order in which the
    directory is enumerated. *)
Lemma sorted_names_unique (fl : Flavour)
    (scandir scandir' : gmap string entry -> list string)
    (entries : gmap string entry) :
  distinct_names fl entries ->
  scandir entries ≡ₚ (map_to_list entries).*1 ->
  scandir' entries ≡ₚ (map_to_list entries).*1 ->
  sorted (path_le fl) (glob_json fl scandir' entries)
    = sorted (path_le fl) (glob_json fl scandir entries).
Proof.
  intros Hdistinct H H'.
  destruct (sorted_names_spec fl scandir entries H) as (S1 & N1 & M1).
  destruct (sorted_names_spec fl scandir' entries H') as (S2 & N2 & M2).
  apply (Sorted_unique_strong (path_le fl)); [| done | done |].
  - intros a b [Ha Ha']%M2 [Hb Hb']%M1 Hab Hba.
    apply Hdistinct; auto using path_le_antisym.
  - apply NoDup_Permutation; [done | done |].
    intros name. by rewrite M1, M2.
Qed.

(** C10, as stated, fails on the Windows flavour: two files whose names
    differ in case only compare as equal, [sorted] leaves them in the
    order in which the directory is enumerated, and so the output list
    and the result retained for their common key and framework are not
    determined by the set of files.  In the first enumeration the
    retained result is not even the one of the greatest file name. *)
Lemma load_results_case_ties :
  let fl := windows_flavour ascii_lower in
  let fs : gmap string node := <["runs" := DirNode tie_entries]> ∅ in
  let backwards := λ entries, reverse (scandir_map_order entries) in
  let upper := sample_result "optuna" (lit 8 100) in
  let lower := sample_result "optuna" (lit 12 100) in
  backwards tie_entries ≡ₚ (map_to_list tie_entries).*1 /\
  load_results fl scandir_map_order fs "runs" = Ok [lower; upper] /\
  load_results fl backwards fs "runs" = Ok [upper; lower] /\
  retained (group_by_config [lower; upper]) (key upper) "optuna"
    = Some upper /\
  retained (group_by_config [upper; lower]) (key upper) "optuna"
    = Some lower /\
  String.ltb "A.json" "a.json" = true.
Proof.
  intros fl fs backwards upper lower.
  split; [apply reverse_Permutation |].
  vm_compute. repeat split.
Qed.

(** C10 (amended): [load_results] reads the entries of the directory
    that the pattern matches in ascending order of their names, as the
    path flavour compares them: code point by code point on POSIX, after
    [str.lower] on Windows.  When the flavour tells the matching names
    apart (as the POSIX flavour always does), the output is the list of
    the records held by the files that load, along the sorted,
    duplicate-free list of matching names; every complete record under a
    matching name is in it; any other order in which the operating
    system may enumerate the same directory gives the same output; and
    what [group_by_config] retains for a key and a framework is the
    record of the greatest file name among the files that hold a record
    of that key and framework. *)
Theorem load_results_lexicographic (fl : Flavour)
    (scandir : gmap string entry -> list string)
    (fs : gmap string node) (input_dir : string)
    (entries : gmap string entry) :
  scandir entries ≡ₚ (map_to_list entries).*1 ->
  fs !! input_dir = Some (DirNode entries) ->
  distinct_names fl entries ->
  exists results,
    load_results fl scandir fs input_dir = Ok results /\
    (exists names,
       Sorted (λ a b, String.leb (casefold fl a) (casefold fl b) = true)
         names /\
       NoDup names /\
       (forall name,
          name ∈ names <->
          matches_json fl name = true /\ is_Some (entries !! name)) /\
       results = omap (loaded entries) names) /\
    (forall name r,
       matches_json fl name = true ->
       entries !! name = Some (JsonObject (to_dict r)) -> r ∈ results) /\
    (forall scandir' : gmap string entry -> list string,
       scandir' entries ≡ₚ (map_to_list entries).*1 ->
       load_results fl scandir' fs input_dir = Ok results) /\
    (forall k f r,
       retained (group_by_config results) k f = Some r <->
       exists name, source fl entries k f name r /\
         forall name' r', source fl entries k f name' r' ->
           String.leb (casefold fl name') (casefold fl name) = true).
Proof.
  intros Hscan Hdir Hdistinct.
  set (names := sorted (path_le fl) (glob_json fl scandir entries)).
  destruct (sorted_names_spec fl scandir entries Hscan)
    as (Hsorted & Hnodup & Hmem).
  fold names in Hsorted, Hnodup, Hmem.
  exists (omap (loaded entries) names).
  split; [by apply load_results_directory |].
  split; [exists names; repeat split; (exact Hsorted || done || by apply Hmem) |].
  split.
  { intros name r Hj He. apply list_elem_of_omap. exists name. split.
    - apply Hmem. eauto.
    - by apply loaded_Some. }
  split.
  { intros scandir' Hscan'. rewrite (load_results_directory _ _ _ _ _ Hdir).
    by rewrite (sorted_names_unique fl scandir scandir'). }
  assert (Hfwd : forall k f r,
            last (candidates k f (omap (loaded entries) names)) = Some r ->
            exists name, source fl entries k f name r /\
              forall name' r', source fl entries k f name' r' ->
                path_le fl name' name).
  { intros k f r Hlast.
    destruct (last_candidate_greatest fl entries k f names
                (Sorted_StronglySorted _ _ Hsorted) r Hlast)
      as (name & Hin & Hl & Hk & Hf & Hmax).
    exists name. split.
    - split; [by apply Hmem |]. split; [by apply loaded_Some | done].
    - intros name' r' (Hj & Hl' & Hk' & Hf').
      apply loaded_Some in Hl'. apply (Hmax name' r'); auto.
      apply Hmem. eauto using loaded_is_Some. }
  intros k f r. rewrite retained_group_by_config. split.
  - apply Hfwd.
  - intros (name & (Hj & Hl & Hk & Hf) & Hmax).
    apply loaded_Some in Hl.
    assert (Hin : name ∈ names) by (apply Hmem; eauto using loaded_is_Some).
    assert (Hc : r ∈ candidates k f (omap (loaded entries) names)).
    { apply candidates_elem. split; [| done].
      apply list_elem_of_omap. eauto. }
    destruct (last (candidates k f (omap (loaded entries) names)))
      as [r0 |] eqn:Elast.
    + destruct (last_candidate_greatest fl entries k f names
                  (Sorted_StronglySorted _ _ Hsorted) r0 Elast)
        as (name0 & Hin0 & Hl0 & Hk0 & Hf0 & Hmax0).
      assert (name0 = name) as ->.
      { destruct (proj1 (Hmem name0) Hin0) as [Hj0 He0].
        destruct (proj1 (Hmem name) Hin) as [_ He].
        apply Hdistinct; [done | done | done | done |].
        apply path_le_antisym.
          + apply (Hmax name0 r0). split; [by apply Hmem |].
            split; [by apply loaded_Some | done].
          + by apply (Hmax0 name r). }
      congruence.
    + apply last_None in Elast. rewrite Elast in Hc.
      by apply elem_of_nil in Hc.
Qed.

Example load_results_sample :
  load_results_log posix_flavour scandir_map_order sample_fs ".temp/runs" =
    (Ok [sample_result "optuna" (lit 8 100);
         sample_result "optisharp" (lit 12 100);
         sample_result "optisharp" (lit 10 100)],
     [("broken.json", JSONDecodeError); ("list.json", TypeError);
      ("old.json", OSError (mkOSError EISDIR None))]) /\
  load_results posix_flavour scandir_map_order sample_fs "report.md" = Ok [].
Proof. vm_compute. repeat split. Qed.

(** The enumeration in reverse order reads the same list. *)
Example load_results_sample_reversed :
  load_results posix_flavour (λ entries, reverse (scandir_map_order entries))
    sample_fs ".temp/runs"
  = load_results posix_flavour scandir_map_order sample_fs ".temp/runs".
Proof. vm_compute. reflexivity. Qed.

(** On POSIX every directory has distinct names. *)
Lemma distinct_names_posix (entries : gmap string entry) :
  distinct_names posix_flavour entries.
Proof. by intros a b _ _ _ _ E. Qed.

(** The sample directory: of the two files of the first framework, the
    record of [c_optisharp.json] is retained, being the greater name. *)
Lemma load_results_lexicographic_witness :
  exists results,
    load_results posix_flavour scandir_map_order sample_fs ".temp/runs"
      = Ok results /\
    sample_result "optisharp" (lit 12 100) ∈ results /\
    sample_result "optisharp" (lit 10 100) ∈ results /\
    retained (group_by_config results)
      ("tpe", "sphere", 2, 10, "none", "fast") "optisharp"
      = Some (sample_result "optisharp" (lit 10 100)).
Proof.
  destruct (load_results_lexicographic posix_flavour scandir_map_order
              sample_fs ".temp/runs" sample_entries)
    as (results & Hload & _ & Hin & _ & Hret);
    [reflexivity | reflexivity | apply distinct_names_posix |].
  exists results. split; [exact Hload |].
  split.
  { apply (Hin "b_optisharp.json"); vm_compute; reflexivity. }
  split.
  { apply (Hin "c_optisharp.json"); vm_compute; reflexivity. }
  apply Hret. exists "c_optisharp.json". split.
  { split; [vm_compute; reflexivity |].
    split; [vm_compute; reflexivity |]. split; reflexivity. }
  intros name' r' (Hj & He & Hk & Hf).
  unfold sample_entries in He.
  repeat (apply lookup_insert_Some in He as [[<- He] | [_ He]];
          [first [ vm_compute; reflexivity
                 | discriminate He
                 | vm_compute in Hj; discriminate Hj ] |]).
  apply lookup_empty_Some in He. destruct He.
Defined.

(** ** [get_intermediate_value] *)

(** numpy's generator, against two published first draws. *)
Example RandomState_first_draws :
  first_uniform 42 = Ok (lit 3745401188473625 (10 ^ 16)) /\
  first_uniform 0 = Ok (lit 5488135039273248 (10 ^ 16)).
Proof. vm_compute. split; reflexivity. Qed.

(** A generator object advances when drawn from: two draws from one
    object differ, which is why reseeding matters below. *)
Example shared_generator_advances :
  let h := (RandomState 40 []).2 in
  let '(x, h1) := uniform 0 (of_Z 0) (of_Z 1) h in
  let '(y, _) := uniform 0 (of_Z 0) (of_Z 1) h1 in
  eqb x y = false.
Proof. vm_compute. reflexivity. Qed.

Lemma get_intermediate_value_result (true_value : float)
    (step trial_number seed : Z) (h : heap) :
  (get_intermediate_value true_value step trial_number seed h).1 =
    if step =? 9 then Ok true_value
    else
      let mixed := Z.lxor (Z.lxor seed trial_number) step in
      if (2 ^ 32 - 1 <? mixed) || (mixed <? 0)
      then Raise (ValueError "Seed must be between 0 and 2**32 - 1")
      else noisy_value true_value step mixed.
Proof.
  unfold get_intermediate_value, noisy_value, RandomState, uniform.
  destruct (step =? 9); [done |]. cbv zeta.
  destruct ((2 ^ 32 - 1 <? _) || _); [done |].
  rewrite list_lookup_middle by done.
  destruct (MT19937.mt19937_next_double _) as [d st]. cbn [fst].
  by destruct (of_int (9 - step)).
Qed.

(** C8: at step 9 the true value is returned exactly, for every true
    value, trial number and seed (and the generator heap is untouched). *)
Theorem get_intermediate_value_final_step (true_value : float)
    (trial_number seed : Z) (h : heap) :
  get_intermediate_value true_value 9 trial_number seed h
    = (Ok true_value, h).
Proof.
  unfold get_intermediate_value. rewrite Z.eqb_refl. reflexivity.
Qed.

(** C7: the result of [get_intermediate_value] is a function of its four
    arguments alone: it is the same in every state of the generator
    heap, and in particular a second call made after a first one (in
    the heap the first call leaves behind) returns the identical
    value. *)
Theorem get_intermediate_value_deterministic (true_value : float)
    (step trial_number seed : Z) (h h' : heap) :
  (get_intermediate_value true_value step trial_number seed h).1 =
  (get_intermediate_value true_value step trial_number seed h').1 /\
  (get_intermediate_value true_value step trial_number seed
     (get_intermediate_value true_value step trial_number seed h).2).1 =
  (get_intermediate_value true_value step trial_number seed h).1.
Proof. by rewrite !get_intermediate_value_result. Qed.

(** The scenario of the specification: the same float both times. *)
Example intermediate_value_twice :
  let '(first, h) := get_intermediate_value (of_Z 10) 5 7 42 [] in
  let '(second, _) := get_intermediate_value (of_Z 10) 5 7 42 h in
  first = second /\ is_ok first = true.
Proof. vm_compute. split; reflexivity. Qed.

(** ** The trial driver *)

Section DriverProperties.

Context (libm : Libm) (provider : Provider) (elapsed_time : float).

Implicit Types d : driver provider.

#[local] Existing Instance M_ret.
#[local] Existing Instance M_bind.

Lemma frame_refl d : frame d d.
Proof. by repeat split. Qed.

Lemma frame_trans d1 d2 d3 : frame d1 d2 -> frame d2 d3 -> frame d1 d3.
Proof.
  intros (H1 & H2 & H3) (H4 & H5 & H6). repeat split; congruence.
Qed.

Lemma framed_bind {A B} (m : M provider A) (k : A -> M provider B) :
  framed m -> (forall a, framed (k a)) -> framed (m ≫= k).
Proof.
  intros Hm Hk d. unfold mbind, M_bind.
  specialize (Hm d). destruct (m d) as [[a | e] d1]; [| done].
  eapply frame_trans; [exact Hm | apply Hk].
Qed.

Lemma framed_ret {A} (a : A) : framed (mret a : M provider A).
Proof. intros d. apply frame_refl. Qed.

Lemma framed_lift {A} (r : result A) : framed (lift provider r).
Proof. intros d. apply frame_refl. Qed.

Lemma framed_raise {A} (e : exn) : framed (raise provider e : M provider A).
Proof. intros d. apply frame_refl. Qed.

Lemma framed_call_suggest trial_number name low high :
  framed (call_suggest provider trial_number name low high).
Proof.
  intros d. unfold call_suggest.
  destruct (suggest_float _ _ _ _ _ _ _). by repeat split.
Qed.

Lemma framed_call_should_prune trial_number :
  framed (call_should_prune provider trial_number).
Proof.
  intros d. unfold call_should_prune.
  destruct (should_prune _ _ _ _). by repeat split.
Qed.

Lemma framed_call_intermediate_value true_value step trial_number seed :
  framed (call_intermediate_value provider true_value step trial_number seed).
Proof.
  intros d. unfold call_intermediate_value.
  destruct (get_intermediate_value _ _ _ _ _). by repeat split.
Qed.

Lemma framed_report v step : framed (report provider v step).
Proof. intros d. by repeat split. Qed.

Lemma framed_count_pruned : framed (count_pruned provider).
Proof. intros d. by repeat split. Qed.

Lemma framed_suggest_params low high trial_number indices :
  framed (suggest_params provider low high trial_number indices).
Proof.
  induction indices as [| i indices IH]; cbn [suggest_params].
  - apply framed_ret.
  - apply framed_bind; [apply framed_call_suggest |]. intros x.
    apply framed_bind; [exact IH |]. intros xs. apply framed_ret.
Qed.

Lemma framed_report_steps true_value trial_number steps :
  framed (report_steps provider true_value trial_number steps).
Proof.
  induction steps as [| step steps IH]; cbn [report_steps].
  - apply framed_ret.
  - apply framed_bind; [apply framed_call_intermediate_value |]. intros v.
    apply framed_bind; [apply framed_report |]. intros _.
    apply framed_bind; [apply framed_call_should_prune |]. intros [].
    + apply framed_bind; [apply framed_count_pruned |]. intros _.
      apply framed_raise.
    + exact IH.
Qed.

(** *** Short runs never produce a result *)

Lemma foldl_best_step_no_complete (ts : list FrozenTrial) (b : option float) :
  no_complete ts -> foldl best_step b ts = b.
Proof.
  induction 1 as [| t ts Ht _ IH]; [done |].
  cbn. unfold best_step at 2. by destruct (state t), (value t).
Qed.

Lemma study_best_value_no_complete (ts : list FrozenTrial) :
  no_complete ts ->
  study_best_value ts = Raise (ValueError "No trials are completed yet.").
Proof.
  intros H. unfold study_best_value.
  by rewrite foldl_best_step_no_complete.
Qed.

(** With fewer than ten trials the first checkpoint, [int(n_trials * 0.2)],
    is 0 or 1, so every trial number reaches it. *)
Lemma first_checkpoint (n : Z) :
  1 <= n <= 9 ->
  exists x c, of_int n = Ok x /\ to_int (mul x (lit 2 10)) = Ok c /\ c - 1 <= 0.
Proof.
  intros H.
  assert (n = 1 \/ n = 2 \/ n = 3 \/ n = 4 \/ n = 5 \/ n = 6 \/ n = 7 \/
          n = 8 \/ n = 9) as Hn by lia.
  repeat (destruct Hn as [-> | Hn]); [.. | subst n];
    eexists _, _; (split; [vm_compute; reflexivity |]);
    (split; [vm_compute; reflexivity | lia]).
Qed.

Lemma record_convergence_short (n_trials trial_number : Z) d :
  1 <= n_trials <= 9 -> 0 <= trial_number ->
  checkpoint_idx d = 0%nat -> no_complete (trials d) ->
  record_convergence provider n_trials trial_number d =
    (Raise (ValueError "No trials are completed yet."), d).
Proof.
  intros Hn Ht Hidx Hnone.
  destruct (first_checkpoint n_trials Hn) as (x & c & Hx & Hc & Hle).
  unfold record_convergence, mbind, M_bind, get. rewrite Hidx. cbn.
  unfold lift. rewrite Hx, Hc.
  rewrite (proj2 (Z.leb_le (c - 1) trial_number)) by lia.
  unfold best_value_now. by rewrite study_best_value_no_complete.
Qed.

Section ShortRun.

Context (objective_fn : list float -> result float) (low high : float)
        (n_params n_trials : Z) (pruner_name : string).

Hypothesis short : 1 <= n_trials <= 9.

Lemma objective_closure_short (trial_number : Z) d :
  0 <= trial_number -> barren d ->
  exists e d',
    objective_closure provider objective_fn low high n_params n_trials
      pruner_name trial_number d = (Raise e, d') /\ frame d d'.
Proof.
  intros Ht (Hnone & Hidx & Hconv).
  unfold objective_closure, mbind, M_bind.
  pose proof (framed_suggest_params low high trial_number
                (seq 0 (Z.to_nat n_params)) d) as F1.
  destruct (suggest_params _ _ _ _ _ d) as [[params | e] d1];
    [| by exists e, d1].
  unfold lift at 1.
  destruct (objective_fn params) as [true_value | e]; [| by exists e, d1].
  assert (F2 : framed
            (if negb (String.eqb pruner_name "none")
             then report_steps provider true_value trial_number
                    (map Z.of_nat (seq 0 10))
             else mret ())).
  { destruct (negb _); [apply framed_report_steps | apply framed_ret]. }
  specialize (F2 d1).
  match type of F2 with
  | frame _ (?m d1).2 => destruct (m d1) as [[[] | e] d2]
  end.
  - cbn [snd] in *. pose proof (frame_trans _ _ _ F1 F2) as (E1 & E2 & E3).
    rewrite record_convergence_short;
      [| done | done | congruence | by rewrite E1].
    eexists _, _. split; [done |]. by repeat split.
  - exists e, d2. split; [done |]. eapply frame_trans; eauto.
Qed.

Lemma run_trial_short d :
  barren d ->
  barren (run_trial provider objective_fn low high n_params n_trials
            pruner_name d).2.
Proof.
  intros Hb. unfold run_trial.
  assert (Hb' : barren (set_reports provider [] d)) by exact Hb.
  destruct (objective_closure_short (Z.of_nat (length (trials d)))
              (set_reports provider [] d)) as (e & d' & -> & E1 & E2 & E3);
    [lia | done |].
  destruct Hb as (Hnone & Hidx & Hconv). cbn in E1, E2, E3.
  assert (forall st v, st <> COMPLETE ->
            barren (finish_trial provider (Z.of_nat (length (trials d)))
                      st v d')) as Hfin.
  { intros st v Hst. repeat split; cbn; [| congruence | congruence].
    rewrite E1. apply Forall_app. split; [done |].
    by apply Forall_singleton. }
  destruct e; cbn [snd]; by apply Hfin.
Qed.

Lemma optimize_short (k : nat) d :
  barren d ->
  barren (optimize provider objective_fn low high n_params n_trials
            pruner_name k d).2.
Proof.
  revert d. induction k as [| k IH]; intros d Hb; [done |].
  cbn [optimize]. unfold mbind, M_bind.
  pose proof (run_trial_short d Hb) as H1.
  destruct (run_trial _ _ _ _ _ _ _ d) as [[[] | e] d1]; [| done].
  by apply IH.
Qed.

End ShortRun.

Lemma barren_init (sampler_name pruner_name : string) (h : heap) :
  barren (init_driver provider sampler_name pruner_name h).
Proof. by repeat split; [apply Forall_nil |..]. Qed.

Lemma pad_convergence_barren (fuel : nat) d :
  barren d ->
  pad_convergence provider (S fuel) d =
    (Raise (ValueError "No trials are completed yet."), d).
Proof.
  intros (Hnone & _ & Hconv).
  cbn [pad_convergence]. unfold mbind, M_bind, get, best_value_now.
  rewrite Hconv. cbn. by rewrite study_best_value_no_complete.
Qed.

(** From a state in which the optimization left nothing completed, the
    rest of [run_benchmark] raises. *)
Lemma run_study_barren (objective_fn : list float -> result float)
    (low high : float) (sampler_name : string) (n_params n_trials : Z)
    (objective_name pruner_name tier : string) d :
  barren (optimize provider objective_fn low high n_params n_trials
            pruner_name (Z.to_nat n_trials) d).2 ->
  exists e d',
    run_study provider elapsed_time objective_fn low high sampler_name
      n_params n_trials objective_name pruner_name tier d = (Raise e, d') /\
    barren d'.
Proof.
  intros Hb. unfold run_study, mbind, M_bind, suppress.
  set (opt := optimize _ _ _ _ _ _ _ _ d) in *.
  assert (exists d1, (match opt with
                      | (Ok _, d') => (Ok (), d')
                      | (Raise _, d') => (Ok (), d')
                      end) = (Ok (), d1) /\ barren d1) as (d1 & -> & Hb1).
  { destruct opt as [[[] | e] d1]; by exists d1. }
  unfold lift at 1.
  destruct (to_int (mul elapsed_time (of_Z 1000))); [| by eexists _, _].
  rewrite pad_convergence_barren by done. by eexists _, _.
Qed.

Lemma run_study_short (objective_fn : list float -> result float)
    (low high : float) (sampler_name : string) (n_params n_trials : Z)
    (objective_name pruner_name tier : string) d :
  n_trials < 10 -> barren d ->
  exists e d',
    run_study provider elapsed_time objective_fn low high sampler_name
      n_params n_trials objective_name pruner_name tier d = (Raise e, d') /\
    barren d'.
Proof.
  intros Hn Hb. apply run_study_barren.
  destruct (decide (n_trials <= 0)) as [Hle | Hgt].
  - by replace (Z.to_nat n_trials) with 0%nat by lia.
  - apply optimize_short; [lia | done].
Qed.

(** C1: the claim that producing the five-entry convergence never
    raises is contradicted by the code on every short run.  For every
    configuration with fewer than ten trials, whatever the sampler, the
    pruner and the objective do, [run_benchmark] returns no result: it
    ends in an exception, with no completed trial in the study. *)
Theorem run_benchmark_short_run_raises (sampler_name : string)
    (n_params n_trials : Z) (objective_name pruner_name tier : string)
    (h : heap) :
  n_trials < 10 ->
  exists e d,
    run_benchmark libm provider elapsed_time sampler_name n_params n_trials
      objective_name pruner_name tier h = (Raise e, d) /\
    no_complete (trials d).
Proof.
  intros Hn. unfold run_benchmark.
  pose proof (barren_init sampler_name pruner_name h) as Hb.
  destruct (get_objective libm objective_name) as [objective_fn | e];
    [| eexists _, _; split; [done | apply Hb]].
  destruct (get_range libm objective_name) as [[low high] | e];
    [| eexists _, _; split; [done | apply Hb]].
  destruct (known_sampler sampler_name) as [[] | e];
    [| eexists _, _; split; [done | apply Hb]].
  destruct (known_pruner pruner_name) as [[] | e];
    [| eexists _, _; split; [done | apply Hb]].
  destruct (run_study_short objective_fn low high sampler_name n_params
              n_trials objective_name pruner_name tier _ Hn Hb)
    as (e & d' & -> & Hb').
  exists e, d'. split; [done | apply Hb'].
Qed.

(** *** When a result is returned, its convergence has five entries *)

Lemma pad_convergence_length (fuel : nat) d d' :
  (5 <= fuel + length (conv d))%nat ->
  pad_convergence provider fuel d = (Ok (), d') ->
  (5 <= length (conv d'))%nat.
Proof.
  revert d. induction fuel as [| fuel IH]; intros d Hfuel.
  - cbn. intros [= <-]. lia.
  - cbn [pad_convergence]. unfold mbind, M_bind, get, best_value_now.
    destruct (length (conv d) <? 5)%nat eqn:E.
    + destruct (study_best_value (trials d)) as [v | e]; [| done].
      apply IH. cbn. rewrite length_app. cbn. lia.
    + cbn. intros [= <-]. apply Nat.ltb_ge in E. lia.
Qed.

Lemma run_study_convergence_length
    (objective_fn : list float -> result float)
    (low high : float) (sampler_name : string) (n_params n_trials : Z)
    (objective_name pruner_name tier : string) d r d' :
  run_study provider elapsed_time objective_fn low high sampler_name
    n_params n_trials objective_name pruner_name tier d = (Ok r, d') ->
  length (convergence r) = 5%nat.
Proof.
  unfold run_study, mbind, M_bind, suppress.
  match goal with
  | |- context [optimize ?a ?b ?c ?e ?f ?g ?i ?j d] =>
      destruct (optimize a b c e f g i j d) as [[[] | ?] d1]
  end.
  all: unfold lift at 1;
    (destruct (to_int (mul elapsed_time (of_Z 1000))); [| done]);
    (destruct (pad_convergence provider 5 d1) as [[[] | ?] d2] eqn:Epad;
       [| done]);
    apply pad_convergence_length in Epad; [| lia];
    unfold get, best_value_now;
    (destruct (study_best_value (trials d2)); [| done]);
    (destruct (gtb elapsed_time (of_Z 0));
       [unfold lift; destruct (of_int n_trials); [| done] |]);
    cbn; intros [= <- _]; cbn; rewrite length_take; lia.
Qed.

(** Whenever [run_benchmark] does return a result, the convergence
    sequence of that result has exactly five entries. *)
Lemma run_benchmark_convergence_length (sampler_name : string)
    (n_params n_trials : Z) (objective_name pruner_name tier : string)
    (h : heap) r d :
  run_benchmark libm provider elapsed_time sampler_name n_params n_trials
    objective_name pruner_name tier h = (Ok r, d) ->
  length (convergence r) = 5%nat.
Proof.
  unfold run_benchmark.
  destruct (get_objective libm objective_name); [| done].
  destruct (get_range libm objective_name) as [[low high] |]; [| done].
  destruct (known_sampler sampler_name) as [[] |]; [| done].
  destruct (known_pruner pruner_name) as [[] |]; [| done].
  apply run_study_convergence_length.
Qed.

(** *** Non-positive counts *)

Lemma run_study_no_trials (objective_fn : list float -> result float)
    (low high : float) (sampler_name : string) (n_params n_trials : Z)
    (objective_name pruner_name tier : string) d :
  n_trials <= 0 -> barren d ->
  exists e,
    run_study provider elapsed_time objective_fn low high sampler_name
      n_params n_trials objective_name pruner_name tier d = (Raise e, d).
Proof.
  intros Hn Hb. unfold run_study, mbind, M_bind, suppress.
  replace (Z.to_nat n_trials) with 0%nat by lia. cbn [optimize].
  unfold mret, M_ret, lift at 1.
  destruct (to_int (mul elapsed_time (of_Z 1000))); [| by eexists].
  rewrite pad_convergence_barren by done. by eexists.
Qed.

(** With a non-positive [n_trials] no trial is run and an exception
    reaches the caller. *)
Lemma run_benchmark_no_trials (sampler_name : string)
    (n_params n_trials : Z) (objective_name pruner_name tier : string)
    (h : heap) :
  n_trials <= 0 ->
  exists e d,
    run_benchmark libm provider elapsed_time sampler_name n_params n_trials
      objective_name pruner_name tier h = (Raise e, d) /\
    trials d = [].
Proof.
  intros Hn. unfold run_benchmark.
  pose proof (barren_init sampler_name pruner_name h) as Hb.
  destruct (get_objective libm objective_name) as [objective_fn | e];
    [| by eexists _, _].
  destruct (get_range libm objective_name) as [[low high] | e];
    [| by eexists _, _].
  destruct (known_sampler sampler_name) as [[] | e]; [| by eexists _, _].
  destruct (known_pruner pruner_name) as [[] | e]; [| by eexists _, _].
  destruct (run_study_no_trials objective_fn low high sampler_name n_params
              n_trials objective_name pruner_name tier _ Hn Hb) as (e & ->).
  by eexists _, _.
Qed.

(** *** An exception in one trial ends the optimization *)

Lemma framed_keeps_trials {A} (m : M provider A) :
  framed m -> keeps_trials m.
Proof. intros H d. apply (H d). Qed.

Lemma keeps_trials_bind {A B} (m : M provider A) (k : A -> M provider B) :
  keeps_trials m -> (forall a, keeps_trials (k a)) -> keeps_trials (m ≫= k).
Proof.
  intros Hm Hk d. unfold mbind, M_bind.
  specialize (Hm d). destruct (m d) as [[a | e] d1]; [| done].
  cbn in Hm. rewrite <- Hm. apply Hk.
Qed.

Lemma keeps_trials_record_convergence (n_trials trial_number : Z) :
  keeps_trials (record_convergence provider n_trials trial_number).
Proof.
  intros d. unfold record_convergence, mbind, M_bind, get, lift.
  destruct (checkpoints !! checkpoint_idx d); [| done].
  destruct (of_int n_trials); [| done].
  destruct (to_int _); [| done].
  destruct (_ <=? _); [| done].
  unfold best_value_now. by destruct (study_best_value _).
Qed.

Lemma keeps_trials_objective_closure
    (objective_fn : list float -> result float) (low high : float)
    (n_params n_trials : Z) (pruner_name : string) (trial_number : Z) :
  keeps_trials (objective_closure provider objective_fn low high n_params
                  n_trials pruner_name trial_number).
Proof.
  unfold objective_closure.
  apply keeps_trials_bind;
    [apply framed_keeps_trials, framed_suggest_params |]. intros params.
  apply keeps_trials_bind; [apply framed_keeps_trials, framed_lift |].
  intros true_value.
  apply keeps_trials_bind.
  { apply framed_keeps_trials.
    destruct (negb _); [apply framed_report_steps | apply framed_ret]. }
  intros _. apply keeps_trials_bind;
    [apply keeps_trials_record_convergence |].
  intros _. apply framed_keeps_trials, framed_ret.
Qed.

(** Every trial that is started is recorded, whatever its outcome. *)
Lemma run_trial_length (objective_fn : list float -> result float)
    (low high : float) (n_params n_trials : Z) (pruner_name : string) d :
  length (trials (run_trial provider objective_fn low high n_params n_trials
                    pruner_name d).2) = S (length (trials d)).
Proof.
  unfold run_trial.
  pose proof (keeps_trials_objective_closure objective_fn low high n_params
                n_trials pruner_name (Z.of_nat (length (trials d)))
                (set_reports provider [] d)) as H.
  destruct (objective_closure _ _ _ _ _ _ _ _ _) as [[v | e] d']; cbn in H.
  - destruct (is_nan v); cbn; rewrite length_app, H; cbn; lia.
  - destruct e; cbn; rewrite length_app, H; cbn; lia.
Qed.

Lemma optimize_length (objective_fn : list float -> result float)
    (low high : float) (n_params n_trials : Z) (pruner_name : string)
    (k : nat) d d' :
  optimize provider objective_fn low high n_params n_trials pruner_name k d
    = (Ok (), d') ->
  length (trials d') = (length (trials d) + k)%nat.
Proof.
  revert d. induction k as [| k IH]; intros d.
  - cbn. intros [= <-]. lia.
  - cbn [optimize]. unfold mbind, M_bind.
    pose proof (run_trial_length objective_fn low high n_params n_trials
                  pruner_name d) as H.
    destruct (run_trial _ _ _ _ _ _ _ d) as [[[] | e] d1]; [| done].
    intros E. rewrite (IH _ E). cbn in H. lia.
Qed.

Lemma optimize_add (objective_fn : list float -> result float)
    (low high : float) (n_params n_trials : Z) (pruner_name : string)
    (j k : nat) d :
  optimize provider objective_fn low high n_params n_trials pruner_name
    (j + k) d =
  (optimize provider objective_fn low high n_params n_trials pruner_name j ≫=
   λ _, optimize provider objective_fn low high n_params n_trials
          pruner_name k) d.
Proof.
  revert d. induction j as [| j IH]; intros d; [done |].
  cbn [Nat.add optimize]. unfold mbind, M_bind in *.
  destruct (run_trial _ _ _ _ _ _ _ d) as [[[] | e] d1]; [apply IH | done].
Qed.


End DriverProperties.

(** ** The driver on concrete runs *)

(** Five trials, no pruner: the objective of trial 0 reaches the first
    checkpoint ([int(5 * 0.2) - 1 = 0]) and asks for the best value of a
    study in which nothing has completed. *)
Example run_benchmark_five_trials :
  (run_benchmark exact_squares lower_bound_provider half_second
     "random" 1 5 "sphere" "none" "fast" []).1
  = Raise (ValueError "No trials are completed yet.").
Proof. vm_compute. reflexivity. Qed.

Lemma run_benchmark_short_run_raises_witness :
  exists e d,
    run_benchmark exact_squares lower_bound_provider half_second
      "random" 1 5 "sphere" "none" "fast" [] = (Raise e, d) /\
    no_complete (trials d).
Proof.
  apply (run_benchmark_short_run_raises exact_squares lower_bound_provider
           half_second "random" 1 5 "sphere" "none" "fast" []).
  lia.
Defined.

(** Long enough runs do return a result, with five checkpoints. *)
Example run_benchmark_twenty_trials :
  let '(r, d) := run_benchmark exact_squares lower_bound_provider half_second
                   "random" 1 20 "sphere" "none" "fast" [] in
  (convergence <$> (match r with Ok r => Some r | Raise _ => None end))
    = Some [of_Z 25; of_Z 25; of_Z 25; of_Z 25; of_Z 25] /\
  length (trials d) = 20%nat.
Proof. vm_compute. split; reflexivity. Qed.


(** Unknown names are rejected before the study exists. *)
Example run_benchmark_unknown_names :
  (run_benchmark exact_squares lower_bound_provider half_second
     "grid" 2 10 "sphere" "none" "fast" []).1
    = Raise (ValueError "Unknown sampler: grid") /\
  (run_benchmark exact_squares lower_bound_provider half_second
     "tpe" 2 10 "sphere" "hyperband" "fast" []).1
    = Raise (ValueError "Unknown pruner: hyperband") /\
  (run_benchmark exact_squares lower_bound_provider half_second
     "tpe" 2 10 "griewank" "none" "fast" []).1
    = Raise (ValueError "Unknown objective: griewank").
Proof. vm_compute. repeat split. Qed.

(** Twenty trials requested, the sampler raises in trial 12: the study
    ends with thirteen trials, the last one failed; the seven trials
    after it never run, although [run_benchmark] returns a result. *)
Example run_benchmark_failing_trial :
  let '(r, d) := run_benchmark exact_squares (failing_provider 12)
                   half_second "random" 1 20 "sphere" "none" "fast" [] in
  is_ok r = true /\
  state <$> trials d = replicate 12 COMPLETE ++ [FAIL].
Proof. vm_compute. split; reflexivity. Qed.


(** * Further properties of the code *)

(** ** The order of floats *)

Lemma leb_refl (x : float) : is_nan x = false -> leb x x = true.
Proof.
  unfold leb, SFleb.
  destruct x as [s | s | | s m e]; try destruct s; try done; intros _; cbn;
    rewrite Z.compare_refl, Pos.compare_cont_refl; reflexivity.
Qed.

Lemma leb_not_nan (x y : float) :
  leb x y = true -> is_nan x = false /\ is_nan y = false.
Proof. destruct x, y; cbn; try done. Qed.

Lemma ltb_leb (x y : float) : ltb x y = true -> leb x y = true.
Proof.
  unfold ltb, leb, SFltb, SFleb. by destruct (SFcompare x y) as [[] |].
Qed.

Ltac compare_cases :=
  rewrite ?Pos.compare_cont_spec; cbn;
  repeat match goal with
         | |- context [(?a ?= ?b)%Z] => destruct (Z.compare_spec a b)
         | |- context [(?a ?= ?b)%positive] => destruct (Pos.compare_spec a b)
         end; cbn; try done; subst; try lia.

Lemma leb_total (x y : float) :
  is_nan x = false -> is_nan y = false -> ltb x y = false -> leb y x = true.
Proof.
  unfold ltb, leb, SFltb, SFleb.
  destruct x as [sx | sx | | sx mx ex], y as [sy | sy | | sy my ey];
    try destruct sx; try destruct sy; cbn; try done; intros _ _;
    compare_cases.
Qed.

Lemma leb_trans (x y z : float) :
  leb x y = true -> leb y z = true -> leb x z = true.
Proof.
  unfold leb, SFleb.
  destruct x as [sx | sx | | sx mx ex], y as [sy | sy | | sy my ey],
           z as [sz | sz | | sz mz ez];
    try destruct sx; try destruct sy; try destruct sz; cbn; try done;
    compare_cases.
Qed.

(** ** The best value of a study *)

Lemma best_step_not_complete (best : option float) (t : FrozenTrial) :
  state t <> COMPLETE -> best_step best t = best.
Proof. unfold best_step. by destruct (state t). Qed.

Lemma study_best_value_snoc_other (ts : list FrozenTrial) (t : FrozenTrial) :
  state t <> COMPLETE ->
  study_best_value (ts ++ [t]) = study_best_value ts.
Proof.
  intros H. unfold study_best_value.
  by rewrite foldl_snoc, best_step_not_complete.
Qed.

Lemma completed_values_ok_snoc (ts : list FrozenTrial) (t : FrozenTrial) :
  completed_values_ok (ts ++ [t]) <->
  completed_values_ok ts /\
  (state t = COMPLETE -> exists v, value t = Some v /\ is_nan v = false).
Proof. unfold completed_values_ok. by rewrite Forall_app, Forall_singleton. Qed.

Lemma foldl_best_step_None (ts : list FrozenTrial) :
  completed_values_ok ts ->
  foldl best_step None ts = None -> no_complete ts.
Proof.
  induction ts as [| t ts IH] using rev_ind; [by constructor |].
  intros [Hts Ht]%completed_values_ok_snoc. rewrite foldl_snoc.
  unfold best_step at 1. intros E.
  destruct (state t) eqn:Est; try (apply Forall_app; split;
    [by apply IH | apply Forall_singleton; congruence]).
  destruct (Ht eq_refl) as (v & Hv & _). rewrite Hv in E.
  by destruct (foldl best_step None ts); [destruct (gtb _ _) |].
Qed.

(** The best value is the value of a completed trial, it is a number,
    and no completed trial has a smaller one. *)
Lemma foldl_best_step_spec (ts : list FrozenTrial) (b : float) :
  completed_values_ok ts ->
  foldl best_step None ts = Some b ->
  is_nan b = false /\
  (exists t, t ∈ ts /\ state t = COMPLETE /\ value t = Some b) /\
  (forall t v, t ∈ ts -> state t = COMPLETE -> value t = Some v ->
     leb b v = true).
Proof.
  revert b. induction ts as [| t ts IH] using rev_ind; [done |].
  intros b [Hts Ht]%completed_values_ok_snoc. rewrite foldl_snoc.
  destruct (decide (state t = COMPLETE)) as [Hc | Hc].
  - destruct (Ht Hc) as (v & Hv & Hnan). unfold best_step at 1.
    rewrite Hc, Hv.
    destruct (foldl best_step None ts) as [b0 |] eqn:Eb0.
    + destruct (IH b0 Hts eq_refl) as (Hb0 & (t0 & Hin0 & Hc0 & Hv0) & Hmin).
      destruct (gtb b0 v) eqn:Egt; intros [= <-].
      * split; [done |]. split.
        { exists t. split; [apply elem_of_app; right; by left | done]. }
        intros t' v' [Hin | ->%list_elem_of_singleton]%elem_of_app Hc' Hv'.
        -- eapply leb_trans; [apply ltb_leb, Egt | by eapply Hmin].
        -- rewrite Hv in Hv'. injection Hv' as <-. by apply leb_refl.
      * split; [done |]. split.
        { exists t0. split; [apply elem_of_app; by left | done]. }
        intros t' v' [Hin | ->%list_elem_of_singleton]%elem_of_app Hc' Hv'.
        -- by eapply Hmin.
        -- rewrite Hv in Hv'. injection Hv' as <-. by apply leb_total.
    + intros [= <-]. split; [done |]. split.
      { exists t. split; [apply elem_of_app; right; by left | done]. }
      intros t' v' [Hin | ->%list_elem_of_singleton]%elem_of_app Hc' Hv'.
      * pose proof (foldl_best_step_None ts Hts Eb0) as Hnone.
        unfold no_complete in Hnone. rewrite Forall_forall in Hnone.
        by destruct (Hnone t').
      * rewrite Hv in Hv'. injection Hv' as <-. by apply leb_refl.
  - rewrite best_step_not_complete by done. intros E.
    destruct (IH b Hts E) as (Hb & (t0 & Hin0 & Hc0 & Hv0) & Hmin).
    split; [done |]. split.
    { exists t0. split; [apply elem_of_app; by left | done]. }
    intros t' v' [Hin | ->%list_elem_of_singleton]%elem_of_app Hc' Hv';
      [by eapply Hmin | done].
Qed.

(** Recording one more trial never raises the best value. *)
Lemma study_best_value_snoc (ts : list FrozenTrial) (t : FrozenTrial)
    (b : float) :
  completed_values_ok (ts ++ [t]) ->
  study_best_value ts = Ok b ->
  exists b', study_best_value (ts ++ [t]) = Ok b' /\ leb b' b = true.
Proof.
  intros [Hts Ht]%completed_values_ok_snoc.
  unfold study_best_value. rewrite foldl_snoc.
  destruct (foldl best_step None ts) as [b0 |] eqn:Eb0; [| done].
  intros [= <-].
  destruct (foldl_best_step_spec ts b0 Hts Eb0) as (Hnan & _).
  destruct (decide (state t = COMPLETE)) as [Hc | Hc].
  - destruct (Ht Hc) as (v & Hv & Hnanv). unfold best_step. rewrite Hc, Hv.
    destruct (gtb b0 v) eqn:Egt; eexists; (split; [done |]).
    + by apply ltb_leb.
    + by apply leb_refl.
  - rewrite best_step_not_complete by done. eexists. split; [done |].
    by apply leb_refl.
Qed.

Lemma non_increasing_snoc (l : list float) (v : float) :
  non_increasing l -> (forall c, c ∈ l -> leb v c = true) ->
  non_increasing (l ++ [v]).
Proof.
  unfold non_increasing. induction 1 as [| x l Hl IH Hx]; intros Hv; cbn.
  - repeat constructor.
  - constructor.
    + apply IH. intros c Hc. apply Hv. by right.
    + apply Forall_app. split; [done |].
      apply Forall_singleton, Hv. by left.
Qed.

Lemma non_increasing_take (n : nat) (l : list float) :
  non_increasing l -> non_increasing (take n l).
Proof.
  unfold non_increasing. intros H. revert n.
  induction H as [| x l Hl IH Hx]; intros [| n]; cbn; try by constructor.
  constructor; [apply IH | by apply Forall_take].
Qed.

(** ** Invariants of the trial driver *)

Section DriverInvariants.

Context (libm : Libm) (provider : Provider) (elapsed_time : float).

Implicit Types d : driver provider.

#[local] Existing Instance M_ret.
#[local] Existing Instance M_bind.

Lemma respects_bind {A B} (P : driver provider -> Prop)
    (m : M provider A) (k : A -> M provider B) :
  respects P m -> (forall a, respects P (k a)) -> respects P (m ≫= k).
Proof.
  intros Hm Hk d Hd. unfold mbind, M_bind.
  specialize (Hm d Hd). destruct (m d) as [[a | e] d1]; [| done].
  by apply Hk.
Qed.

Lemma respects_ret {A} (P : driver provider -> Prop) (a : A) :
  respects P (mret a : M provider A).
Proof. by intros d Hd. Qed.

Lemma checkpoints_sound_frame d d' :
  frame d d' -> checkpoints_sound d -> checkpoints_sound d'.
Proof.
  intros (E1 & E2 & _) (H1 & H2 & H3). unfold checkpoints_sound.
  by rewrite E1, E2.
Qed.

Lemma framed_respects_sound {A} (m : M provider A) :
  framed m -> respects checkpoints_sound m.
Proof. intros Hm d Hd. eapply checkpoints_sound_frame; [apply Hm | done]. Qed.

(** Appending the current best value keeps the checkpoints sound. *)
Lemma checkpoints_sound_append d d' (v : float) :
  trials d' = trials d -> conv d' = conv d ++ [v] ->
  study_best_value (trials d) = Ok v ->
  checkpoints_sound d -> checkpoints_sound d'.
Proof.
  intros E1 E2 Hbest (Hok & Hmono & Habove). unfold checkpoints_sound.
  rewrite E1, E2.
  assert (Hnan : is_nan v = false).
  { unfold study_best_value in Hbest.
    destruct (foldl best_step None (trials d)) as [b |] eqn:Eb; [| done].
    injection Hbest as ->. by apply (foldl_best_step_spec _ _ Hok Eb). }
  assert (Hv : forall c, c ∈ conv d -> leb v c = true).
  { intros c Hc. destruct (Habove c Hc) as (b & Hb & Hle). congruence. }
  split; [done |]. split; [by apply non_increasing_snoc |].
  intros c [Hc | ->%list_elem_of_singleton]%elem_of_app.
  - exists v. split; [done | by apply Hv].
  - exists v. split; [done | by apply leb_refl].
Qed.

Lemma sound_record_convergence (n_trials trial_number : Z) :
  respects checkpoints_sound
    (record_convergence provider n_trials trial_number).
Proof.
  intros d Hd. unfold record_convergence, mbind, M_bind, get, lift.
  destruct (checkpoints !! checkpoint_idx d); [| done].
  destruct (of_int n_trials); [| done].
  destruct (to_int _); [| done].
  destruct (_ <=? _); [| done].
  unfold best_value_now.
  destruct (study_best_value (trials d)) as [v |] eqn:Ev; [| done].
  by eapply (checkpoints_sound_append d).
Qed.

Lemma sound_objective_closure
    (objective_fn : list float -> result float) (low high : float)
    (n_params n_trials : Z) (pruner_name : string) (trial_number : Z) :
  respects checkpoints_sound
    (objective_closure provider objective_fn low high n_params n_trials
       pruner_name trial_number).
Proof.
  unfold objective_closure.
  apply respects_bind;
    [apply framed_respects_sound, framed_suggest_params |]. intros params.
  apply respects_bind; [apply framed_respects_sound, framed_lift |].
  intros true_value.
  apply respects_bind.
  { apply framed_respects_sound.
    destruct (negb _); [apply framed_report_steps | apply framed_ret]. }
  intros _. apply respects_bind; [apply sound_record_convergence |].
  intros _. apply respects_ret.
Qed.

Lemma sound_finish_trial (trial_number : Z) (st : TrialState)
    (v : option float) d :
  (st = COMPLETE -> exists x, v = Some x /\ is_nan x = false) ->
  checkpoints_sound d ->
  checkpoints_sound (finish_trial provider trial_number st v d).
Proof.
  intros Hv (Hok & Hmono & Habove). unfold checkpoints_sound. cbn.
  assert (Hok' : completed_values_ok
                   (trials d ++ [mkFrozenTrial trial_number st v (reports d)])).
  { apply completed_values_ok_snoc. split; [done |]. exact Hv. }
  split; [done |]. split; [done |].
  intros c Hc. destruct (Habove c Hc) as (b & Hb & Hle).
  destruct (study_best_value_snoc _ _ _ Hok' Hb) as (b' & Hb' & Hle').
  exists b'. split; [done |]. by eapply leb_trans.
Qed.

Lemma sound_run_trial
    (objective_fn : list float -> result float) (low high : float)
    (n_params n_trials : Z) (pruner_name : string) :
  respects checkpoints_sound
    (run_trial provider objective_fn low high n_params n_trials pruner_name).
Proof.
  intros d Hd. unfold run_trial.
  assert (Hd' : checkpoints_sound (set_reports provider [] d)) by exact Hd.
  pose proof (sound_objective_closure objective_fn low high n_params
                n_trials pruner_name (Z.of_nat (length (trials d))) _ Hd')
    as H.
  destruct (objective_closure _ _ _ _ _ _ _ _ _) as [[v | e] d1];
    cbn [snd] in H.
  - destruct (is_nan v) eqn:Env; cbn [snd];
      apply sound_finish_trial; try done. intros _. by exists v.
  - destruct e; cbn [snd]; by apply sound_finish_trial.
Qed.

Lemma sound_optimize
    (objective_fn : list float -> result float) (low high : float)
    (n_params n_trials : Z) (pruner_name : string) (k : nat) :
  respects checkpoints_sound
    (optimize provider objective_fn low high n_params n_trials pruner_name k).
Proof.
  induction k as [| k IH]; cbn [optimize]; [apply respects_ret |].
  apply respects_bind; [apply sound_run_trial | by intros _].
Qed.

Lemma sound_pad_convergence (fuel : nat) :
  respects checkpoints_sound (pad_convergence provider fuel).
Proof.
  induction fuel as [| fuel IH]; cbn [pad_convergence];
    [apply respects_ret |].
  intros d Hd. unfold mbind, M_bind, get, best_value_now.
  destruct (length (conv d) <? 5)%nat; [| done].
  destruct (study_best_value (trials d)) as [v |] eqn:Ev; [| done].
  apply IH. by eapply (checkpoints_sound_append d).
Qed.

Lemma keeps_trials_pad_convergence (fuel : nat) :
  keeps_trials (pad_convergence provider fuel).
Proof.
  induction fuel as [| fuel IH]; cbn [pad_convergence]; [done |].
  intros d. unfold mbind, M_bind, get, best_value_now.
  destruct (length (conv d) <? 5)%nat; [| done].
  destruct (study_best_value (trials d)); [| done].
  by rewrite IH.
Qed.

Lemma checkpoints_sound_init (sampler_name pruner_name : string) (h : heap) :
  checkpoints_sound (init_driver provider sampler_name pruner_name h).
Proof.
  repeat split; [by constructor | by constructor |].
  intros c Hc. by apply elem_of_nil in Hc.
Qed.

(** What a returned result is made of: the state [d'] in which the
    padding loop ended, after the optimization. *)
Lemma run_study_Ok (objective_fn : list float -> result float)
    (low high : float) (sampler_name : string) (n_params n_trials : Z)
    (objective_name pruner_name tier : string) d r d' :
  run_study provider elapsed_time objective_fn low high sampler_name
    n_params n_trials objective_name pruner_name tier d = (Ok r, d') ->
  pad_convergence provider 5
    (optimize provider objective_fn low high n_params n_trials pruner_name
       (Z.to_nat n_trials) d).2 = (Ok (), d') /\
  study_best_value (trials d') = Ok (best_value r) /\
  convergence r = take 5 (conv d') /\
  pruned_trials r = pruned_count d' /\
  to_int (mul elapsed_time (of_Z 1000)) = Ok (elapsed_ms r) /\
  framework r = "optuna" /\
  key r = (sampler_name, objective_name, n_params, n_trials, pruner_name,
           tier) /\
  seed r = 42.
Proof.
  unfold run_study, mbind, M_bind, suppress.
  match goal with
  | |- context [optimize ?a ?b ?c ?e ?f ?g ?i ?j d] =>
      destruct (optimize a b c e f g i j d) as [[[] | ?] d1]
  end.
  all: unfold lift at 1;
    (destruct (to_int (mul elapsed_time (of_Z 1000))); [| done]);
    cbn [snd];
    (destruct (pad_convergence provider 5 d1) as [[[] | ?] d2]; [| done]);
    unfold get, best_value_now;
    (destruct (study_best_value (trials d2)) eqn:Ebest; [| done]);
    (destruct (gtb elapsed_time (of_Z 0));
       [unfold lift; destruct (of_int n_trials); [| done] |]);
    cbn; intros [= <- <-]; by repeat split.
Qed.

Lemma run_benchmark_Ok (sampler_name : string) (n_params n_trials : Z)
    (objective_name pruner_name tier : string) (h : heap) r d :
  run_benchmark libm provider elapsed_time sampler_name n_params n_trials
    objective_name pruner_name tier h = (Ok r, d) ->
  exists objective_fn low high,
    get_objective libm objective_name = Ok objective_fn /\
    get_range libm objective_name = Ok (low, high) /\
    known_sampler sampler_name = Ok () /\
    known_pruner pruner_name = Ok () /\
    run_study provider elapsed_time objective_fn low high sampler_name
      n_params n_trials objective_name pruner_name tier
      (init_driver provider sampler_name pruner_name h) = (Ok r, d).
Proof.
  unfold run_benchmark.
  destruct (get_objective libm objective_name) as [objective_fn |]; [| done].
  destruct (get_range libm objective_name) as [[low high] |]; [| done].
  destruct (known_sampler sampler_name) as [[] |]; [| done].
  destruct (known_pruner pruner_name) as [[] |]; [| done].
  intros H. by exists objective_fn, low, high.
Qed.

(** The state in which a successful [run_benchmark] ends is sound. *)
Lemma run_benchmark_sound (sampler_name : string) (n_params n_trials : Z)
    (objective_name pruner_name tier : string) (h : heap) r d :
  run_benchmark libm provider elapsed_time sampler_name n_params n_trials
    objective_name pruner_name tier h = (Ok r, d) ->
  checkpoints_sound d /\
  study_best_value (trials d) = Ok (best_value r) /\
  convergence r = take 5 (conv d).
Proof.
  intros (objective_fn & low & high & _ & _ & _ & _ & Hrun)%run_benchmark_Ok.
  apply run_study_Ok in Hrun as (Hpad & Hbest & Hconv & _).
  split; [| done].
  pose proof (sound_pad_convergence 5 _
                (sound_optimize objective_fn low high n_params n_trials
                   pruner_name (Z.to_nat n_trials) _
                   (checkpoints_sound_init sampler_name pruner_name h)))
    as H.
  by rewrite Hpad in H.
Qed.

(** The convergence sequence of a returned result never increases, and
    the reported best value is at or below each of its entries. *)
Theorem run_benchmark_convergence_monotone (sampler_name : string)
    (n_params n_trials : Z) (objective_name pruner_name tier : string)
    (h : heap) r d :
  run_benchmark libm provider elapsed_time sampler_name n_params n_trials
    objective_name pruner_name tier h = (Ok r, d) ->
  non_increasing (convergence r) /\
  forall c, c ∈ convergence r -> leb (best_value r) c = true.
Proof.
  intros ((Hok & Hmono & Habove) & Hbest & ->)%run_benchmark_sound.
  split; [by apply non_increasing_take |].
  intros c Hc%subseteq_take.
  destruct (Habove c Hc) as (b & Hb & Hle). congruence.
Qed.

(** The reported best value is the value of a completed trial of the
    study, it is a number, and no completed trial has a smaller value;
    pruned and failed trials do not count. *)
Theorem run_benchmark_best_value_least (sampler_name : string)
    (n_params n_trials : Z) (objective_name pruner_name tier : string)
    (h : heap) r d :
  run_benchmark libm provider elapsed_time sampler_name n_params n_trials
    objective_name pruner_name tier h = (Ok r, d) ->
  is_nan (best_value r) = false /\
  (exists t, t ∈ trials d /\ state t = COMPLETE /\
             value t = Some (best_value r)) /\
  (forall t v, t ∈ trials d -> state t = COMPLETE -> value t = Some v ->
     leb (best_value r) v = true).
Proof.
  intros ((Hok & _) & Hbest & _)%run_benchmark_sound.
  unfold study_best_value in Hbest.
  destruct (foldl best_step None (trials d)) as [b |] eqn:Eb; [| done].
  injection Hbest as <-. by apply foldl_best_step_spec.
Qed.

(** A returned result carries the requested configuration as its key,
    the framework name [optuna] and the seed 42. *)
Theorem run_benchmark_result_key (sampler_name : string)
    (n_params n_trials : Z) (objective_name pruner_name tier : string)
    (h : heap) r d :
  run_benchmark libm provider elapsed_time sampler_name n_params n_trials
    objective_name pruner_name tier h = (Ok r, d) ->
  framework r = "optuna" /\
  key r = (sampler_name, objective_name, n_params, n_trials, pruner_name,
           tier) /\
  seed r = 42.
Proof.
  intros (objective_fn & low & high & _ & _ & _ & _ & Hrun)%run_benchmark_Ok.
  by apply run_study_Ok in Hrun as (_ & _ & _ & _ & _ & ? & ? & ?).
Qed.

End DriverInvariants.

(** ** Counting trials and prunings *)

Section DriverCounts.

Context (libm : Libm) (provider : Provider) (elapsed_time : float).

Implicit Types d : driver provider.

#[local] Existing Instance M_ret.
#[local] Existing Instance M_bind.

Lemma keeps_count_bind {A B} (m : M provider A) (k : A -> M provider B) :
  keeps_count m -> (forall a, keeps_count (k a)) -> keeps_count (m ≫= k).
Proof.
  intros Hm Hk d. unfold mbind, M_bind.
  specialize (Hm d). destruct (m d) as [[a | e] d1]; [| done].
  cbn in Hm. rewrite <- Hm. apply Hk.
Qed.

Lemma counts_own_pruning_bind {A B} (m : M provider A)
    (k : A -> M provider B) :
  counts_own_pruning m -> (forall a, counts_own_pruning (k a)) ->
  counts_own_pruning (m ≫= k).
Proof.
  intros Hm Hk d. unfold mbind, M_bind.
  specialize (Hm d). destruct (m d) as [[a | e] d1]; cbn in Hm.
  - destruct Hm as [Hm | [_ ?]]; [| done]. rewrite <- Hm. apply Hk.
  - destruct Hm as [Hm | [Hm [= ->]]]; [by left | by right].
Qed.

Lemma keeps_count_counts {A} (m : M provider A) :
  keeps_count m -> counts_own_pruning m.
Proof. intros H d. left. apply H. Qed.

Lemma keeps_count_call_suggest trial_number name low high :
  keeps_count (call_suggest provider trial_number name low high).
Proof.
  intros d. unfold call_suggest. by destruct (suggest_float _ _ _ _ _ _ _).
Qed.

Lemma keeps_count_call_should_prune trial_number :
  keeps_count (call_should_prune provider trial_number).
Proof.
  intros d. unfold call_should_prune. by destruct (should_prune _ _ _ _).
Qed.

Lemma keeps_count_call_intermediate_value true_value step trial_number seed :
  keeps_count
    (call_intermediate_value provider true_value step trial_number seed).
Proof.
  intros d. unfold call_intermediate_value.
  by destruct (get_intermediate_value _ _ _ _ _).
Qed.

Lemma keeps_count_suggest_params low high trial_number indices :
  keeps_count (suggest_params provider low high trial_number indices).
Proof.
  induction indices as [| i indices IH]; cbn [suggest_params]; [done |].
  apply keeps_count_bind; [apply keeps_count_call_suggest |]. intros x.
  apply keeps_count_bind; [exact IH | done].
Qed.

Lemma keeps_count_record_convergence (n_trials trial_number : Z) :
  keeps_count (record_convergence provider n_trials trial_number).
Proof.
  intros d. unfold record_convergence, mbind, M_bind, get, lift.
  destruct (checkpoints !! checkpoint_idx d); [| done].
  destruct (of_int n_trials); [| done].
  destruct (to_int _); [| done].
  destruct (_ <=? _); [| done].
  unfold best_value_now. by destruct (study_best_value _).
Qed.

Lemma counts_own_pruning_report_steps true_value trial_number steps :
  counts_own_pruning
    (report_steps provider true_value trial_number steps).
Proof.
  induction steps as [| step steps IH]; cbn [report_steps]; [by left |].
  apply counts_own_pruning_bind;
    [apply keeps_count_counts, keeps_count_call_intermediate_value |].
  intros v.
  apply counts_own_pruning_bind; [by apply keeps_count_counts |]. intros _.
  apply counts_own_pruning_bind;
    [apply keeps_count_counts, keeps_count_call_should_prune |].
  intros []; [| exact IH]. intros d. by right.
Qed.

Lemma counts_own_pruning_objective_closure
    (objective_fn : list float -> result float) (low high : float)
    (n_params n_trials : Z) (pruner_name : string) (trial_number : Z) :
  counts_own_pruning
    (objective_closure provider objective_fn low high n_params n_trials
       pruner_name trial_number).
Proof.
  unfold objective_closure.
  apply counts_own_pruning_bind;
    [apply keeps_count_counts, keeps_count_suggest_params |]. intros params.
  apply counts_own_pruning_bind; [by apply keeps_count_counts |].
  intros true_value.
  apply counts_own_pruning_bind.
  { destruct (negb _); [apply counts_own_pruning_report_steps | by left]. }
  intros _. apply counts_own_pruning_bind;
    [apply keeps_count_counts, keeps_count_record_convergence |].
  intros _. by left.
Qed.

(** Without a pruner the closure never touches the counter. *)
Lemma keeps_count_objective_closure_none
    (objective_fn : list float -> result float) (low high : float)
    (n_params n_trials : Z) (trial_number : Z) :
  keeps_count
    (objective_closure provider objective_fn low high n_params n_trials
       "none" trial_number).
Proof.
  unfold objective_closure.
  apply keeps_count_bind; [apply keeps_count_suggest_params |].
  intros params. apply keeps_count_bind; [done |]. intros true_value.
  apply keeps_count_bind; [done |]. intros _.
  apply keeps_count_bind; [apply keeps_count_record_convergence | done].
Qed.

Lemma pruned_in_snoc (ts : list FrozenTrial) (t : FrozenTrial) :
  length (pruned_in (ts ++ [t])) =
    (length (pruned_in ts) + if decide (state t = PRUNED) then 1 else 0)%nat.
Proof.
  unfold pruned_in. rewrite filter_app, length_app, filter_cons, filter_nil.
  by destruct (decide (state t = PRUNED)).
Qed.

Lemma pruned_in_length (ts : list FrozenTrial) :
  (length (pruned_in ts) <= length ts)%nat.
Proof. apply length_filter. Qed.

Lemma count_bounded_run_trial
    (objective_fn : list float -> result float) (low high : float)
    (n_params n_trials : Z) (pruner_name : string) :
  respects count_bounded
    (run_trial provider objective_fn low high n_params n_trials pruner_name).
Proof.
  intros d Hd. unfold run_trial, count_bounded in *.
  pose proof (counts_own_pruning_objective_closure objective_fn low high
                n_params n_trials pruner_name (Z.of_nat (length (trials d)))
                (set_reports provider [] d)) as Hc.
  pose proof (keeps_trials_objective_closure provider objective_fn low high
                n_params n_trials pruner_name (Z.of_nat (length (trials d)))
                (set_reports provider [] d)) as Ht.
  destruct (objective_closure _ _ _ _ _ _ _ _ _) as [[v | e] d1];
    cbn in Hc, Ht.
  - destruct Hc as [Hc | [_ ?]]; [| done].
    destruct (is_nan v); cbn; rewrite pruned_in_snoc, Ht; cbn;
      case_decide; lia.
  - destruct Hc as [Hc | [Hc [= ->]]]; [destruct e |];
      cbn; rewrite pruned_in_snoc, Ht; cbn; case_decide; try done; lia.
Qed.

Lemma count_bounded_optimize
    (objective_fn : list float -> result float) (low high : float)
    (n_params n_trials : Z) (pruner_name : string) (k : nat) :
  respects count_bounded
    (optimize provider objective_fn low high n_params n_trials pruner_name k).
Proof.
  induction k as [| k IH]; cbn [optimize]; [apply respects_ret |].
  apply respects_bind; [apply count_bounded_run_trial | by intros _].
Qed.

Lemma keeps_count_run_trial_none
    (objective_fn : list float -> result float) (low high : float)
    (n_params n_trials : Z) :
  keeps_count
    (run_trial provider objective_fn low high n_params n_trials "none").
Proof.
  intros d. unfold run_trial.
  pose proof (keeps_count_objective_closure_none objective_fn low high
                n_params n_trials (Z.of_nat (length (trials d)))
                (set_reports provider [] d)) as Hc.
  destruct (objective_closure _ _ _ _ _ _ _ _ _) as [[v | e] d1]; cbn in Hc.
  - by destruct (is_nan v).
  - by destruct e.
Qed.

Lemma keeps_count_optimize_none
    (objective_fn : list float -> result float) (low high : float)
    (n_params n_trials : Z) (k : nat) :
  keeps_count
    (optimize provider objective_fn low high n_params n_trials "none" k).
Proof.
  induction k as [| k IH]; cbn [optimize]; [done |].
  apply keeps_count_bind; [apply keeps_count_run_trial_none | by intros _].
Qed.

Lemma keeps_count_pad_convergence (fuel : nat) :
  keeps_count (pad_convergence provider fuel).
Proof.
  induction fuel as [| fuel IH]; cbn [pad_convergence]; [done |].
  intros d. unfold mbind, M_bind, get, best_value_now.
  destruct (length (conv d) <? 5)%nat; [| done].
  destruct (study_best_value (trials d)); [| done].
  by rewrite IH.
Qed.

Lemma optimize_length_le
    (objective_fn : list float -> result float) (low high : float)
    (n_params n_trials : Z) (pruner_name : string) (k : nat) d :
  (length (trials (optimize provider objective_fn low high n_params n_trials
                     pruner_name k d).2) <= length (trials d) + k)%nat.
Proof.
  revert d. induction k as [| k IH]; intros d; cbn [optimize]; [cbn; lia |].
  unfold mbind, M_bind.
  pose proof (run_trial_length provider objective_fn low high n_params
                n_trials pruner_name d) as H.
  destruct (run_trial _ _ _ _ _ _ _ d) as [[[] | e] d1]; cbn in H |- *.
  - specialize (IH d1). lia.
  - lia.
Qed.

Lemma numbered_run_trial
    (objective_fn : list float -> result float) (low high : float)
    (n_params n_trials : Z) (pruner_name : string) d :
  numbered (trials d) ->
  numbered (trials (run_trial provider objective_fn low high n_params
                      n_trials pruner_name d).2).
Proof.
  intros Hd. unfold run_trial.
  pose proof (keeps_trials_objective_closure provider objective_fn low high
                n_params n_trials pruner_name (Z.of_nat (length (trials d)))
                (set_reports provider [] d)) as Ht.
  assert (forall st v d1, trials d1 = trials d ->
            numbered (trials (finish_trial provider
                                (Z.of_nat (length (trials d))) st v d1)))
    as Hfin.
  { intros st v d1 E i t. cbn. rewrite E.
    destruct (decide (i < length (trials d))%nat) as [Hi | Hi].
    - rewrite lookup_app_l by done. apply Hd.
    - rewrite lookup_app_r by lia.
      destruct (i - length (trials d))%nat as [| j] eqn:Ej; [| done].
      intros [= <-]. cbn. f_equal. lia. }
  destruct (objective_closure _ _ _ _ _ _ _ _ _) as [[v | e] d1]; cbn in Ht.
  - destruct (is_nan v); by apply Hfin.
  - destruct e; by apply Hfin.
Qed.

Lemma numbered_optimize
    (objective_fn : list float -> result float) (low high : float)
    (n_params n_trials : Z) (pruner_name : string) (k : nat) d :
  numbered (trials d) ->
  numbered (trials (optimize provider objective_fn low high n_params
                      n_trials pruner_name k d).2).
Proof.
  revert d. induction k as [| k IH]; intros d Hd; cbn [optimize]; [done |].
  unfold mbind, M_bind.
  pose proof (numbered_run_trial objective_fn low high n_params n_trials
                pruner_name d Hd) as H.
  destruct (run_trial _ _ _ _ _ _ _ d) as [[[] | e] d1]; [by apply IH | done].
Qed.

(** The trials of the study after the body of [run_benchmark]: those of
    the optimization. *)
Lemma run_study_trials (objective_fn : list float -> result float)
    (low high : float) (sampler_name : string) (n_params n_trials : Z)
    (objective_name pruner_name tier : string) d :
  trials (run_study provider elapsed_time objective_fn low high sampler_name
            n_params n_trials objective_name pruner_name tier d).2 =
  trials (optimize provider objective_fn low high n_params n_trials
            pruner_name (Z.to_nat n_trials) d).2.
Proof.
  unfold run_study, mbind, M_bind, suppress.
  match goal with
  | |- context [optimize ?a ?b ?c ?e ?f ?g ?i ?j d] =>
      destruct (optimize a b c e f g i j d) as [[[] | ?] d1]
  end.
  all: unfold lift at 1;
    (destruct (to_int (mul elapsed_time (of_Z 1000))); [| done]);
    pose proof (keeps_trials_pad_convergence provider 5 d1) as Hp;
    (destruct (pad_convergence provider 5 d1) as [[[] | ?] d2]; [| done]);
    unfold get, best_value_now;
    (destruct (study_best_value (trials d2)); [| done]);
    (destruct (gtb elapsed_time (of_Z 0));
       [unfold lift; destruct (of_int n_trials); [| done] |]);
    done.
Qed.

(** Whatever the outcome of [run_benchmark], the study never holds more
    trials than were requested, and trial [i] of the study carries the
    number [i]. *)
Theorem run_benchmark_trials_numbered (sampler_name : string)
    (n_params n_trials : Z) (objective_name pruner_name tier : string)
    (h : heap) :
  let d := (run_benchmark libm provider elapsed_time sampler_name n_params
              n_trials objective_name pruner_name tier h).2 in
  (length (trials d) <= Z.to_nat n_trials)%nat /\ numbered (trials d).
Proof.
  unfold run_benchmark.
  assert (Hinit : numbered
            (trials (init_driver provider sampler_name pruner_name h)))
    by (by intros i t).
  destruct (get_objective libm objective_name) as [objective_fn |];
    [| split; [cbn; lia | done]].
  destruct (get_range libm objective_name) as [[low high] |];
    [| split; [cbn; lia | done]].
  destruct (known_sampler sampler_name) as [[] |];
    [| split; [cbn; lia | done]].
  destruct (known_pruner pruner_name) as [[] |];
    [| split; [cbn; lia | done]].
  cbv zeta. rewrite run_study_trials. split.
  - apply (optimize_length_le objective_fn low high n_params n_trials
             pruner_name (Z.to_nat n_trials)
             (init_driver provider sampler_name pruner_name h)).
  - by apply numbered_optimize.
Qed.

(** The [pruned_trials] of a returned result is non-negative, counts
    only trials that the study records as pruned, and so never exceeds
    [n_trials]; without a pruner it is zero. *)
Theorem run_benchmark_pruned_trials_bounded (sampler_name : string)
    (n_params n_trials : Z) (objective_name pruner_name tier : string)
    (h : heap) r d :
  run_benchmark libm provider elapsed_time sampler_name n_params n_trials
    objective_name pruner_name tier h = (Ok r, d) ->
  0 <= pruned_trials r <= Z.of_nat (length (pruned_in (trials d))) /\
  pruned_trials r <= n_trials /\
  (pruner_name = "none" -> pruned_trials r = 0).
Proof.
  intros Hrun.
  pose proof (run_benchmark_Ok libm provider elapsed_time _ _ _ _ _ _ _ _ _
                Hrun) as (objective_fn & low & high & _ & _ & _ & _ & Hstudy).
  pose proof (run_study_Ok provider elapsed_time _ _ _ _ _ _ _ _ _ _ _ _
                Hstudy) as (Hpad & _ & _ & -> & _).
  set (d0 := init_driver provider sampler_name pruner_name h) in *.
  set (d1 := (optimize provider objective_fn low high n_params n_trials
                pruner_name (Z.to_nat n_trials) d0).2) in *.
  assert (Hcount : pruned_count d = pruned_count d1).
  { pose proof (keeps_count_pad_convergence 5 d1) as H.
    by rewrite Hpad in H. }
  assert (Htrials : trials d = trials d1).
  { pose proof (keeps_trials_pad_convergence provider 5 d1) as H.
    by rewrite Hpad in H. }
  assert (Hb : count_bounded d1).
  { apply count_bounded_optimize. unfold count_bounded. cbn. lia. }
  assert (Hlen : (length (trials d1) <= Z.to_nat n_trials)%nat).
  { pose proof (optimize_length_le objective_fn low high n_params n_trials
                  pruner_name (Z.to_nat n_trials) d0) as H.
    exact H. }
  assert (Hn : 10 <= n_trials).
  { destruct (decide (10 <= n_trials)) as [| Hshort]; [done |].
    destruct (run_study_short provider elapsed_time objective_fn low high
                sampler_name n_params n_trials objective_name pruner_name
                tier d0) as (e & d' & He & _);
      [lia | apply barren_init |]. congruence. }
  unfold count_bounded in Hb. rewrite Hcount, Htrials.
  pose proof (pruned_in_length (trials d1)).
  split; [lia |]. split; [lia |].
  intros ->. subst d1.
  by rewrite (keeps_count_optimize_none objective_fn low high n_params
                n_trials (Z.to_nat n_trials) d0).
Qed.

End DriverCounts.

(** ** The seed of the intermediate values *)

Lemma lxor_range (a b : Z) :
  0 <= a < 2 ^ 32 -> 0 <= b < 2 ^ 32 -> 0 <= Z.lxor a b < 2 ^ 32.
Proof.
  intros Ha Hb.
  assert (0 <= Z.lxor a b) as Hnn by (apply Z.lxor_nonneg; lia).
  split; [done |].
  destruct (decide (Z.lxor a b = 0)) as [-> | Hne]; [done |].
  apply Z.log2_lt_pow2; [lia |].
  pose proof (Z.log2_lxor a b ltac:(lia) ltac:(lia)) as Hlog.
  assert (forall x, 0 <= x < 2 ^ 32 -> Z.log2 x < 32) as Hsmall.
  { intros x Hx. destruct (decide (x = 0)) as [-> | ?]; [done |].
    apply Z.log2_lt_pow2; lia. }
  pose proof (Hsmall a Ha). pose proof (Hsmall b Hb). lia.
Qed.

Lemma of_int_small (step : Z) :
  0 <= step <= 9 -> exists k, of_int (9 - step) = Ok k.
Proof.
  intros H.
  assert (step = 0 \/ step = 1 \/ step = 2 \/ step = 3 \/ step = 4 \/
          step = 5 \/ step = 6 \/ step = 7 \/ step = 8 \/ step = 9)
    as Hs by lia.
  repeat (destruct Hs as [-> | Hs]); [.. | subst step];
    eexists; vm_compute; reflexivity.
Qed.

(** Below step 9 the call succeeds exactly when the mixed seed
    [seed ^ trial_number ^ step] is one numpy accepts, that is, lies in
    [0, 2^32 - 1]; otherwise it raises [ValueError]. *)
Theorem get_intermediate_value_seed_range (true_value : float)
    (step trial_number seed : Z) (h : heap) :
  0 <= step < 9 ->
  (0 <= Z.lxor (Z.lxor seed trial_number) step <= 2 ^ 32 - 1 ->
   is_ok (get_intermediate_value true_value step trial_number seed h).1
     = true) /\
  (~ 0 <= Z.lxor (Z.lxor seed trial_number) step <= 2 ^ 32 - 1 ->
   (get_intermediate_value true_value step trial_number seed h).1
     = Raise (ValueError "Seed must be between 0 and 2**32 - 1")).
Proof.
  intros Hstep. rewrite get_intermediate_value_result.
  rewrite (proj2 (Z.eqb_neq step 9)) by lia. cbv zeta.
  set (mixed := Z.lxor (Z.lxor seed trial_number) step).
  split; intros Hm.
  - rewrite (proj2 (Z.ltb_ge _ _)), (proj2 (Z.ltb_ge _ _)) by lia. cbn [orb].
    destruct (of_int_small step ltac:(lia)) as (k & Hk).
    unfold noisy_value. by rewrite Hk.
  - destruct (2 ^ 32 - 1 <? mixed) eqn:E1; [done |].
    destruct (mixed <? 0) eqn:E2; [done |].
    apply Z.ltb_ge in E1, E2. lia.
Qed.

Lemma get_intermediate_value_seed_range_witness :
  is_ok (get_intermediate_value (of_Z 10) 5 7 42 []).1 = true /\
  (get_intermediate_value (of_Z 10) 5 (-1) 42 []).1
    = Raise (ValueError "Seed must be between 0 and 2**32 - 1").
Proof.
  split.
  - apply (get_intermediate_value_seed_range (of_Z 10) 5 7 42 []);
      [lia | vm_compute; split; discriminate].
  - apply (get_intermediate_value_seed_range (of_Z 10) 5 (-1) 42 []);
      [lia | vm_compute; intros [H _]; by apply H].
Defined.

(** As the driver calls it (steps 0 to 9, a seed and a trial number
    below [2^32]), [get_intermediate_value] never raises. *)
Theorem get_intermediate_value_succeeds (true_value : float)
    (step trial_number seed : Z) (h : heap) :
  0 <= step <= 9 -> 0 <= trial_number < 2 ^ 32 -> 0 <= seed < 2 ^ 32 ->
  is_ok (get_intermediate_value true_value step trial_number seed h).1 = true.
Proof.
  intros Hstep Ht Hs. rewrite get_intermediate_value_result.
  destruct (step =? 9) eqn:E9; [done |]. cbv zeta.
  assert (0 <= step < 2 ^ 32) as Hstep' by lia.
  pose proof (lxor_range _ _ (lxor_range _ _ Hs Ht) Hstep') as Hm.
  rewrite (proj2 (Z.ltb_ge _ _)), (proj2 (Z.ltb_ge _ _)) by lia. cbn [orb].
  destruct (of_int_small step Hstep) as (k & Hk).
  unfold noisy_value. by rewrite Hk.
Qed.

Lemma get_intermediate_value_succeeds_witness :
  is_ok (get_intermediate_value (lit 25 10) 0 19 42 []).1 = true.
Proof.
  apply (get_intermediate_value_succeeds (lit 25 10) 0 19 42 []); lia.
Defined.

(** ** Names of objectives, samplers and pruners *)

Lemma get_objective_known (libm : Libm) (name : string) :
  is_ok (get_objective libm name)
    = bool_decide (str_lower libm name ∈ objective_names).
Proof.
  unfold get_objective, objective_names.
  cbv zeta.
  repeat match goal with
         | |- context [String.eqb ?a ?b] =>
             destruct (String.eqb_spec a b) as [E | ?];
               [symmetry; apply bool_decide_eq_true; rewrite E;
                repeat constructor |]
         end.
  cbn. symmetry. apply bool_decide_eq_false.
  rewrite !elem_of_cons, elem_of_nil. tauto.
Qed.

Lemma get_range_known (libm : Libm) (name : string) :
  is_ok (get_range libm name)
    = bool_decide (str_lower libm name ∈ objective_names).
Proof.
  unfold get_range, objective_names.
  cbv zeta.
  repeat match goal with
         | |- context [String.eqb ?a ?b] =>
             destruct (String.eqb_spec a b) as [E | ?];
               [symmetry; apply bool_decide_eq_true; rewrite E;
                repeat constructor |]
         end.
  cbn. symmetry. apply bool_decide_eq_false.
  rewrite !elem_of_cons, elem_of_nil. tauto.
Qed.

Lemma known_sampler_known (name : string) :
  is_ok (known_sampler name) = bool_decide (name ∈ sampler_names).
Proof.
  unfold known_sampler, sampler_names.
  repeat match goal with
         | |- context [String.eqb ?a ?b] =>
             destruct (String.eqb_spec a b) as [-> | ?];
               [symmetry; apply bool_decide_eq_true; repeat constructor |]
         end.
  cbn. symmetry. apply bool_decide_eq_false.
  rewrite !elem_of_cons, elem_of_nil. tauto.
Qed.

Lemma known_pruner_known (name : string) :
  is_ok (known_pruner name) = bool_decide (name ∈ pruner_names).
Proof.
  unfold known_pruner, pruner_names.
  repeat match goal with
         | |- context [String.eqb ?a ?b] =>
             destruct (String.eqb_spec a b) as [-> | ?];
               [symmetry; apply bool_decide_eq_true; repeat constructor |]
         end.
  cbn. symmetry. apply bool_decide_eq_false.
  rewrite !elem_of_cons, elem_of_nil. tauto.
Qed.

Lemma get_objective_ValueError (libm : Libm) (name : string) e :
  get_objective libm name = Raise e -> exists msg, e = ValueError msg.
Proof.
  unfold get_objective.
  repeat (destruct (String.eqb _ _); [done |]). intros [= <-]. eauto.
Qed.

Lemma get_range_ValueError (libm : Libm) (name : string) e :
  get_range libm name = Raise e -> exists msg, e = ValueError msg.
Proof.
  unfold get_range.
  repeat (destruct (String.eqb _ _); [done |]). intros [= <-]. eauto.
Qed.

(** [get_objective] and [get_range] accept the same names: those that
    [str.lower] maps to one of the four objective names. *)
Theorem get_objective_get_range_agree (libm : Libm) (name : string) :
  is_ok (get_objective libm name) = is_ok (get_range libm name) /\
  (is_ok (get_range libm name) = true <->
   str_lower libm name ∈ objective_names).
Proof.
  rewrite get_objective_known, get_range_known. split; [done |].
  apply bool_decide_eq_true.
Qed.

(** An unknown objective name (compared after [str.lower]), or an
    unknown sampler or pruner name (compared exactly), makes
    [run_benchmark] raise [ValueError] before the study is touched: no
    trial is run and the provider is never called. *)
Theorem run_benchmark_unknown_name (libm : Libm) (provider : Provider)
    (elapsed_time : float) (sampler_name : string) (n_params n_trials : Z)
    (objective_name pruner_name tier : string) (h : heap) :
  str_lower libm objective_name ∉ objective_names \/
  sampler_name ∉ sampler_names \/ pruner_name ∉ pruner_names ->
  exists msg,
    run_benchmark libm provider elapsed_time sampler_name n_params n_trials
      objective_name pruner_name tier h =
    (Raise (ValueError msg), init_driver provider sampler_name pruner_name h).
Proof.
  intros H. unfold run_benchmark.
  pose proof (get_objective_known libm objective_name) as Ho.
  pose proof (get_range_known libm objective_name) as Hr.
  pose proof (known_sampler_known sampler_name) as Hs.
  pose proof (known_pruner_known pruner_name) as Hp.
  destruct (get_objective libm objective_name) as [objective_fn | e] eqn:Eo.
  2: { destruct (get_objective_ValueError _ _ _ Eo) as (msg & ->). eauto. }
  destruct (get_range libm objective_name) as [[low high] | e] eqn:Er.
  2: { destruct (get_range_ValueError _ _ _ Er) as (msg & ->). eauto. }
  destruct (known_sampler sampler_name) as [[] | e] eqn:Es.
  2: { revert Es. unfold known_sampler.
       repeat (destruct (String.eqb _ _); [done |]). intros [= <-]. eauto. }
  destruct (known_pruner pruner_name) as [[] | e] eqn:Ep.
  2: { revert Ep. unfold known_pruner.
       repeat (destruct (String.eqb _ _); [done |]). intros [= <-]. eauto. }
  cbn in Ho, Hs, Hp. symmetry in Ho, Hs, Hp.
  apply bool_decide_eq_true in Ho, Hs, Hp. tauto.
Qed.

Lemma run_benchmark_unknown_name_witness :
  exists msg,
    run_benchmark exact_squares lower_bound_provider half_second
      "TPE" 2 50 "Sphere" "none" "fast" [] =
    (Raise (ValueError msg), init_driver lower_bound_provider "TPE" "none" []).
Proof.
  apply (run_benchmark_unknown_name exact_squares lower_bound_provider
           half_second "TPE" 2 50 "Sphere" "none" "fast" []).
  right. left. vm_compute. intros H.
  repeat (apply elem_of_cons in H as [H | H]; [discriminate |]).
  by apply elem_of_nil in H.
Defined.

(** ** Counts that are not positive *)

Section Counts.

Variable libm : Libm.
Variable provider : Provider.
Variable elapsed_time : float.

#[local] Existing Instance M_ret.
#[local] Existing Instance M_bind.

(** A non-positive [n_params] gives the empty range, as zero does. *)
Lemma optimize_no_params (objective_fn : list float -> result float)
    (low high : float) (n_params n_trials : Z) (pruner_name : string)
    (k : nat) d :
  n_params <= 0 ->
  optimize provider objective_fn low high n_params n_trials pruner_name k d
  = optimize provider objective_fn low high 0 n_trials pruner_name k d.
Proof.
  intros Hn. revert d. induction k as [| k IH]; intros d; [done |].
  cbn [optimize]. unfold mbind, M_bind.
  assert (run_trial provider objective_fn low high n_params n_trials
            pruner_name d
          = run_trial provider objective_fn low high 0 n_trials
              pruner_name d) as ->.
  { unfold run_trial, objective_closure.
    by replace (Z.to_nat n_params) with (Z.to_nat 0) by lia. }
  destruct (run_trial _ _ _ _ _ _ _ d) as [[[] | e] d1]; [apply IH | done].
Qed.

Lemma run_study_no_params (objective_fn : list float -> result float)
    (low high : float) (sampler_name : string) (n_params n_trials : Z)
    (objective_name pruner_name tier : string) d :
  n_params <= 0 ->
  run_study provider elapsed_time objective_fn low high sampler_name
    n_params n_trials objective_name pruner_name tier d
  = (with_n_params n_params <$>
       (run_study provider elapsed_time objective_fn low high sampler_name
          0 n_trials objective_name pruner_name tier d).1,
     (run_study provider elapsed_time objective_fn low high sampler_name
        0 n_trials objective_name pruner_name tier d).2).
Proof.
  intros Hn. unfold run_study, mbind, M_bind, suppress.
  rewrite (optimize_no_params _ _ _ n_params) by done.
  match goal with
  | |- context [optimize ?a ?b ?c ?e ?f ?g ?i ?j d] =>
      destruct (optimize a b c e f g i j d) as [[[] | ?] d1]
  end.
  all: unfold lift at 1 3 5;
    (destruct (to_int (mul elapsed_time (of_Z 1000))); [| done]);
    (destruct (pad_convergence provider 5 d1) as [[[] | ?] d2]; [| done]);
    unfold get, best_value_now;
    (destruct (study_best_value (trials d2)); [| done]);
    (destruct (gtb elapsed_time (of_Z 0));
       [unfold lift; destruct (of_int n_trials); [| done] |]);
    done.
Qed.

(** A requested trial is started, whatever becomes of it. *)
Lemma optimize_starts (objective_fn : list float -> result float)
    (low high : float) (n_params n_trials : Z) (pruner_name : string)
    (k : nat) d :
  (length (trials d) + Nat.min 1 k
   <= length (trials (optimize provider objective_fn low high n_params
                        n_trials pruner_name k d).2))%nat.
Proof.
  revert d. induction k as [| k IH]; intros d; cbn [optimize]; [cbn; lia |].
  unfold mbind, M_bind.
  pose proof (run_trial_length provider objective_fn low high n_params
                n_trials pruner_name d) as H.
  destruct (run_trial _ _ _ _ _ _ _ d) as [[[] | e] d1]; cbn in H |- *.
  - specialize (IH d1). lia.
  - lia.
Qed.


End Counts.


(** ** The driver's guarantees on concrete runs *)

Lemma run_benchmark_convergence_length_witness :
  exists r d,
    run_benchmark exact_squares lower_bound_provider half_second
      "random" 1 20 "sphere" "none" "fast" [] = (Ok r, d) /\
    length (convergence r) = 5%nat.
Proof.
  eexists _, _. split; [vm_compute; reflexivity |].
  eapply (run_benchmark_convergence_length exact_squares
            lower_bound_provider half_second "random" 1 20 "sphere" "none"
            "fast" []).
  vm_compute. reflexivity.
Defined.

Lemma run_benchmark_convergence_monotone_witness :
  exists r d,
    run_benchmark exact_squares lower_bound_provider half_second
      "random" 1 20 "sphere" "none" "fast" [] = (Ok r, d) /\
    non_increasing (convergence r) /\
    forall c, c ∈ convergence r -> leb (best_value r) c = true.
Proof.
  eexists _, _. split; [vm_compute; reflexivity |].
  eapply (run_benchmark_convergence_monotone exact_squares
            lower_bound_provider half_second "random" 1 20 "sphere" "none"
            "fast" []).
  vm_compute. reflexivity.
Defined.

Lemma run_benchmark_best_value_least_witness :
  exists r d,
    run_benchmark exact_squares lower_bound_provider half_second
      "random" 1 20 "sphere" "none" "fast" [] = (Ok r, d) /\
    is_nan (best_value r) = false /\
    (exists t, t ∈ trials d /\ state t = COMPLETE /\
               value t = Some (best_value r)) /\
    (forall t v, t ∈ trials d -> state t = COMPLETE -> value t = Some v ->
       leb (best_value r) v = true).
Proof.
  eexists _, _. split; [vm_compute; reflexivity |].
  eapply (run_benchmark_best_value_least exact_squares
            lower_bound_provider half_second "random" 1 20 "sphere" "none"
            "fast" []).
  vm_compute. reflexivity.
Defined.

Lemma run_benchmark_result_key_witness :
  exists r d,
    run_benchmark exact_squares lower_bound_provider half_second
      "random" 1 20 "sphere" "none" "fast" [] = (Ok r, d) /\
    framework r = "optuna" /\
    key r = ("random", "sphere", 1, 20, "none", "fast") /\
    seed r = 42.
Proof.
  eexists _, _. split; [vm_compute; reflexivity |].
  eapply (run_benchmark_result_key exact_squares
            lower_bound_provider half_second "random" 1 20 "sphere" "none"
            "fast" []).
  vm_compute. reflexivity.
Defined.

(** Ten trials with a pruner: two complete, eight are pruned. *)
Example run_benchmark_late_pruning :
  let '(r, d) := run_benchmark exact_squares late_pruning_provider
                   half_second "tpe" 1 10 "sphere" "median" "fast" [] in
  (pruned_trials <$> (match r with Ok r => Some r | Raise _ => None end))
    = Some 8 /\
  state <$> trials d = [COMPLETE; COMPLETE] ++ replicate 8 PRUNED.
Proof. vm_compute. split; reflexivity. Qed.

Lemma pair_fst_eq {A B} (p : A * B) (a : A) : p.1 = a -> p = (a, p.2).
Proof. intros <-. by destruct p. Qed.

Lemma run_benchmark_pruned_trials_bounded_witness :
  let out := run_benchmark exact_squares late_pruning_provider half_second
               "tpe" 1 10 "sphere" "median" "fast" [] in
  exists r,
    out.1 = Ok r /\
    0 <= pruned_trials r <= Z.of_nat (length (pruned_in (trials out.2))) /\
    pruned_trials r <= 10 /\
    ("median" = "none" -> pruned_trials r = 0).
Proof.
  intros out. eexists. split; [vm_compute; reflexivity |].
  apply (run_benchmark_pruned_trials_bounded exact_squares
           late_pruning_provider half_second "tpe" 1 10 "sphere" "median"
           "fast" []).
  apply pair_fst_eq. vm_compute. reflexivity.
Defined.

(** ** Writing and reading a result record *)


Example BenchmarkResult_init_missing_keys :
  BenchmarkResult_init
    (mkData (Some "optuna") (Some "tpe") (Some "sphere") (Some 2) None
       (Some "none") (Some "fast") None (Some 12) (Some (of_Z 0)) (Some 0)
       (Some (of_Z 0)) (Some []) (Some 42))
  = Raise (KeyError "n_trials").
Proof. reflexivity. Qed.

(** ** Groups, keys and the progress line *)

Lemma dom_group_insert (grouped : gmap Key (gmap string BenchmarkResult))
    (r : BenchmarkResult) :
  dom (group_insert grouped r) = dom grouped ∪ {[key r]}.
Proof. unfold group_insert. by rewrite dom_insert_L, (comm_L (∪)). Qed.

Lemma dom_group_by_config (results : list BenchmarkResult) :
  dom (group_by_config results) = list_to_set (key <$> results).
Proof.
  unfold group_by_config.
  induction results as [| r results IH] using rev_ind; [done |].
  rewrite foldl_snoc, dom_group_insert, IH, fmap_app.
  symmetry. apply list_to_set_snoc_L.
Qed.

Lemma candidates_nonempty (k : Key) (f : string)
    (results : list BenchmarkResult) :
  is_Some (last (candidates k f results)) <->
  exists r, r ∈ results /\ key r = k /\ framework r = f.
Proof.
  rewrite last_is_Some. split.
  - intros H. destruct (candidates k f results) as [| r l] eqn:E; [done |].
    exists r. apply candidates_elem. rewrite E. by left.
  - intros (r & Hr) E. apply candidates_elem in Hr. rewrite E in Hr.
    by apply elem_of_nil in Hr.
Qed.

(** The groups are the distinct keys of the input, and the frameworks of
    a group are those of the input results with that key (so no group is
    empty); [total_expected] is the number of distinct keys and
    [completed] never exceeds it. *)
Theorem group_by_config_keys (results : list BenchmarkResult) :
  dom (group_by_config results) = list_to_set (key <$> results) /\
  (forall k frameworks,
     group_by_config results !! k = Some frameworks ->
     dom frameworks =
       list_to_set (framework <$> filter (λ r, key r = k) results) /\
     frameworks <> ∅) /\
  total_expected (group_by_config results)
    = size (list_to_set (key <$> results) : gset Key) /\
  (completed_pairs (group_by_config results)
     <= total_expected (group_by_config results))%nat.
Proof.
  split; [apply dom_group_by_config |]. split; [| split].
  - intros k g Hg.
    assert (Hdom : dom g =
              list_to_set (framework <$> filter (λ r, key r = k) results)).
    { apply set_eq. intros f.
      rewrite elem_of_dom, elem_of_list_to_set, list_elem_of_fmap.
      assert (g !! f = retained (group_by_config results) k f) as ->
        by (unfold retained; by rewrite Hg).
      rewrite retained_group_by_config, candidates_nonempty. split.
      - intros (r & Hr & Hk & Hf). exists r. split; [done |].
        by apply list_elem_of_filter.
      - intros (r & -> & [Hk Hr]%list_elem_of_filter). by exists r. }
    split; [done |]. intros ->.
    assert (k ∈ dom (group_by_config results)) as Hk
      by (apply elem_of_dom; eauto).
    rewrite dom_group_by_config, elem_of_list_to_set, list_elem_of_fmap in Hk.
    destruct Hk as (r & -> & Hr).
    assert (framework r ∈ (dom (∅ : gmap string BenchmarkResult)
                           : gset string)) as Hf.
    { rewrite Hdom, elem_of_list_to_set, list_elem_of_fmap.
      exists r. split; [done |]. by apply list_elem_of_filter. }
    by rewrite dom_empty_L in Hf.
  - unfold total_expected. by rewrite <- size_dom, dom_group_by_config.
  - unfold completed_pairs, total_expected.
    rewrite <- length_map_to_list. apply length_filter.
Qed.

(** With no results directory the report is still produced, and its
    progress line reads 0/0. *)
Theorem progress_line_missing_directory (fl : Flavour)
    (scandir : gmap string entry -> list string)
    (fs : gmap string node) (input_dir : string) :
  fs !! input_dir = None ->
  report_progress fl scandir fs input_dir =
    Ok ("**Progress:** 0/0 configuration pairs completed"
        +:+ newline +:+ newline)%string.
Proof.
  intros H.
  unfold report_progress, load_results, load_results_log, path_exists.
  by rewrite H.
Qed.

Lemma progress_line_missing_directory_witness :
  report_progress posix_flavour scandir_map_order sample_fs "nowhere" =
    Ok ("**Progress:** 0/0 configuration pairs completed"
        +:+ newline +:+ newline)%string.
Proof.
  apply (progress_line_missing_directory posix_flavour scandir_map_order
           sample_fs "nowhere").
  reflexivity.
Defined.

Example progress_line_sample :
  report_progress posix_flavour scandir_map_order sample_fs ".temp/runs"
  = Ok ("**Progress:** 1/1 configuration pairs completed"
        +:+ newline +:+ newline)%string.
Proof. vm_compute. reflexivity. Qed.

(** ** The rows of the report tables *)

Lemma both_present (frameworks : gmap string BenchmarkResult) {A}
    (row : BenchmarkResult -> BenchmarkResult -> A) :
  is_Some (match frameworks !! "optisharp", frameworks !! "optuna" with
           | Some cs, Some py => Some (row cs py)
           | _, _ => None
           end) <->
  is_Some (frameworks !! "optisharp") /\ is_Some (frameworks !! "optuna").
Proof.
  destruct (frameworks !! "optisharp"), (frameworks !! "optuna");
    split; (intros [[] []] || intros []); eauto; try done.
Qed.

Lemma quality_row_is_Some (k : Key) (frameworks : gmap string BenchmarkResult) :
  is_Some (quality_row k frameworks) <->
  is_Some (frameworks !! "optisharp") /\ is_Some (frameworks !! "optuna").
Proof.
  destruct k as [[[[[s o] np] nt] p] t]. unfold quality_row.
  apply both_present.
Qed.

(** For a key of the grouped results: the quality table has a row for it
    exactly when the input holds a result of each of the two frameworks
    [optisharp] and [optuna] with that key; such a key then has a row in
    exactly one of the two other tables: the throughput table when its
    pruner is [none], the pruning table otherwise. *)
Theorem report_rows (results : list BenchmarkResult) (k : Key)
    (frameworks : gmap string BenchmarkResult) :
  group_by_config results !! k = Some frameworks ->
  (is_Some (quality_row k frameworks) <->
   (exists r, r ∈ results /\ key r = k /\ framework r = "optisharp") /\
   (exists r, r ∈ results /\ key r = k /\ framework r = "optuna")) /\
  (is_Some (throughput_row k frameworks) <->
   is_Some (quality_row k frameworks) /\ key_pruner k = "none") /\
  (is_Some (pruning_row k frameworks) <->
   is_Some (quality_row k frameworks) /\ key_pruner k <> "none").
Proof.
  intros Hg. split; [| split].
  - rewrite quality_row_is_Some.
    assert (forall f, frameworks !! f
                      = retained (group_by_config results) k f) as E
      by (intros f; unfold retained; by rewrite Hg).
    by rewrite !E, !retained_group_by_config, !candidates_nonempty.
  - rewrite quality_row_is_Some.
    destruct k as [[[[[s o] np] nt] p] t]. unfold throughput_row. cbn.
    destruct (String.eqb_spec p "none") as [-> | Hp].
    + rewrite both_present. tauto.
    + split; [by intros [] | tauto].
  - rewrite quality_row_is_Some.
    destruct k as [[[[[s o] np] nt] p] t]. unfold pruning_row. cbn.
    destruct (String.eqb_spec p "none") as [-> | Hp]; cbn.
    + split; [by intros [] | tauto].
    + rewrite both_present. tauto.
Qed.

Lemma report_rows_witness :
  let results := [sample_result "optuna" (lit 8 100);
                  sample_result "optisharp" (lit 12 100);
                  sample_result "optisharp" (lit 10 100)] in
  let k : Key := ("tpe", "sphere", 2, 10, "none", "fast") in
  let frameworks : gmap string BenchmarkResult :=
    <["optisharp" := sample_result "optisharp" (lit 10 100)]>
      (<["optuna" := sample_result "optuna" (lit 8 100)]> ∅) in
  is_Some (quality_row k frameworks) /\
  is_Some (throughput_row k frameworks) /\
  ~ is_Some (pruning_row k frameworks).
Proof.
  intros results k frameworks.
  destruct (report_rows results k frameworks) as (H1 & H2 & H3);
    [vm_compute; reflexivity |].
  assert (Hq : is_Some (quality_row k frameworks)).
  { apply H1. split.
    - exists (sample_result "optisharp" (lit 10 100)).
      split; [| split; reflexivity]. vm_compute. repeat constructor.
    - exists (sample_result "optuna" (lit 8 100)).
      split; [| split; reflexivity]. vm_compute. repeat constructor. }
  split; [done |]. split.
  - apply H2. by split.
  - intros [_ Hne]%H3. by apply Hne.
Defined.

Example report_rows_sample :
  let results := [sample_result "optuna" (lit 8 100);
                  sample_result "optisharp" (lit 12 100);
                  sample_result "optisharp" (lit 10 100)] in
  let k : Key := ("tpe", "sphere", 2, 10, "none", "fast") in
  (group_by_config results !! k ≫= throughput_row k) =
    Some ("| sphere | tpe | 2 | 10 | 833.30 | 833.30 | Tie |" +:+ newline)%string.
Proof. vm_compute. reflexivity. Qed.

(** The throughput winner is decided by [>] alone: the decision is
    antisymmetric, and it is a tie exactly when neither value is
    strictly greater than the other, which includes equal values and any
    comparison with NaN; an infinite throughput is not set aside as an
    infinite best value is. *)
Theorem throughput_winner_spec (cs py : BenchmarkResult) :
  (throughput_winner cs py = "OptiSharp" <->
   throughput_winner py cs = "Optuna") /\
  (throughput_winner cs py = "OptiSharp" <->
   ltb (trials_per_second py) (trials_per_second cs) = true) /\
  (throughput_winner cs py = "Tie" <->
   ltb (trials_per_second py) (trials_per_second cs) = false /\
   ltb (trials_per_second cs) (trials_per_second py) = false) /\
  (is_nan (trials_per_second cs) = true \/
   is_nan (trials_per_second py) = true ->
   throughput_winner cs py = "Tie").
Proof.
  unfold throughput_winner, gtb.
  set (a := trials_per_second cs). set (b := trials_per_second py).
  assert (Hn : is_nan a = true \/ is_nan b = true ->
               ltb b a = false /\ ltb a b = false).
  { intros [Ha | Hb]; [destruct a; try done | destruct b; try done];
      by rewrite ?ltb_nan_l, ?ltb_nan_r. }
  pose proof (ltb_asym a b) as Hab. pose proof (ltb_asym b a) as Hba.
  destruct (ltb b a) eqn:E1, (ltb a b) eqn:E2;
    [by specialize (Hba eq_refl) | ..];
    repeat split; try done; try (intros [? ?]; done);
    intros Hx; by destruct (Hn Hx).
Qed.

(** ** Accounting for the files of a results directory *)

Lemma load_loop_warnings (entries : gmap string entry) (paths : list string) :
  (load_loop entries paths).2 = omap (failed entries) paths.
Proof.
  induction paths as [| p paths IH]; [done |].
  change (omap (failed entries) (p :: paths)) with
    (match failed entries p with
     | Some w => w :: omap (failed entries) paths
     | None => omap (failed entries) paths
     end).
  rewrite <- IH. cbn [load_loop].
  destruct (load_loop entries paths) as [results warnings].
  unfold failed. destruct (entries !! p) as [e |]; cbn; [| done].
  by destruct (load_file e).
Qed.

Lemma loaded_or_failed (entries : gmap string entry) (paths : list string) :
  Forall (λ p, is_Some (entries !! p)) paths ->
  (length (omap (loaded entries) paths)
   + length (omap (failed entries) paths) = length paths)%nat.
Proof.
  induction 1 as [| p paths [e He] _ IH]; [done |].
  cbn. unfold loaded at 1, failed at 1. rewrite He. cbn.
  destruct (load_file e); cbn; lia.
Qed.

Lemma load_loop_ext (entries entries' : gmap string entry)
    (paths : list string) :
  Forall (λ p, entries !! p = entries' !! p) paths ->
  load_loop entries paths = load_loop entries' paths.
Proof.
  induction 1 as [| p paths Hp _ IH]; [done |].
  cbn. by rewrite IH, Hp.
Qed.

Lemma matching_names_length (fl : Flavour) (names : list string)
    (entries : gmap string entry) :
  NoDup names ->
  (forall name,
     name ∈ names <->
     matches_json fl name = true /\ is_Some (entries !! name)) ->
  length names = size (filter (λ kv, matches_json fl kv.1 = true) entries).
Proof.
  intros Hnd Hmem.
  rewrite <- length_map_to_list,
    <- (length_fmap fst (map_to_list (filter _ entries))).
  apply Permutation_length, NoDup_Permutation;
    [done | apply NoDup_fst_map_to_list |].
  intros name. rewrite Hmem, elem_of_directory_names. split.
  - intros [Hj [e He]]. exists e. by apply map_lookup_filter_Some.
  - intros [e [He Hj]%map_lookup_filter_Some]. eauto.
Qed.

Lemma omap_agree {A B} (f g : A -> option B) (l : list A) :
  Forall (λ x, f x = g x) l -> omap f l = omap g l.
Proof.
  induction 1 as [| x l Hx _ IH]; [done |].
  cbn. by rewrite Hx, IH.
Qed.

Lemma load_results_log_directory (fl : Flavour)
    (scandir : gmap string entry -> list string)
    (fs : gmap string node) (input_dir : string)
    (entries : gmap string entry) :
  fs !! input_dir = Some (DirNode entries) ->
  load_results_log fl scandir fs input_dir =
    let names := sorted (path_le fl) (glob_json fl scandir entries) in
    (Ok (omap (loaded entries) names), omap (failed entries) names).
Proof.
  intros Hdir. unfold load_results_log, path_exists. rewrite Hdir.
  cbv zeta. rewrite <- load_loop_results, <- load_loop_warnings.
  by destruct (load_loop _ _).
Qed.

(** Every entry of a directory that the pattern matches is accounted
    for: it either contributes a result or a warning, so the two lists
    together are as long as there are matching entries; and a warning is
    printed exactly for the matching entries that fail to load, with the
    exception that made them fail.  Nothing is raised. *)
Theorem load_results_accounting (fl : Flavour)
    (scandir : gmap string entry -> list string)
    (fs : gmap string node) (input_dir : string)
    (entries : gmap string entry) :
  scandir entries ≡ₚ (map_to_list entries).*1 ->
  fs !! input_dir = Some (DirNode entries) ->
  exists results warnings,
    load_results_log fl scandir fs input_dir = (Ok results, warnings) /\
    (length results + length warnings)%nat
      = size (filter (λ kv, matches_json fl kv.1 = true) entries) /\
    (forall name ex,
       (name, ex) ∈ warnings <->
       matches_json fl name = true /\
       exists e, entries !! name = Some e /\ load_file e = Raise ex).
Proof.
  intros Hscan Hdir. rewrite (load_results_log_directory _ _ _ _ _ Hdir).
  cbv zeta.
  destruct (sorted_names_spec fl scandir entries Hscan) as (_ & Hnd & Hmem).
  set (names := sorted (path_le fl) (glob_json fl scandir entries)) in *.
  eexists _, _. split; [reflexivity |]. split.
  - rewrite loaded_or_failed; [by apply matching_names_length |].
    apply Forall_forall. intros p Hp. by apply Hmem.
  - intros name ex. rewrite list_elem_of_omap. split.
    + intros (p & Hp & Hf). unfold failed in Hf.
      destruct (entries !! p) as [e |] eqn:Ee; [| done]. cbn in Hf.
      destruct (load_file e) as [| ex'] eqn:El; [done |].
      injection Hf as <- <-. split; [by apply Hmem | eauto].
    + intros (Hj & e & He & Hl). exists name. split; [apply Hmem; eauto |].
      unfold failed. rewrite He. cbn. by rewrite Hl.
Qed.

Lemma load_results_accounting_witness :
  exists results warnings,
    load_results_log posix_flavour scandir_map_order sample_fs ".temp/runs"
      = (Ok results, warnings) /\
    (length results + length warnings)%nat = 6%nat.
Proof.
  destruct (load_results_accounting posix_flavour scandir_map_order sample_fs
              ".temp/runs" sample_entries)
    as (results & warnings & Hlog & Hlen & _); [reflexivity | reflexivity |].
  exists results, warnings. split; [exact Hlog |].
  rewrite Hlen. vm_compute. reflexivity.
Defined.

(** Entries whose names the pattern does not match never influence what
    is loaded: two directories that agree on their matching entries give
    the same results and the same warnings, however each is enumerated
    (the flavour telling the matching names apart). *)
Theorem load_results_ignores_other_files (fl : Flavour)
    (scandir scandir' : gmap string entry -> list string)
    (fs fs' : gmap string node) (input_dir input_dir' : string)
    (entries entries' : gmap string entry) :
  scandir entries ≡ₚ (map_to_list entries).*1 ->
  scandir' entries' ≡ₚ (map_to_list entries').*1 ->
  fs !! input_dir = Some (DirNode entries) ->
  fs' !! input_dir' = Some (DirNode entries') ->
  distinct_names fl entries ->
  (forall name, matches_json fl name = true ->
     entries !! name = entries' !! name) ->
  load_results_log fl scandir' fs' input_dir'
    = load_results_log fl scandir fs input_dir.
Proof.
  intros Hscan Hscan' Hdir Hdir' Hdistinct Hagree.
  rewrite (load_results_log_directory _ _ _ _ _ Hdir),
    (load_results_log_directory _ _ _ _ _ Hdir').
  cbv zeta.
  destruct (sorted_names_spec fl scandir entries Hscan) as (S1 & N1 & M1).
  destruct (sorted_names_spec fl scandir' entries' Hscan') as (S2 & N2 & M2).
  assert (sorted (path_le fl) (glob_json fl scandir' entries')
          = sorted (path_le fl) (glob_json fl scandir entries)) as ->.
  { apply (Sorted_unique_strong (path_le fl)); [| done | done |].
    - intros a b [Ha Ha']%M2 [Hb Hb']%M1 Hab Hba.
      rewrite <- (Hagree a Ha) in Ha'.
      apply Hdistinct; auto using path_le_antisym.
    - apply NoDup_Permutation; [done | done |].
      intros name. rewrite M1, M2. split; intros [Hj Hs]; split; try done.
      + by rewrite (Hagree name Hj).
      + by rewrite <- (Hagree name Hj). }
  set (names := sorted (path_le fl) (glob_json fl scandir entries)) in *.
  assert (Hext : Forall (λ p, entries' !! p = entries !! p) names).
  { apply Forall_forall. intros p [Hj _]%M1. symmetry. by apply Hagree. }
  f_equal.
  - f_equal. apply omap_agree.
    eapply Forall_impl; [exact Hext |]. intros p E. unfold loaded. by rewrite E.
  - apply omap_agree.
    eapply Forall_impl; [exact Hext |]. intros p E. unfold failed. by rewrite E.
Qed.

Lemma load_results_ignores_other_files_witness :
  load_results_log posix_flavour scandir_map_order
    (<["runs" := DirNode (delete "notes.txt" sample_entries)]> ∅) "runs"
  = load_results_log posix_flavour scandir_map_order sample_fs ".temp/runs".
Proof.
  apply (load_results_ignores_other_files posix_flavour scandir_map_order
           scandir_map_order sample_fs
           (<["runs" := DirNode (delete "notes.txt" sample_entries)]> ∅)
           ".temp/runs" "runs" sample_entries
           (delete "notes.txt" sample_entries));
    [reflexivity | reflexivity | reflexivity | reflexivity
    | apply distinct_names_posix |].
  intros name Hj. symmetry. apply lookup_delete_ne. by intros <-.
Defined.

(** Names that the flavour takes for equal are read in the order in
    which the directory is enumerated: the files are read in ascending
    order of their casefolded names, and [sorted] is stable. *)
Theorem load_results_ties_in_enumeration_order (fl : Flavour)
    (scandir : gmap string entry -> list string)
    (fs : gmap string node) (input_dir : string)
    (entries : gmap string entry) :
  fs !! input_dir = Some (DirNode entries) ->
  exists names,
    load_results fl scandir fs input_dir = Ok (omap (loaded entries) names) /\
    Sorted (λ a b, String.leb (casefold fl a) (casefold fl b) = true) names /\
    forall a,
      filter (λ b, casefold fl b = casefold fl a) names
      = filter (λ b, casefold fl b = casefold fl a)
          (List.filter (matches_json fl) (scandir entries)).
Proof.
  intros Hdir.
  exists (sorted (path_le fl) (glob_json fl scandir entries)).
  split; [by apply load_results_directory |].
  split; [apply (Sorted_sorted (path_le fl)) |].
  intros a.
  assert (Htie : forall b,
            casefold fl b = casefold fl a <->
            path_le fl a b ∧ path_le fl b a).
  { intros b. split.
    - intros E. unfold path_le. rewrite E.
      split; apply (path_le_refl fl a).
    - intros [Hab Hba]. symmetry. by apply path_le_antisym. }
  rewrite !(list_filter_iff _ _ _ Htie).
  apply (sorted_stable (path_le fl)).
Qed.

Lemma load_results_ties_in_enumeration_order_witness :
  exists names,
    load_results (windows_flavour ascii_lower) scandir_map_order
      (<["runs" := DirNode tie_entries]> ∅) "runs"
    = Ok (omap (loaded tie_entries) names) /\
    Sorted (λ a b, String.leb (ascii_lower a) (ascii_lower b) = true) names /\
    forall a,
      filter (λ b, ascii_lower b = ascii_lower a) names
      = filter (λ b, ascii_lower b = ascii_lower a)
          (List.filter (matches_json (windows_flavour ascii_lower))
             (scandir_map_order tie_entries)).
Proof.
  apply (load_results_ties_in_enumeration_order (windows_flavour ascii_lower)
           scandir_map_order (<["runs" := DirNode tie_entries]> ∅) "runs"
           tie_entries).
  reflexivity.
Defined.

(** ** Grouping without duplicates *)

Lemma candidates_at_most_one (k : Key) (f : string)
    (results : list BenchmarkResult) :
  NoDup (identity <$> results) ->
  (length (candidates k f results) <= 1)%nat.
Proof.
  unfold candidates.
  induction results as [| r results IH]; [cbn; lia |].
  rewrite fmap_cons. intros [Hnotin Hnd]%NoDup_cons.
  rewrite filter_cons. destruct (decide _) as [[Hk Hf] |]; [| by apply IH].
  destruct (filter _ results) as [| r' l] eqn:E; [cbn; lia |].
  exfalso. apply Hnotin.
  assert (r' ∈ filter (λ r0, key r0 = k ∧ framework r0 = f) results)
    as [[Hk' Hf'] Hin]%list_elem_of_filter by (rewrite E; by left).
  apply list_elem_of_fmap. exists r'. split; [| done].
  unfold identity. congruence.
Qed.

Lemma short_lists_Permutation {A} (l1 l2 : list A) :
  (length l1 <= 1)%nat -> l1 ≡ₚ l2 -> l1 = l2.
Proof.
  intros Hlen Hperm.
  destruct l1 as [| x [| y l1]]; [| | cbn in Hlen; lia].
  - by apply Permutation_nil_l in Hperm.
  - by apply Permutation_singleton_l in Hperm.
Qed.

(** When no two results of the input share both key and framework, the
    grouping does not depend on the order of the input. *)
Theorem group_by_config_order_independent
    (results results' : list BenchmarkResult) :
  NoDup (identity <$> results) -> results ≡ₚ results' ->
  group_by_config results' = group_by_config results.
Proof.
  intros Hnd Hperm.
  assert (Hret : forall k f,
            retained (group_by_config results') k f
            = retained (group_by_config results) k f).
  { intros k f. rewrite !retained_group_by_config. f_equal.
    symmetry. apply short_lists_Permutation;
      [by apply candidates_at_most_one |].
    unfold candidates. by rewrite Hperm. }
  assert (Hdom : dom (group_by_config results')
                 = dom (group_by_config results)).
  { rewrite !dom_group_by_config. apply set_eq. intros k.
    rewrite !elem_of_list_to_set. by rewrite Hperm. }
  apply map_eq. intros k.
  destruct (group_by_config results !! k) as [g |] eqn:Eg.
  - assert (is_Some (group_by_config results' !! k)) as [g' Eg'].
    { apply elem_of_dom. rewrite Hdom. apply elem_of_dom. eauto. }
    rewrite Eg'. f_equal. apply map_eq. intros f.
    specialize (Hret k f). unfold retained in Hret.
    by rewrite Eg, Eg' in Hret.
  - apply not_elem_of_dom. rewrite Hdom. by apply not_elem_of_dom.
Qed.

Lemma group_by_config_order_independent_witness :
  group_by_config [sample_result "optuna" (lit 8 100);
                   sample_result "optisharp" (lit 12 100)]
  = group_by_config [sample_result "optisharp" (lit 12 100);
                     sample_result "optuna" (lit 8 100)].
Proof.
  apply (group_by_config_order_independent
           [sample_result "optisharp" (lit 12 100);
            sample_result "optuna" (lit 8 100)]
           [sample_result "optuna" (lit 8 100);
            sample_result "optisharp" (lit 12 100)]).
  - apply NoDup_cons. split.
    + intros [H | H]%elem_of_cons; [discriminate | by apply elem_of_nil in H].
    + apply NoDup_singleton.
  - apply Permutation_swap.
Defined.
